(** * jay::time -- calendar, tick and timezone arithmetic

    A shallow embedding of [time.hpp], [time.cpp], [timezone.cpp],
    [iso8601.hpp] and [iso8601.cpp] and the properties of their functions.

    Machine integers are integers of [Z] with the wrap-around written out:
    [WORD] is 16 bits unsigned, [DWORD] and [unsigned] are 32 bits unsigned,
    [LONG], [long] and [int] are 32 bits signed (the Windows data model) and
    [long long] is 64 bits signed.  Signed arithmetic that leaves its range
    is modelled as two's complement wrap-around, which is what the compilers
    named in the sources produce for these expressions.

    A parameter passed by reference is a value where the function reads it
    before it writes anything, and a reference into the memory of the
    caller where it does not: there two parameters may name the same
    object, and what the function does then is part of the model. *)

From Stdlib Require Import ZArith Bool List Lia.
From Stdlib Require Ascii String DecimalString.
Import ListNotations.
Local Open Scope Z_scope.

(** ** Machine integers *)

Module Int.

Definition u16 (z : Z) : Z := z mod 2 ^ 16.
Definition u32 (z : Z) : Z := z mod 2 ^ 32.
Definition s32 (z : Z) : Z := (z + 2 ^ 31) mod 2 ^ 32 - 2 ^ 31.
Definition s64 (z : Z) : Z := (z + 2 ^ 63) mod 2 ^ 64 - 2 ^ 63.

Definition is_u16 (z : Z) : Prop := 0 <= z < 2 ^ 16.
Definition is_u32 (z : Z) : Prop := 0 <= z < 2 ^ 32.
Definition is_s32 (z : Z) : Prop := - 2 ^ 31 <= z < 2 ^ 31.
Definition is_s64 (z : Z) : Prop := - 2 ^ 63 <= z < 2 ^ 63.

Definition LLONG_MIN : Z := - 2 ^ 63.
Definition LLONG_MAX : Z := 2 ^ 63 - 1.

End Int.
Import Int.

Arguments u16 : simpl never.
Arguments u32 : simpl never.
Arguments s32 : simpl never.
Arguments s64 : simpl never.

(** ** Windows structures *)

Record SYSTEMTIME : Type := mkST
  { wYear : Z; wMonth : Z; wDayOfWeek : Z; wDay : Z;
    wHour : Z; wMinute : Z; wSecond : Z; wMilliseconds : Z }.

(** [SYSTEMTIME st = {};] *)
Definition zero_SYSTEMTIME : SYSTEMTIME := mkST 0 0 0 0 0 0 0 0.

Record FILETIME : Type := mkFT { dwLowDateTime : Z; dwHighDateTime : Z }.

Record TIME_ZONE_INFORMATION : Type := mkTZI
  { Bias : Z;
    StandardName : list Z;
    StandardDate : SYSTEMTIME;
    StandardBias : Z;
    DaylightName : list Z;
    DaylightDate : SYSTEMTIME;
    DaylightBias : Z }.

(** Every field holds a value of its C type. *)
Definition wf_SYSTEMTIME (st : SYSTEMTIME) : Prop :=
  is_u16 (wYear st) /\ is_u16 (wMonth st) /\ is_u16 (wDayOfWeek st) /\
  is_u16 (wDay st) /\ is_u16 (wHour st) /\ is_u16 (wMinute st) /\
  is_u16 (wSecond st) /\ is_u16 (wMilliseconds st).

Definition wf_FILETIME (ft : FILETIME) : Prop :=
  is_u32 (dwLowDateTime ft) /\ is_u32 (dwHighDateTime ft).

Definition wf_biases (tzi : TIME_ZONE_INFORMATION) : Prop :=
  is_s32 (Bias tzi) /\ is_s32 (StandardBias tzi) /\ is_s32 (DaylightBias tzi).

(** ** References and outcomes

    A parameter of type [T &] or [const T &] is a reference into the memory
    of the caller.  The memory is any type [M]; a reference reads its
    object from a memory and writes it into one.  The definitions assume
    nothing of the references they are given: two of them may name the
    same object, or one a member of the other. *)

Record ref (M T : Type) : Type := mkRef
  { load : M -> T; store : T -> M -> M }.

Arguments mkRef {M T}.
Arguments load {M T}.
Arguments store {M T}.

(** The member [x.f] of the object [x] of a reference, given how [f] is
    read and assigned in a value of the type of [x]. *)
Definition member {M T U : Type} (x : ref M T)
  (get : T -> U) (set : T -> U -> T) : ref M U :=
  mkRef (fun m => get (load x m))
        (fun v m => store x (set (load x m) v) m).

(** A call either returns, or ends the process in [abort] when an [assert]
    fails. *)
Inductive outcome (A : Type) : Type :=
| Returned (a : A)
| Aborted.

Arguments Returned {A}.
Arguments Aborted {A}.

(** ** time.hpp / time.cpp *)

Definition IsYearValid (year : Z) : bool :=
  (1601 <=? year) && (year <=? 30827).

Definition IsLeapYear (year : Z) : bool :=
  if year mod 400 =? 0 then true
  else if year mod 100 =? 0 then false
  else if year mod 4 =? 0 then true
  else false.

Definition days_in_month : list Z :=
  [31; 28; 31; 30; 31; 30; 31; 31; 30; 31; 30; 31].

Definition IsDateValid (day month year : Z) : bool :=
  if negb (IsYearValid year)
     || ((month <? 1) || (12 <? month))
     || ((day <? 1) || (31 <? day))
  then false
  else (day <=? nth (Z.to_nat (month - 1)) days_in_month 0)
       || ((day =? 29) && (month =? 2) && IsLeapYear year).

(** The number of days that [IsDateValid] allows in a month. *)
Definition month_length (leap : bool) (month : Z) : Z :=
  if leap && (month =? 2) then 29
  else nth (Z.to_nat (month - 1)) days_in_month 0.

Definition sakamoto_t : list Z := [0; 3; 2; 5; 0; 3; 5; 1; 4; 6; 2; 4].

(** The part of Sakamoto's sum that does not depend on the day. *)
Definition dow_base (month year : Z) : Z :=
  let y := year - (if month <? 3 then 1 else 0) in
  y + y / 4 - y / 100 + y / 400 + nth (Z.to_nat (month - 1)) sakamoto_t 0.

(** All operands are [unsigned]; the result is narrowed to [unsigned short]. *)
Definition GetDayOfWeek (day month year : Z) : Z :=
  if (month <? 1) || (12 <? month) then 0
  else
    let y := u32 (year - (if month <? 3 then 1 else 0)) in
    u16 (u32 (y + y / 4 - y / 100 + y / 400
              + nth (Z.to_nat (month - 1)) sakamoto_t 0 + day) mod 7).

Definition IsSystemTimeValid_IgnoreDayOfWeek (st : SYSTEMTIME) : bool :=
  IsDateValid (wDay st) (wMonth st) (wYear st)
  && (wHour st <=? 23)
  && (wMinute st <=? 59)
  && (wSecond st <=? 59)
  && (wMilliseconds st <=? 999).

Definition IsSystemTimeValid (st : SYSTEMTIME) : bool :=
  IsSystemTimeValid_IgnoreDayOfWeek st
  && (wDayOfWeek st =? GetDayOfWeek (wDay st) (wMonth st) (wYear st)).

(** [FILETIME max = { 0xF06C58F0, 0x7FFF35F4 }] *)
Definition max_FILETIME : FILETIME := mkFT 4033632496 2147431924.

Definition IsFileTimeValid (ft : FILETIME) : bool :=
  (dwHighDateTime ft <? dwHighDateTime max_FILETIME)
  || ((dwHighDateTime ft =? dwHighDateTime max_FILETIME)
      && (dwLowDateTime ft <=? dwLowDateTime max_FILETIME)).

(** [LARGE_INTEGER li = { { ft.dwLowDateTime, (LONG)ft.dwHighDateTime } }] and
    the value read back through [li.QuadPart]. *)
Definition QuadPart (ft : FILETIME) : Z :=
  s32 (dwHighDateTime ft) * 2 ^ 32 + dwLowDateTime ft.

(** [li.LowPart] and [(DWORD)li.HighPart] of a 64-bit [QuadPart]. *)
Definition of_QuadPart (q : Z) : FILETIME :=
  mkFT (u32 q) (u32 (q / 2 ^ 32)).

(** The reference parameter [ft] is returned next to the result. *)
Definition FileTimeSubtract100nsIntervals (ft : FILETIME) (intervals : Z)
  : bool * FILETIME :=
  if negb (IsFileTimeValid ft) then (false, ft)
  else if intervals =? 0 then (true, ft)
  else
    let li := QuadPart ft in
    if ((0 <? intervals) && (li <? s64 (LLONG_MIN + intervals)))
       || ((intervals <? 0) && (s64 (LLONG_MAX + intervals) <? li))
    then (false, ft)
    else
      let ft' := of_QuadPart (s64 (li - intervals)) in
      (IsFileTimeValid ft', ft').

Definition FileTimeAdd100nsIntervals (ft : FILETIME) (intervals : Z)
  : bool * FILETIME :=
  if ((intervals <? 0) && (s64 (LLONG_MAX + intervals) <? 0))
     || ((0 <? intervals) && (0 <? s64 (LLONG_MIN + intervals)))
  then (false, ft)
  else FileTimeSubtract100nsIntervals ft (s64 (- intervals)).

(** [minutes * 10000 * 1000 * 60], left to right in [long long]. *)
Definition minutes_to_intervals (minutes : Z) : Z :=
  s64 (s64 (s64 (minutes * 10000) * 1000) * 60).

Definition FileTimeSubtractMinutes (ft : FILETIME) (minutes : Z)
  : bool * FILETIME :=
  FileTimeSubtract100nsIntervals ft (minutes_to_intervals minutes).

Definition FileTimeAddMinutes (ft : FILETIME) (minutes : Z)
  : bool * FILETIME :=
  FileTimeAdd100nsIntervals ft (minutes_to_intervals minutes).

(** [RETURN_IF_NOT_EQUAL(a,b)] followed by the rest of the function. *)
Definition RETURN_IF_NOT_EQUAL (a b : Z) (rest : Z) : Z :=
  if a <? b then -1 else if b <? a then 1 else rest.

Definition CompareSystemTimes_IgnoreDayOfWeek (a b : SYSTEMTIME) : Z :=
  RETURN_IF_NOT_EQUAL (wYear a) (wYear b)
  (RETURN_IF_NOT_EQUAL (wMonth a) (wMonth b)
  (RETURN_IF_NOT_EQUAL (wDay a) (wDay b)
  (RETURN_IF_NOT_EQUAL (wHour a) (wHour b)
  (RETURN_IF_NOT_EQUAL (wMinute a) (wMinute b)
  (RETURN_IF_NOT_EQUAL (wSecond a) (wSecond b)
  (RETURN_IF_NOT_EQUAL (wMilliseconds a) (wMilliseconds b) 0)))))).

Definition CompareSystemTimes (a b : SYSTEMTIME) : Z :=
  let x := CompareSystemTimes_IgnoreDayOfWeek a b in
  if negb (x =? 0) then x
  else RETURN_IF_NOT_EQUAL (wDayOfWeek a) (wDayOfWeek b) 0.

(** ** timezone.hpp / timezone.cpp *)

(** Field assignments of the form [st.wDay = v]. *)
Definition set_wYear (st : SYSTEMTIME) (v : Z) : SYSTEMTIME :=
  mkST v (wMonth st) (wDayOfWeek st) (wDay st)
       (wHour st) (wMinute st) (wSecond st) (wMilliseconds st).
Definition set_wDayOfWeek (st : SYSTEMTIME) (v : Z) : SYSTEMTIME :=
  mkST (wYear st) (wMonth st) v (wDay st)
       (wHour st) (wMinute st) (wSecond st) (wMilliseconds st).
Definition set_wDay (st : SYSTEMTIME) (v : Z) : SYSTEMTIME :=
  mkST (wYear st) (wMonth st) (wDayOfWeek st) v
       (wHour st) (wMinute st) (wSecond st) (wMilliseconds st).

(** The constants of the Windows header [winbase.h], which the sources
    include: 0, 1, 2 and [(DWORD)0xFFFFFFFF]. *)
Definition TIME_ZONE_ID_UNKNOWN : Z := 0.
Definition TIME_ZONE_ID_STANDARD : Z := 1.
Definition TIME_ZONE_ID_DAYLIGHT : Z := 2.
Definition TIME_ZONE_ID_INVALID : Z := 4294967295.

Definition IsRelativeTimezoneTimeValid (tzt : SYSTEMTIME) : bool :=
  (wYear tzt =? 0)
  && ((1 <=? wMonth tzt) && (wMonth tzt <=? 12))
  && (wDayOfWeek tzt <=? 6)
  && ((1 <=? wDay tzt) && (wDay tzt <=? 5))
  && (wHour tzt <=? 23)
  && (wMinute tzt <=? 59)
  && (wSecond tzt <=? 59)
  && (wMilliseconds tzt <=? 999).

Definition IsAbsoluteTimezoneTimeValid (tzt : SYSTEMTIME) : bool :=
  IsSystemTimeValid_IgnoreDayOfWeek tzt.

Definition IsTimezoneTimeValid (tzt : SYSTEMTIME) : bool :=
  IsRelativeTimezoneTimeValid tzt || IsAbsoluteTimezoneTimeValid tzt.

Definition IsTimezoneTimeIgnored (tzt : SYSTEMTIME) : bool :=
  wMonth tzt =? 0.

Definition max_diff : Z := 24 * 60.

Definition AreTimezoneBiasesValid (tzi : TIME_ZONE_INFORMATION) : bool :=
  if ((0 <? Bias tzi) && (max_diff <? Bias tzi))
     || ((Bias tzi <? 0) && (Bias tzi <? s32 (- max_diff)))
     || ((0 <? StandardBias tzi)
         && (s32 (max_diff - StandardBias tzi) <? Bias tzi))
     || ((StandardBias tzi <? 0)
         && (Bias tzi <? s32 (s32 (- max_diff) - StandardBias tzi)))
     || ((0 <? DaylightBias tzi)
         && (s32 (max_diff - DaylightBias tzi) <? Bias tzi))
     || ((DaylightBias tzi <? 0)
         && (Bias tzi <? s32 (s32 (- max_diff) - DaylightBias tzi)))
  then false
  else true.

(** [wmemchr( name, 0, 32 )] on a [WCHAR[ 32 ]] is not null. *)
Definition has_terminator (name : list Z) : bool :=
  existsb (Z.eqb 0) (firstn 32 name).

Definition IsTimezoneInfoValid
  (tzi : TIME_ZONE_INFORMATION) (allow_ignored_dates : bool) : bool :=
  AreTimezoneBiasesValid tzi
  && (IsTimezoneTimeValid (StandardDate tzi)
      || (allow_ignored_dates && IsTimezoneTimeIgnored (StandardDate tzi)))
  && (IsTimezoneTimeValid (DaylightDate tzi)
      || (allow_ignored_dates && IsTimezoneTimeIgnored (DaylightDate tzi)))
  && has_terminator (StandardName tzi)
  && has_terminator (DaylightName tzi).

(** The [WORD] operands of [( local.wDay - 1 ) / 7 + 1] and
    [local.wDay + 7] are promoted to [int]; the results become [unsigned].
    [local] is read again after [tzt] has been written, so both are
    references, and the memory of the caller is returned next to the
    result. *)
Definition LocalTimeToRelativeTimezoneTime {M : Type}
  (local : ref M SYSTEMTIME) (make_final_occurrence_if_last_occurrence : bool)
  (tzt : ref M SYSTEMTIME) (m : M) : bool * M :=
  if negb (IsSystemTimeValid_IgnoreDayOfWeek (load local m)) then (false, m)
  else
    let occurrence :=
      u32 (s32 (Z.quot (s32 (wDay (load local m) - 1)) 7 + 1)) in
    let occurrence :=
      if (occurrence =? 4)
         && negb (IsDateValid (u32 (s32 (wDay (load local m) + 7)))
                              (wMonth (load local m)) (wYear (load local m)))
         && make_final_occurrence_if_last_occurrence
      then 5 else occurrence in
    (* tzt = local; *)
    let m := store tzt (load local m) m in
    (* tzt.wDay = (WORD)occurrence; *)
    let m := store tzt (set_wDay (load tzt m) (u16 occurrence)) m in
    (* tzt.wDayOfWeek = GetDayOfWeek( local.wDay, local.wMonth, local.wYear ); *)
    let m :=
      store tzt
        (set_wDayOfWeek (load tzt m)
           (GetDayOfWeek (wDay (load local m)) (wMonth (load local m))
                         (wYear (load local m)))) m in
    (* tzt.wYear = 0; *)
    let m := store tzt (set_wYear (load tzt m) 0) m in
    (true, m).

(** [tzt_year], [first_day_of_week], [days_after_first_occurrence] and [day]
    are [unsigned]; [( tzt.wDay - 1 ) * 7] is computed in [int]. *)
Definition TimezoneTimeToLocalTime
  (tzt : SYSTEMTIME) (tzt_year : Z) (local : SYSTEMTIME)
  : bool * SYSTEMTIME :=
  if negb (IsRelativeTimezoneTimeValid tzt) then
    if IsAbsoluteTimezoneTimeValid tzt then
      let local := tzt in
      (true, set_wDayOfWeek local
               (GetDayOfWeek (wDay local) (wMonth local) (wYear local)))
    else (false, local)
  else if negb (IsYearValid tzt_year) then (false, local)
  else
    let first_day_of_week := GetDayOfWeek 1 (wMonth tzt) tzt_year in
    let days_after_first_occurrence := u32 (s32 (s32 (wDay tzt - 1) * 7)) in
    let day :=
      if first_day_of_week <=? wDayOfWeek tzt
      then u32 (u32 (u32 (wDayOfWeek tzt - first_day_of_week) + 1)
                + days_after_first_occurrence)
      else u32 (u32 (u32 (u32 (u32 (6 - first_day_of_week) + 1)
                          + wDayOfWeek tzt) + 1)
                + days_after_first_occurrence) in
    let day :=
      if negb (IsDateValid day (wMonth tzt) tzt_year)
      then u32 (day - 7) else day in
    let local := tzt in
    let local := set_wDay local (u16 day) in
    let local := set_wYear local (u16 tzt_year) in
    (true, local).

(** [local2] starts as [{}] and the result of the conversion is not looked
    at. *)
Definition CompareLocalTimeToTimezoneTime (local tzt : SYSTEMTIME) : Z :=
  let local2 := snd (TimezoneTimeToLocalTime tzt (wYear local) zero_SYSTEMTIME) in
  CompareSystemTimes local local2.

(** The structure declared at the top of [timezone.cpp].  Its first seven
    members are those of [TIME_ZONE_INFORMATION], in the same order. *)
Record DYNAMIC_TIME_ZONE_INFORMATION : Type := mkDTZI
  { dtzi_head : TIME_ZONE_INFORMATION;
    TimeZoneKeyName : list Z;
    DynamicDaylightTimeDisabled : Z }.

(** What a conversion leaves in the objects of [local_time], [tzi_id] and
    [tzi]. *)
Record utc_to_local_state : Type := mkState
  { out_local_time : SYSTEMTIME;
    out_tzi_id : Z;
    out_tzi : TIME_ZONE_INFORMATION }.

(** The year that [GetLocalTimeForTimezone] works with. *)
Definition effective_year (utc_st : SYSTEMTIME) (tzi_year : Z) : Z :=
  if tzi_year =? 0 then wYear utc_st else tzi_year.

(** [TIME_ZONE_INFORMATION tzi = {};] *)
Definition zero_TIME_ZONE_INFORMATION : TIME_ZONE_INFORMATION :=
  mkTZI 0 (repeat 0 32%nat) zero_SYSTEMTIME 0
        (repeat 0 32%nat) zero_SYSTEMTIME 0.

(** *** The functions that call into the operating system

    The WinAPI functions are not part of the repository; they are the
    variables of this section.  A call that fails is [None] and leaves the
    caller's structures as they were.  [GetLastError] codes are not
    modelled: no returned value depends on them.  Neither is what
    [DEBUG_ST] prints.

    [NDEBUG] tells whether the sources are compiled with the macro [NDEBUG]
    defined, which makes [assert] expand to nothing. *)

Section Platform.

Variable NDEBUG : bool.

(** [assert( e )] of [<assert.h>]. *)
Definition assert (e : bool) : outcome unit :=
  if NDEBUG || e then Returned tt else Aborted.

Variable SystemTimeToFileTime : SYSTEMTIME -> option FILETIME.
Variable FileTimeToSystemTime : FILETIME -> option SYSTEMTIME.

(** [None] when [GetProcAddress] found no such function, otherwise what the
    call returns: the timezone id and the structure it fills in. *)
Variable pfnGetDynamicTimeZoneInformation
  : option (Z * DYNAMIC_TIME_ZONE_INFORMATION).
Variable pfnGetTimeZoneInformationForYear
  : option (Z -> DYNAMIC_TIME_ZONE_INFORMATION -> option TIME_ZONE_INFORMATION).
Variable GetTimeZoneInformation : Z * TIME_ZONE_INFORMATION.

Definition SystemTimeSubtractMinutes (st : SYSTEMTIME) (minutes : Z)
  : bool * SYSTEMTIME :=
  if IsSystemTimeValid st then
    match SystemTimeToFileTime st with
    | Some ft =>
        match FileTimeSubtractMinutes ft minutes with
        | (true, ft) =>
            match FileTimeToSystemTime ft with
            | Some st' => (true, st')
            | None => (false, st)
            end
        | (false, _) => (false, st)
        end
    | None => (false, st)
    end
  else (false, st).

Definition SystemTimeAddMinutes (st : SYSTEMTIME) (minutes : Z)
  : bool * SYSTEMTIME :=
  if IsSystemTimeValid st then
    match SystemTimeToFileTime st with
    | Some ft =>
        match FileTimeAddMinutes ft minutes with
        | (true, ft) =>
            match FileTimeToSystemTime ft with
            | Some st' => (true, st')
            | None => (false, st)
            end
        | (false, _) => (false, st)
        end
    | None => (false, st)
    end
  else (false, st).

(** The emulation of a disabled auto-DST setting. *)
Definition emulate_disabled_dst (tzi : TIME_ZONE_INFORMATION)
  : TIME_ZONE_INFORMATION :=
  mkTZI (Bias tzi) (StandardName tzi) zero_SYSTEMTIME 0
        (StandardName tzi) zero_SYSTEMTIME 0.

Definition GetTimezoneForYear (tzi : TIME_ZONE_INFORMATION) (year : Z)
  : bool * TIME_ZONE_INFORMATION :=
  if negb (IsYearValid year) then (false, tzi)
  else
    match pfnGetDynamicTimeZoneInformation with
    | Some (dtzi_id, dtzi) =>
        if dtzi_id =? TIME_ZONE_ID_INVALID then (false, tzi)
        else
          match pfnGetTimeZoneInformationForYear with
          | Some for_year =>
              let save := DynamicDaylightTimeDisabled dtzi in
              let dtzi := mkDTZI (dtzi_head dtzi) (TimeZoneKeyName dtzi) 0 in
              match for_year (u16 year) dtzi with
              | None => (false, tzi)
              | Some tzi =>
                  if negb (save =? 0) then (true, emulate_disabled_dst tzi)
                  else (true, tzi)
              end
          | None => (true, dtzi_head dtzi)
          end
    | None =>
        let (tzi_id, tzi') := GetTimeZoneInformation in
        if tzi_id =? TIME_ZONE_ID_INVALID then (false, tzi)
        else (true, tzi')
    end.

(** [COPY_TO_local_time(newtime)] followed by [return id]: the assignment
    to [local_time] happens before the year is compared. *)
Definition COPY_TO_local_time
  (strict : bool) (tzi_year : Z) (newtime : SYSTEMTIME) (id : Z)
  : Z * SYSTEMTIME :=
  let local_time := newtime in
  if strict && negb (wYear local_time =? tzi_year)
  then (TIME_ZONE_ID_INVALID, local_time)
  else (id, local_time).

(** The reference parameter [local_time] is written last, by
    [COPY_TO_local_time], after everything has been read from [tzi] and
    [utc_st]; it is returned next to the result.  [return false] in a
    function that returns [DWORD] returns 0.  [DEBUG_ST] is defined on both
    branches of the conditional at the top of [timezone.cpp], so the block
    under [#ifdef DEBUG_ST] is always compiled. *)
Definition GetLocalTimeForTimezone
  (local_time : SYSTEMTIME) (tzi : TIME_ZONE_INFORMATION)
  (utc_st : SYSTEMTIME) (tzi_year : Z) (strict : bool)
  : outcome (Z * SYSTEMTIME) :=
  let tzi_year := if tzi_year =? 0 then wYear utc_st else tzi_year in
  if negb (IsYearValid tzi_year) then Returned (0, local_time)
  else if negb (IsTimezoneInfoValid tzi true)
  then Returned (TIME_ZONE_ID_INVALID, local_time)
  else
  match SystemTimeSubtractMinutes utc_st (Bias tzi) with
  | (false, _) => Returned (TIME_ZONE_ID_INVALID, local_time)
  | (true, local_time_if_unknown) =>
  match SystemTimeSubtractMinutes utc_st
          (s32 (Bias tzi + StandardBias tzi)) with
  | (false, _) => Returned (TIME_ZONE_ID_INVALID, local_time)
  | (true, local_time_if_standard) =>
  match SystemTimeSubtractMinutes utc_st
          (s32 (Bias tzi + DaylightBias tzi)) with
  | (false, _) => Returned (TIME_ZONE_ID_INVALID, local_time)
  | (true, local_time_if_daylight) =>
  if strict
     && negb (wYear local_time_if_unknown =? tzi_year)
     && negb (wYear local_time_if_standard =? tzi_year)
     && negb (wYear local_time_if_daylight =? tzi_year)
  then Returned (TIME_ZONE_ID_INVALID, local_time)
  else
  match TimezoneTimeToLocalTime (StandardDate tzi) tzi_year zero_SYSTEMTIME with
  | (false, _) =>
      Returned (COPY_TO_local_time strict tzi_year local_time_if_unknown
                                   TIME_ZONE_ID_UNKNOWN)
  | (true, local_standard_start) =>
  match TimezoneTimeToLocalTime (DaylightDate tzi) tzi_year zero_SYSTEMTIME with
  | (false, _) =>
      Returned (COPY_TO_local_time strict tzi_year local_time_if_unknown
                                   TIME_ZONE_ID_UNKNOWN)
  | (true, local_daylight_start) =>
  (* #ifdef DEBUG_ST *)
  let utc_standard_start := local_standard_start in
  let utc_daylight_start := local_daylight_start in
  match (if negb (fst (SystemTimeAddMinutes utc_standard_start
                         (s32 (Bias tzi + DaylightBias tzi))))
            || negb (fst (SystemTimeAddMinutes utc_daylight_start
                            (s32 (Bias tzi + StandardBias tzi))))
         then assert false else Returned tt) with
  | Aborted => Aborted
  | Returned _ =>
  (* #endif *)
  let is_standard_time_before_daylight_start :=
    CompareSystemTimes local_time_if_standard local_daylight_start <? 0 in
  let is_daylight_time_before_standard_start :=
    CompareSystemTimes local_time_if_daylight local_standard_start <? 0 in
  let cmp_standard_start_to_daylight_start :=
    CompareSystemTimes local_standard_start local_daylight_start in
  if cmp_standard_start_to_daylight_start <? 0 then
    if negb is_daylight_time_before_standard_start
       && is_standard_time_before_daylight_start
    then Returned (COPY_TO_local_time strict tzi_year local_time_if_standard
                                      TIME_ZONE_ID_STANDARD)
    else Returned (COPY_TO_local_time strict tzi_year local_time_if_daylight
                                      TIME_ZONE_ID_DAYLIGHT)
  else if 0 <? cmp_standard_start_to_daylight_start then
    if negb is_standard_time_before_daylight_start
       && is_daylight_time_before_standard_start
    then Returned (COPY_TO_local_time strict tzi_year local_time_if_daylight
                                      TIME_ZONE_ID_DAYLIGHT)
    else Returned (COPY_TO_local_time strict tzi_year local_time_if_standard
                                      TIME_ZONE_ID_STANDARD)
  else if negb (DaylightBias tzi =? 0) then
    Returned (COPY_TO_local_time strict tzi_year local_time_if_daylight
                                 TIME_ZONE_ID_DAYLIGHT)
  else
    Returned (COPY_TO_local_time strict tzi_year local_time_if_unknown
                                 TIME_ZONE_ID_UNKNOWN)
  end end end end end end.

(** One block of [UTCTimeToLocalTime]:
    [if( GetTimezoneForYear( tzi, year ) ) { tzi_id = GetLocalTimeForTimezone(
    local_time, tzi, utc_st, year, strict ); if( tzi_id !=
    TIME_ZONE_ID_INVALID ) return true; }].  The boolean tells whether the
    function returned.  The four parameters are references into the memory
    [m] of the caller: each is read when the source reads it and written
    when the source writes it.  [GetTimezoneForYear] writes [tzi] when it
    succeeds; [GetLocalTimeForTimezone] leaves in [local_time] what it
    returns next to its result, which is what [local_time] held where the
    function does not write it. *)
Definition resolve_for_year {M : Type}
  (utc_st local_time : ref M SYSTEMTIME) (tzi_id : ref M Z)
  (tzi : ref M TIME_ZONE_INFORMATION)
  (year : Z) (strict : bool) (m : M) : outcome (bool * M) :=
  match GetTimezoneForYear (load tzi m) year with
  | (true, t) =>
      let m := store tzi t m in
      match GetLocalTimeForTimezone (load local_time m) (load tzi m)
              (load utc_st m) year strict with
      | Aborted => Aborted
      | Returned (id, lt) =>
          let m := store local_time lt m in
          let m := store tzi_id id m in
          Returned (negb (load tzi_id m =? TIME_ZONE_ID_INVALID), m)
      end
  | (false, _) => Returned (false, m)
  end.

Definition UTCTimeToLocalTime {M : Type}
  (utc_st local_time : ref M SYSTEMTIME) (tzi_id : ref M Z)
  (tzi : ref M TIME_ZONE_INFORMATION) (m : M) : outcome (bool * M) :=
  if negb (IsSystemTimeValid (load utc_st m)) then Returned (false, m)
  else
    let current_year := wYear (load utc_st m) in
    let previous_year := u32 (current_year - 1) in
    let next_year := u32 (current_year + 1) in
    if (wMonth (load utc_st m) =? 1) && (wDay (load utc_st m) =? 1) then
      match resolve_for_year utc_st local_time tzi_id tzi
              previous_year true m with
      | Aborted => Aborted
      | Returned (true, m) => Returned (true, m)
      | Returned (false, m) =>
          match resolve_for_year utc_st local_time tzi_id tzi
                  current_year false m with
          | Aborted => Aborted
          | Returned (true, m) => Returned (true, m)
          | Returned (false, m) => Returned (false, m)
          end
      end
    else
      match resolve_for_year utc_st local_time tzi_id tzi
              current_year true m with
      | Aborted => Aborted
      | Returned (true, m) => Returned (true, m)
      | Returned (false, m) =>
          if (wMonth (load utc_st m) =? 12) && (wDay (load utc_st m) =? 31)
          then
            match resolve_for_year utc_st local_time tzi_id tzi
                    next_year false m with
            | Aborted => Aborted
            | Returned (true, m) => Returned (true, m)
            | Returned (false, m) => Returned (false, m)
            end
          else Returned (false, m)
      end.

(** *** The order of the attempts, as the specification words it

    Following the description of the conversion: on January 1 the rule set
    of the previous year in strict mode, then that of the current year in
    non-strict mode; on December 31 the current year in strict mode, then
    the next year in non-strict mode; on every other date the current year
    in strict mode. *)
Definition rule_set_attempts (utc_st : SYSTEMTIME) : list (Z * bool) :=
  let year := wYear utc_st in
  if (wMonth utc_st =? 1) && (wDay utc_st =? 1)
  then [(year - 1, true); (year, false)]
  else if (wMonth utc_st =? 12) && (wDay utc_st =? 31)
  then [(year, true); (year + 1, false)]
  else [(year, true)].

(** One attempt taken on its own, from structures that are all zero: the
    rule set of the year resolved in the given mode, or nothing when there
    is no rule set or the resolution is [TIME_ZONE_ID_INVALID]. *)
Definition attempt (utc_st : SYSTEMTIME) (a : Z * bool)
  : outcome (option utc_to_local_state) :=
  match GetTimezoneForYear zero_TIME_ZONE_INFORMATION (fst a) with
  | (true, tzi) =>
      match GetLocalTimeForTimezone zero_SYSTEMTIME tzi utc_st
              (fst a) (snd a) with
      | Aborted => Aborted
      | Returned (tzi_id, local_time) =>
          if tzi_id =? TIME_ZONE_ID_INVALID then Returned None
          else Returned (Some (mkState local_time tzi_id tzi))
      end
  | (false, _) => Returned None
  end.

(** The first attempt of the list that resolves; an attempt that ends the
    process ends the whole. *)
Fixpoint first_resolution (utc_st : SYSTEMTIME) (attempts : list (Z * bool))
  : outcome (option utc_to_local_state) :=
  match attempts with
  | [] => Returned None
  | a :: rest =>
      match attempt utc_st a with
      | Aborted => Aborted
      | Returned (Some r) => Returned (Some r)
      | Returned None => first_resolution utc_st rest
      end
  end.

End Platform.

(** *** A reference model of the two WinAPI conversions

    The conversions between tick counts and calendar fields belong to the
    operating system.  The model below instantiates the variables of
    [Platform] for concrete runs; the properties that do not name it hold
    for every behaviour of the conversions. *)

Module Win32.

Definition days_before_year (year : Z) : Z :=
  let y := year - 1601 in y * 365 + y / 4 - y / 100 + y / 400.

(** Days of the months before [month], from [from] on. *)
Fixpoint days_before_month (leap : bool) (n : nat) (from month : Z) : Z :=
  match n with
  | O => 0
  | S n =>
      if from <? month
      then month_length leap from + days_before_month leap n (from + 1) month
      else 0
  end.

(** Modelled from the spec: [SystemTimeToFileTime] of the WinAPI, the
    conversion of calendar fields to the count of 100 ns intervals since
    1601-01-01T00:00:00.  It does not look at [wDayOfWeek] and fails on
    fields that are not a calendar time. *)
Definition SystemTimeToFileTime (st : SYSTEMTIME) : option FILETIME :=
  if IsSystemTimeValid_IgnoreDayOfWeek st then
    let days := days_before_year (wYear st)
                + days_before_month (IsLeapYear (wYear st)) 12 1 (wMonth st)
                + (wDay st - 1) in
    let ms := ((days * 24 + wHour st) * 60 + wMinute st) * 60000
              + wSecond st * 1000 + wMilliseconds st in
    Some (of_QuadPart (ms * 10000))
  else None.

(** Month and day of the month of a day of the year counted from 0. *)
Fixpoint month_of_yday (leap : bool) (n : nat) (month yday : Z) : Z * Z :=
  match n with
  | O => (month, yday + 1)
  | S n =>
      if yday <? month_length leap month then (month, yday + 1)
      else month_of_yday leap n (month + 1) (yday - month_length leap month)
  end.

(** Modelled from the spec: [FileTimeToSystemTime] of the WinAPI, the
    inverse conversion.  It fills in [wDayOfWeek] (1601-01-01 was a Monday)
    and fails on a count with the top bit set. *)
Definition FileTimeToSystemTime (ft : FILETIME) : option SYSTEMTIME :=
  let q := QuadPart ft in
  if q <? 0 then None
  else
    let ms := q / 10000 in
    let days := ms / 86400000 in
    let r := ms mod 86400000 in
    let n400 := days / 146097 in
    let d := days mod 146097 in
    let n100 := Z.min 3 (d / 36524) in
    let d := d - n100 * 36524 in
    let n4 := d / 1461 in
    let d := d mod 1461 in
    let n1 := Z.min 3 (d / 365) in
    let d := d - n1 * 365 in
    let year := 1601 + 400 * n400 + 100 * n100 + 4 * n4 + n1 in
    let (month, day) := month_of_yday (IsLeapYear year) 11 1 d in
    Some (mkST year month ((days + 1) mod 7) day
               (r / 3600000) (r / 60000 mod 60) (r / 1000 mod 60)
               (r mod 1000)).

(** An operating system without per-year timezone data: every year is
    answered with the one rule set of [GetTimeZoneInformation]. *)
Definition GetTimezoneForYear (id : Z) (sys : TIME_ZONE_INFORMATION) :=
  GetTimezoneForYear None None (id, sys).

(** The sources compiled as they are, without [NDEBUG]. *)
Definition GetLocalTimeForTimezone :=
  GetLocalTimeForTimezone false SystemTimeToFileTime FileTimeToSystemTime.

Definition UTCTimeToLocalTime (id : Z) (sys : TIME_ZONE_INFORMATION)
  {M : Type} :=
  @UTCTimeToLocalTime false SystemTimeToFileTime FileTimeToSystemTime
                      None None (id, sys) M.

End Win32.

(** ** Notions used in the statements *)

(** Within a day, in minutes. *)
Definition in_day (minutes : Z) : Prop := - 1440 <= minutes <= 1440.

(** A rule set whose sums are both within a day and whose [Bias] is not. *)
Definition tzi_large_bias : TIME_ZONE_INFORMATION :=
  mkTZI 1500 [0] zero_SYSTEMTIME (-60) [0] zero_SYSTEMTIME (-120).

(** The largest supported tick count, [0x7FFF35F4F06C58F0]. *)
Definition max_ticks : Z := 9223149887999990000.

(** The day of the month that a relative rule names before the correction
    for a fifth occurrence that does not exist. *)
Definition occurrence_day (tzt : SYSTEMTIME) (year : Z) : Z :=
  (wDayOfWeek tzt - GetDayOfWeek 1 (wMonth tzt) year) mod 7 + 1
  + 7 * (wDay tzt - 1).

(** The day of the month that a relative rule names in a year. *)
Definition relative_day (tzt : SYSTEMTIME) (year : Z) : Z :=
  let day := occurrence_day tzt year in
  if IsDateValid day (wMonth tzt) year then day else day - 7.

(** The second Sunday of March at 02:00, and that moment of 2015 stamped
    with a Wednesday. *)
Definition second_sunday_of_march : SYSTEMTIME := mkST 0 3 0 2 2 0 0 0.
Definition march_8_2015_as_wednesday : SYSTEMTIME := mkST 2015 3 3 8 2 0 0 0.

(** Wednesday 2014-12-31T23:30:00, as a UTC time. *)
Definition new_years_eve_2014 : SYSTEMTIME := mkST 2014 12 3 31 23 30 0 0.

(** A rule set on UTC whose two transitions are the same rule and whose
    daylight bias is an hour: daylight time all year. *)
Definition year_round_dst : TIME_ZONE_INFORMATION :=
  mkTZI 0 [0] second_sunday_of_march 0 [0] second_sunday_of_march (-60).

(** Rule sets whose two transitions are that same rule, and one whose two
    transitions are the first moment of 1601, half an hour ahead of UTC. *)
Definition coincident_rules (bias daylight_bias : Z) : TIME_ZONE_INFORMATION :=
  mkTZI bias [0] second_sunday_of_march 0
        [0] second_sunday_of_march daylight_bias.

Definition epoch_rules : TIME_ZONE_INFORMATION :=
  mkTZI (-30) [0] (mkST 1601 1 1 1 0 0 0 0) 0
        [0] (mkST 1601 1 1 1 0 0 0 0) 0.

(** The first moment of 1601, a Monday, as a UTC time. *)
Definition epoch : SYSTEMTIME := mkST 1601 1 1 1 0 0 0 0.

(** A rule set of the southern hemisphere, half an hour behind UTC in
    standard time: daylight time from the first Sunday of October at 02:00
    to the first Sunday of April at 03:00. *)
Definition southern_rules : TIME_ZONE_INFORMATION :=
  mkTZI 30 [0] (mkST 0 4 0 1 3 0 0 0) 0 [0] (mkST 0 10 0 1 2 0 0 0) (-60).

(** Thursday 2015-01-01T00:15:00 and Wednesday 2014-12-31T23:50:00, as UTC
    times. *)
Definition new_year_2015 : SYSTEMTIME := mkST 2015 1 4 1 0 15 0 0.
Definition last_minutes_of_2014 : SYSTEMTIME := mkST 2014 12 3 31 23 50 0 0.

(** The three total biases of a rule set put the local time between half an
    hour and a day ahead of UTC. *)
Definition half_hour_ahead (tzi : TIME_ZONE_INFORMATION) : Prop :=
  - 1440 <= Bias tzi <= - 30
  /\ - 1440 <= Bias tzi + StandardBias tzi <= - 30
  /\ - 1440 <= Bias tzi + DaylightBias tzi <= - 30.

(** The rule of the United States for 2015 on Eastern time: daylight time
    from the second Sunday of March at 02:00, standard time from the first
    Sunday of November at 02:00. *)
Definition us_eastern : TIME_ZONE_INFORMATION :=
  mkTZI 300 [0] (mkST 0 11 0 1 2 0 0 0) 0 [0] second_sunday_of_march (-60).

(** A rule set without daylight saving time. *)
Definition no_dst (bias : Z) : TIME_ZONE_INFORMATION :=
  mkTZI bias [0] zero_SYSTEMTIME 0 [0] zero_SYSTEMTIME 0.

(** The structures of a caller that initialises them with [{}]. *)
Definition zero_state : utc_to_local_state :=
  mkState zero_SYSTEMTIME 0 zero_TIME_ZONE_INFORMATION.

(** *** Objects and references

    What is written through [r] is what [r] reads next. *)
Definition holds {M T : Type} (r : ref M T) : Prop :=
  forall v m, load r (store r v m) = v.

(** Writing through [q] does not change what [r] reads: the object of [r]
    is not that of [q] and not a part of it. *)
Definition unaffected {M T U : Type} (r : ref M T) (q : ref M U) : Prop :=
  forall v m, load r (store q v m) = load r m.

(** A reference to an object, and two references to objects that do not
    overlap. *)
Definition object {M T : Type} (r : ref M T) : Prop :=
  holds r /\ (forall m, store r (load r m) m = m)
  /\ (forall v w m, store r v (store r w m) = store r v m).

Definition apart {M T U : Type} (r : ref M T) (q : ref M U) : Prop :=
  unaffected r q /\ unaffected q r.

(** The four parameters of [UTCTimeToLocalTime] name four objects: each
    output holds what is written to it, and writing to one of them changes
    neither the UTC time nor another output. *)
Definition distinct_objects {M : Type}
  (utc_st local_time : ref M SYSTEMTIME) (tzi_id : ref M Z)
  (tzi : ref M TIME_ZONE_INFORMATION) : Prop :=
  holds local_time /\ holds tzi_id /\ holds tzi
  /\ unaffected utc_st local_time /\ unaffected utc_st tzi_id
  /\ unaffected utc_st tzi
  /\ unaffected local_time tzi_id /\ unaffected local_time tzi
  /\ unaffected tzi_id local_time /\ unaffected tzi_id tzi
  /\ unaffected tzi local_time /\ unaffected tzi tzi_id.

(** What a run of the code, [code], has to be for the resolution [spec]:
    ended where the resolution ends the process; returned [true] with the
    three outputs of the resolution in the objects of [local_time],
    [tzi_id] and [tzi]; returned [false] where there is no resolution.  In
    both returns the object of [utc_st] holds [utc], the time it held
    before the call. *)
Definition conversion_agrees {M : Type}
  (utc_st local_time : ref M SYSTEMTIME) (tzi_id : ref M Z)
  (tzi : ref M TIME_ZONE_INFORMATION) (utc : SYSTEMTIME)
  (spec : outcome (option utc_to_local_state)) (code : outcome (bool * M))
  : Prop :=
  match spec with
  | Aborted => code = Aborted
  | Returned (Some r) =>
      exists m', code = Returned (true, m')
                 /\ load utc_st m' = utc
                 /\ load local_time m' = out_local_time r
                 /\ load tzi_id m' = out_tzi_id r
                 /\ load tzi m' = out_tzi r
  | Returned None =>
      exists m', code = Returned (false, m') /\ load utc_st m' = utc
  end.

(** Whether a call of [GetLocalTimeForTimezone] gets past the [assert] of
    the block under [#ifdef DEBUG_ST]: the block is not reached because a
    transition does not convert for the year, or the sources are compiled
    with [NDEBUG], or the start of standard time can be moved by
    [Bias + DaylightBias] and the start of daylight time by
    [Bias + StandardBias]. *)
Definition passes_debug_block (NDEBUG : bool)
  (SystemTimeToFileTime : SYSTEMTIME -> option FILETIME)
  (FileTimeToSystemTime : FILETIME -> option SYSTEMTIME)
  (tzi : TIME_ZONE_INFORMATION) (year : Z) : bool :=
  match TimezoneTimeToLocalTime (StandardDate tzi) year zero_SYSTEMTIME,
        TimezoneTimeToLocalTime (DaylightDate tzi) year zero_SYSTEMTIME with
  | (true, utc_standard_start), (true, utc_daylight_start) =>
      NDEBUG
      || (fst (SystemTimeAddMinutes SystemTimeToFileTime FileTimeToSystemTime
                 utc_standard_start (s32 (Bias tzi + DaylightBias tzi)))
          && fst (SystemTimeAddMinutes SystemTimeToFileTime
                    FileTimeToSystemTime
                    utc_daylight_start (s32 (Bias tzi + StandardBias tzi))))
  | _, _ => true
  end.

(** The memory of a caller with one [SYSTEMTIME], and the reference to
    it. *)
Definition the_time : ref SYSTEMTIME SYSTEMTIME :=
  mkRef (fun m => m) (fun v _ => v).

(** The memory of a caller with two [SYSTEMTIME] objects. *)
Definition first_time : ref (SYSTEMTIME * SYSTEMTIME) SYSTEMTIME :=
  mkRef fst (fun v m => (v, snd m)).
Definition second_time : ref (SYSTEMTIME * SYSTEMTIME) SYSTEMTIME :=
  mkRef snd (fun v m => (fst m, v)).

(** The memory of a caller of [UTCTimeToLocalTime] with four objects: the
    UTC time next to the three outputs. *)
Definition utc_of : ref (SYSTEMTIME * utc_to_local_state) SYSTEMTIME :=
  mkRef fst (fun v m => (v, snd m)).
Definition local_time_of : ref (SYSTEMTIME * utc_to_local_state) SYSTEMTIME :=
  mkRef (fun m => out_local_time (snd m))
        (fun v m => (fst m, mkState v (out_tzi_id (snd m)) (out_tzi (snd m)))).
Definition tzi_id_of : ref (SYSTEMTIME * utc_to_local_state) Z :=
  mkRef (fun m => out_tzi_id (snd m))
        (fun v m => (fst m,
                     mkState (out_local_time (snd m)) v (out_tzi (snd m)))).
Definition tzi_of
  : ref (SYSTEMTIME * utc_to_local_state) TIME_ZONE_INFORMATION :=
  mkRef (fun m => out_tzi (snd m))
        (fun v m => (fst m,
                     mkState (out_local_time (snd m)) (out_tzi_id (snd m)) v)).

(** The memory of a caller that converts in place: [local_time] is the
    object of [utc_st]. *)
Definition in_place_time : ref utc_to_local_state SYSTEMTIME :=
  mkRef out_local_time
        (fun v m => mkState v (out_tzi_id m) (out_tzi m)).
Definition in_place_tzi_id : ref utc_to_local_state Z :=
  mkRef out_tzi_id
        (fun v m => mkState (out_local_time m) v (out_tzi m)).
Definition in_place_tzi : ref utc_to_local_state TIME_ZONE_INFORMATION :=
  mkRef out_tzi
        (fun v m => mkState (out_local_time m) (out_tzi_id m) v).

(** The year 2015, as a test on the result of a subtraction. *)
Definition lands_in_2015 (r : bool * SYSTEMTIME) : bool :=
  match r with
  | (true, st) => wYear st =? 2015
  | (false, _) => false
  end.

(** ** The rest of time.cpp *)

(** [struct tm] of [<time.h>]; every member is an [int]. *)
Record tm : Type := mkTm
  { tm_sec : Z; tm_min : Z; tm_hour : Z; tm_mday : Z; tm_mon : Z;
    tm_year : Z; tm_wday : Z; tm_yday : Z; tm_isdst : Z }.

(** [const int acc[]] of [SystemTimeToTm]. *)
Definition acc : list Z :=
  [0; 31; 59; 90; 120; 151; 181; 212; 243; 273; 304; 334].

(** The reference parameter [tm] is returned next to the result.  The
    [WORD] members are promoted to [int]. *)
Definition SystemTimeToTm (st : SYSTEMTIME) (st_isdst : bool) (t : tm)
  : bool * tm :=
  if negb (IsSystemTimeValid st) then (false, t)
  else
    let sec := wSecond st in
    let min := wMinute st in
    let hour := wHour st in
    let mday := wDay st in
    let mon := s32 (wMonth st - 1) in
    let year := s32 (wYear st - 1900) in
    let wday := wDayOfWeek st in
    let yday := s32 (s32 (nth (Z.to_nat mon) acc 0 + mday) - 1) in
    let yday :=
      if IsLeapYear (wYear st) && (1 <? mon) then s32 (yday + 1) else yday in
    let isdst := if st_isdst then 1 else 0 in
    (true, mkTm sec min hour mday mon year wday yday isdst).

(** ** Notions used in further statements *)

(** The members of a [SYSTEMTIME] in the order in which
    [CompareSystemTimes] looks at them. *)
Definition compared_members (st : SYSTEMTIME) : list Z :=
  [wYear st; wMonth st; wDay st; wHour st; wMinute st; wSecond st;
   wMilliseconds st; wDayOfWeek st].

(** The number of days in a month of the Gregorian calendar. *)
Definition gregorian_month_days (leap : bool) (month : Z) : Z :=
  if month =? 2 then (if leap then 29 else 28)
  else if (month =? 4) || (month =? 6) || (month =? 9) || (month =? 11)
  then 30 else 31.

(** The days of a year before the first of a month. *)
Fixpoint days_before (leap : bool) (months : nat) : Z :=
  match months with
  | O => 0
  | S n => days_before leap n + gregorian_month_days leap (Z.of_nat (S n))
  end.

(** The largest number of minutes whose intervals fit [long long]. *)
Definition max_minutes : Z := 15372286728.

(** The lexicographic comparison of two lists of integers, written with the
    macro of [CompareSystemTimes]. *)
Fixpoint lexico (xs ys : list Z) : Z :=
  match xs, ys with
  | x :: xs', y :: ys' => RETURN_IF_NOT_EQUAL x y (lexico xs' ys')
  | _, _ => 0
  end.

(** ** iso8601.hpp / iso8601.cpp *)

(** *** Output streams

    A [std::stringstream] is modelled by the string written to it so far.
    The streams of [iso8601.cpp] keep the default flags: integers are
    written in decimal, and a field narrower than the width set by [setw]
    is filled on the left.  [setw] holds for the next output only and never
    cuts a field down. *)

Module Stream.
Import Ascii String.
Local Open Scope string_scope.

(** [ss << n] for an integer. *)
Definition put_integer (n : Z) : string :=
  DecimalString.NilZero.string_of_int (Z.to_int n).

Fixpoint fill (c : ascii) (n : nat) : string :=
  match n with
  | O => ""
  | S n' => String c (fill c n')
  end.

(** [ss.fill( c ); ss << setw( w ) << s]. *)
Definition setw (c : ascii) (w : nat) (s : string) : string :=
  fill c (w - String.length s) ++ s.

(** [s.size()] as a condition. *)
Definition nonempty (s : string) : bool :=
  negb (Nat.eqb (String.length s) 0).

End Stream.

(** *** [class TimeFormat] *)

Module TimeFormat.

Record t : Type := mk
  { usa_style : bool;
    day_string_with_abbreviation : bool;
    time_string_with_milliseconds : bool }.

Definition Clear (this : t) : t := mk false false false.

End TimeFormat.

(** *** [class DayDateTime] *)

Module DayDateTime.
Import String.
Local Open Scope string_scope.

Record t : Type := mk
  { valid : bool;
    ft : FILETIME;
    st : SYSTEMTIME;
    tm : tm;
    bias : Z;
    day : string;
    date : string;
    time : string;
    offset : string;
    format : TimeFormat.t }.

Definition set_valid (this : t) (v : bool) : t :=
  mk v (ft this) (st this) (tm this) (bias this) (day this) (date this)
     (time this) (offset this) (format this).

Definition set_ft (this : t) (v : FILETIME) : t :=
  mk (valid this) v (st this) (tm this) (bias this) (day this) (date this)
     (time this) (offset this) (format this).

Definition set_st (this : t) (v : SYSTEMTIME) : t :=
  mk (valid this) (ft this) v (tm this) (bias this) (day this) (date this)
     (time this) (offset this) (format this).

Definition set_tm (this : t) v : t :=
  mk (valid this) (ft this) (st this) v (bias this) (day this) (date this)
     (time this) (offset this) (format this).

Definition set_bias (this : t) (v : Z) : t :=
  mk (valid this) (ft this) (st this) (tm this) v (day this) (date this)
     (time this) (offset this) (format this).

Definition set_strings (this : t) (d da ti o : string) : t :=
  mk (valid this) (ft this) (st this) (tm this) (bias this) d da ti o
     (format this).

Definition set_format (this : t) (v : TimeFormat.t) : t :=
  mk (valid this) (ft this) (st this) (tm this) (bias this) (day this)
     (date this) (time this) (offset this) v.

Definition Clear (this : t) : t :=
  mk false (mkFT 0 0) zero_SYSTEMTIME (mkTm 0 0 0 0 0 0 0 0 0) 0
     "" "" "" "" (TimeFormat.Clear (format this)).

End DayDateTime.

(** *** [class TimeInfo]

    A [TimeInfo] is a [DayDateTime] (the base subobject) with a second
    [DayDateTime], [_alternate_time_info], and two pointers [_utc] and
    [_local], each to one of the two.  The pointers are modelled by the
    object they point to, and reading or writing through a pointer reads or
    writes that object. *)

Module TimeInfo.
Import String.
Local Open Scope string_scope.

Inductive target : Type :=
| this_base            (* [this], as a [DayDateTime *] *)
| alternate.           (* [&_alternate_time_info] *)

Record t : Type := mk
  { base : DayDateTime.t;
    valid : bool;
    timestamp : string;
    _utc : target;
    _local : target;
    _prefer_local_time : bool;
    _alternate_time_info : DayDateTime.t }.

(** [*p] as a value. *)
Definition deref (this : t) (p : target) : DayDateTime.t :=
  match p with
  | this_base => base this
  | alternate => _alternate_time_info this
  end.

(** [*p = d]. *)
Definition store (this : t) (p : target) (d : DayDateTime.t) : t :=
  match p with
  | this_base =>
      mk d (valid this) (timestamp this) (_utc this) (_local this)
         (_prefer_local_time this) (_alternate_time_info this)
  | alternate =>
      mk (base this) (valid this) (timestamp this) (_utc this) (_local this)
         (_prefer_local_time this) d
  end.

(** The public members [utc], [local] and [prefer_local_time] are
    references to the private ones. *)
Definition utc (this : t) : DayDateTime.t := deref this (_utc this).
Definition local (this : t) : DayDateTime.t := deref this (_local this).
Definition prefer_local_time (this : t) : bool := _prefer_local_time this.

Definition InitializeLocalTimePref (this : t) (v_prefer_local_time : bool)
  : t :=
  mk (base this) (valid this) (timestamp this)
     (if v_prefer_local_time then alternate else this_base)
     (if v_prefer_local_time then this_base else alternate)
     v_prefer_local_time (_alternate_time_info this).

(** [std::swap( *a, *b )] on [DayDateTime]: [tmp = *a; *a = *b; *b = tmp]. *)
Definition swap (this : t) (a b : target) : t :=
  let tmp := deref this a in
  let this := store this a (deref this b) in
  store this b tmp.

Definition PreferLocalTime (this : t) (new_pref : bool) : t :=
  if Bool.eqb (_prefer_local_time this) new_pref then this
  else
    let this := InitializeLocalTimePref this new_pref in
    swap this (_local this) (_utc this).

Definition Clear (this : t) (also_clear_base_subobjects : bool) : t :=
  mk (if also_clear_base_subobjects then DayDateTime.Clear (base this)
      else base this)
     false "" this_base alternate false
     (DayDateTime.Clear (_alternate_time_info this)).

Definition set_timestamp (this : t) (s : string) : t :=
  mk (base this) (valid this) s (_utc this) (_local this)
     (_prefer_local_time this) (_alternate_time_info this).

Definition set_valid (this : t) (v : bool) : t :=
  mk (base this) v (timestamp this) (_utc this) (_local this)
     (_prefer_local_time this) (_alternate_time_info this).

End TimeInfo.

(** *** [class ISO8601]

    The member functions are those of the class itself; a class derived
    from it can override the virtual ones.  [this] is passed first.  The
    functions that take a [DayDateTime &] or a [TimeInfo &] together with
    a [const FILETIME &] read the latter after they have written the
    former: there both are references into the memory of the caller. *)

Module ISO8601.
Import Ascii String Stream.
Local Open Scope string_scope.
Local Open Scope Z_scope.

Record t : Type := mk
  { prefer_local_time : bool;
    dst_start_year : Z;
    ignore_dst : bool;
    format : TimeFormat.t }.

Definition GetDayStringEnglish (this : t) (day_of_the_week : Z) : string :=
  let abbreviation := TimeFormat.day_string_with_abbreviation (format this) in
  if day_of_the_week =? 0 then if abbreviation then "Sun" else "Sunday"
  else if day_of_the_week =? 1 then if abbreviation then "Mon" else "Monday"
  else if day_of_the_week =? 2 then if abbreviation then "Tue" else "Tuesday"
  else if day_of_the_week =? 3
       then if abbreviation then "Wed" else "Wednesday"
  else if day_of_the_week =? 4
       then if abbreviation then "Thu" else "Thursday"
  else if day_of_the_week =? 5 then if abbreviation then "Fri" else "Friday"
  else if day_of_the_week =? 6
       then if abbreviation then "Sat" else "Saturday"
  else "".

Definition GetDayString (this : t) (st : SYSTEMTIME) : string :=
  GetDayStringEnglish this (wDayOfWeek st).

Definition GetDayStringUSA (this : t) (st : SYSTEMTIME) : string :=
  GetDayStringEnglish this (wDayOfWeek st).

Definition GetDateString (this : t) (st : SYSTEMTIME) : string :=
  let ss_date := "" in
  let ss_date := if 9999 <? wYear st then ss_date ++ "+" else ss_date in
  let ss_date := ss_date ++ setw "0" 4 (put_integer (wYear st)) in
  let ss_date := ss_date ++ "-" ++ setw "0" 2 (put_integer (wMonth st)) in
  let ss_date := ss_date ++ "-" ++ setw "0" 2 (put_integer (wDay st)) in
  ss_date.

Definition GetDateStringUSA (this : t) (st : SYSTEMTIME) : string :=
  put_integer (wMonth st) ++ "/" ++ put_integer (wDay st) ++ "/"
  ++ put_integer (wYear st).

Definition GetTimeString (this : t) (st : SYSTEMTIME) : string :=
  let ss_time := setw "0" 2 (put_integer (wHour st)) in
  let ss_time := ss_time ++ ":" ++ setw "0" 2 (put_integer (wMinute st)) in
  let ss_time := ss_time ++ ":" ++ setw "0" 2 (put_integer (wSecond st)) in
  let ss_time :=
    if TimeFormat.time_string_with_milliseconds (format this)
    then ss_time ++ "." ++ setw "0" 3 (put_integer (wMilliseconds st))
    else ss_time in
  ss_time.

Definition GetTimeStringUSA (this : t) (st : SYSTEMTIME) : string :=
  let st_12hr :=
    u32 (if wHour st =? 0 then 12
         else if 12 <? wHour st then s32 (wHour st - 12) else wHour st) in
  let ss_time := put_integer st_12hr ++ ":" in
  let ss_time := ss_time ++ setw "0" 2 (put_integer (wMinute st)) in
  let ss_time := ss_time ++ ":" ++ setw "0" 2 (put_integer (wSecond st)) in
  let ss_time :=
    if TimeFormat.time_string_with_milliseconds (format this)
    then ss_time ++ "." ++ setw "0" 3 (put_integer (wMilliseconds st))
    else ss_time in
  ss_time ++ " " ++ (if wHour st <? 12 then "AM" else "PM").

(** [abs( bias )] on a [long]. *)
Definition abs (bias : Z) : Z := s32 (Z.abs bias).

Definition GetUTCOffsetString (this : t) (bias : Z) : string :=
  if bias =? 0 then "Z"
  else
    let ss_utc := if 0 <? bias then "-" else "+" in
    let ss_utc :=
      ss_utc ++ setw "0" 2 (put_integer (Z.quot (abs bias) 60)) in
    let ss_utc :=
      ss_utc ++ ":" ++ setw "0" 2 (put_integer (Z.rem (abs bias) 60)) in
    ss_utc.

Definition GetUTCOffsetStringUSA (this : t) (bias : Z) : string :=
  if bias =? 0 then "(UTC)"
  else
    let ss_utc := "(UTC" in
    let ss_utc := ss_utc ++ (if 0 <? bias then "-" else "+") in
    let ss_utc :=
      ss_utc ++ setw "0" 2 (put_integer (Z.quot (abs bias) 60)) in
    let ss_utc :=
      ss_utc ++ ":" ++ setw "0" 2 (put_integer (Z.rem (abs bias) 60)) in
    ss_utc ++ ")".

Definition GetUTCTimestampString (this : t) (utc_st : SYSTEMTIME) : string :=
  let date := GetDateString this utc_st in
  let time := GetTimeString this utc_st in
  if negb (nonempty date) || negb (nonempty time) then ""
  else
    let ss_timestamp := date ++ "T" ++ time in
    let ss_timestamp :=
      if negb (TimeFormat.time_string_with_milliseconds (format this))
      then ss_timestamp ++ "."
           ++ setw "0" 3 (put_integer (wMilliseconds utc_st))
      else ss_timestamp in
    ss_timestamp ++ "Z".

Definition GetUTCTimestampStringUSA (this : t) (utc_st : SYSTEMTIME)
  : string :=
  GetUTCTimestampString this utc_st.

(** The reference parameter [ddt] is returned next to the result. *)
Definition GetStrings (this : t) (ddt : DayDateTime.t)
  : bool * DayDateTime.t :=
  let ddt :=
    DayDateTime.set_strings ddt
      (GetDayString this (DayDateTime.st ddt))
      (GetDateString this (DayDateTime.st ddt))
      (GetTimeString this (DayDateTime.st ddt))
      (GetUTCOffsetString this (DayDateTime.bias ddt)) in
  (nonempty (DayDateTime.day ddt) && nonempty (DayDateTime.date ddt)
   && nonempty (DayDateTime.time ddt) && nonempty (DayDateTime.offset ddt),
   ddt).

Definition GetStringsUSA (this : t) (ddt : DayDateTime.t)
  : bool * DayDateTime.t :=
  let ddt :=
    DayDateTime.set_strings ddt
      (GetDayStringUSA this (DayDateTime.st ddt))
      (GetDateStringUSA this (DayDateTime.st ddt))
      (GetTimeStringUSA this (DayDateTime.st ddt))
      (GetUTCOffsetStringUSA this (DayDateTime.bias ddt)) in
  (nonempty (DayDateTime.day ddt) && nonempty (DayDateTime.date ddt)
   && nonempty (DayDateTime.time ddt) && nonempty (DayDateTime.offset ddt),
   ddt).

(** The automatic variables [utc_st], [tzi_id] and [tzi] of
    [GetTimeInfoLocalOrUTC].  During the call of [UTCTimeToLocalTime] the
    memory is that of the caller together with them. *)
Record automatic : Type := mkAutomatic
  { auto_utc_st : SYSTEMTIME;
    auto_tzi_id : Z;
    auto_tzi : TIME_ZONE_INFORMATION }.

(** A reference of the caller, in the memory with the automatic
    variables. *)
Definition outer {M T : Type} (r : ref M T) : ref (M * automatic) T :=
  mkRef (fun f => load r (fst f))
        (fun v f => (store r v (fst f), snd f)).

Definition utc_st_ref {M : Type} : ref (M * automatic) SYSTEMTIME :=
  mkRef (fun f => auto_utc_st (snd f))
        (fun v f => (fst f,
                     mkAutomatic v (auto_tzi_id (snd f))
                                 (auto_tzi (snd f)))).

Definition tzi_id_ref {M : Type} : ref (M * automatic) Z :=
  mkRef (fun f => auto_tzi_id (snd f))
        (fun v f => (fst f,
                     mkAutomatic (auto_utc_st (snd f)) v
                                 (auto_tzi (snd f)))).

Definition tzi_ref {M : Type} : ref (M * automatic) TIME_ZONE_INFORMATION :=
  mkRef (fun f => auto_tzi (snd f))
        (fun v f => (fst f,
                     mkAutomatic (auto_utc_st (snd f))
                                 (auto_tzi_id (snd f)) v)).

(** The members of the object of a [DayDateTime &]. *)
Definition ft_of {M : Type} (ddt : ref M DayDateTime.t) : ref M FILETIME :=
  member ddt DayDateTime.ft DayDateTime.set_ft.
Definition st_of {M : Type} (ddt : ref M DayDateTime.t) : ref M SYSTEMTIME :=
  member ddt DayDateTime.st DayDateTime.set_st.
Definition tm_of {M : Type} (ddt : ref M DayDateTime.t) : ref M tm :=
  member ddt DayDateTime.tm DayDateTime.set_tm.
Definition bias_of {M : Type} (ddt : ref M DayDateTime.t) : ref M Z :=
  member ddt DayDateTime.bias DayDateTime.set_bias.
Definition format_of {M : Type} (ddt : ref M DayDateTime.t)
  : ref M TimeFormat.t :=
  member ddt DayDateTime.format DayDateTime.set_format.
Definition valid_of {M : Type} (ddt : ref M DayDateTime.t) : ref M bool :=
  member ddt DayDateTime.valid DayDateTime.set_valid.

(** What [_local] or [_utc] of the object of a [TimeInfo &] points to. *)
Definition pointee {M : Type} (ti : ref M TimeInfo.t) (p : TimeInfo.target)
  : ref M DayDateTime.t :=
  member ti (fun t => TimeInfo.deref t p) (fun t d => TimeInfo.store t p d).

Section Platform.

Variable NDEBUG : bool.
Variable SystemTimeToFileTime : SYSTEMTIME -> option FILETIME.
Variable FileTimeToSystemTime : FILETIME -> option SYSTEMTIME.
Variable pfnGetDynamicTimeZoneInformation
  : option (Z * DYNAMIC_TIME_ZONE_INFORMATION).
Variable pfnGetTimeZoneInformationForYear
  : option (Z -> DYNAMIC_TIME_ZONE_INFORMATION
            -> option TIME_ZONE_INFORMATION).
Variable GetTimeZoneInformation : Z * TIME_ZONE_INFORMATION.

(** The branch [if( convert_to_local_time )]: [None] where the source
    clears [ddt] and returns [false], and otherwise
    [is_daylight_saving_time].  [utc_ft] is read where the source reads
    it.  [FileTimeSubtractMinutes] leaves in [ddt.ft] what it returns next
    to its result. *)
Definition convert_to_local {M : Type} (ddt : ref M DayDateTime.t)
  (utc_ft : ref M FILETIME) (m : M) : outcome (option bool * M) :=
  match FileTimeToSystemTime (load utc_ft m) with
  | None => Returned (None, m)
  | Some utc_st =>
      match UTCTimeToLocalTime NDEBUG SystemTimeToFileTime
              FileTimeToSystemTime pfnGetDynamicTimeZoneInformation
              pfnGetTimeZoneInformationForYear GetTimeZoneInformation
              utc_st_ref (outer (st_of ddt)) tzi_id_ref tzi_ref
              (m, mkAutomatic utc_st 0 zero_TIME_ZONE_INFORMATION) with
      | Aborted => Aborted
      | Returned (false, (m, _)) => Returned (None, m)
      | Returned (true, (m, a)) =>
          let tzi_id := auto_tzi_id a in
          let tzi := auto_tzi a in
          let biased : option (bool * M) :=
            if tzi_id =? TIME_ZONE_ID_DAYLIGHT then
              Some (true,
                    store (bias_of ddt)
                          (s32 (Bias tzi + DaylightBias tzi)) m)
            else if tzi_id =? TIME_ZONE_ID_STANDARD then
              Some (false,
                    store (bias_of ddt)
                          (s32 (Bias tzi + StandardBias tzi)) m)
            else if tzi_id =? TIME_ZONE_ID_UNKNOWN then
              Some (false, store (bias_of ddt) (Bias tzi) m)
            else None in
          match biased with
          | None => Returned (None, m)
          | Some (is_daylight_saving_time, m) =>
              (* ddt.ft = utc_ft; *)
              let m := store (ft_of ddt) (load utc_ft m) m in
              match FileTimeSubtractMinutes (load (ft_of ddt) m)
                      (load (bias_of ddt) m) with
              | (false, ft) => Returned (None, store (ft_of ddt) ft m)
              | (true, ft) =>
                  Returned (Some is_daylight_saving_time,
                            store (ft_of ddt) ft m)
              end
          end
      end
  end.

(** The branch [else]: UTC time. *)
Definition keep_utc {M : Type} (ddt : ref M DayDateTime.t)
  (utc_ft : ref M FILETIME) (m : M) : outcome (option bool * M) :=
  (* ddt.ft = utc_ft; *)
  let m := store (ft_of ddt) (load utc_ft m) m in
  match FileTimeToSystemTime (load (ft_of ddt) m) with
  | None => Returned (None, m)
  | Some st =>
      let m := store (st_of ddt) st m in
      let m := store (bias_of ddt) 0 m in
      Returned (Some false, m)
  end.

Definition GetTimeInfoLocalOrUTC {M : Type} (this : t)
  (ddt : ref M DayDateTime.t) (utc_ft : ref M FILETIME)
  (convert_to_local_time : bool) (m : M) : outcome (bool * M) :=
  let Clear := fun m => store ddt (DayDateTime.Clear (load ddt m)) m in
  let m := Clear m in
  if negb (IsFileTimeValid (load utc_ft m)) then Returned (false, Clear m)
  else
    match (if convert_to_local_time then convert_to_local ddt utc_ft m
           else keep_utc ddt utc_ft m) with
    | Aborted => Aborted
    | Returned (None, m) => Returned (false, Clear m)
    | Returned (Some is_daylight_saving_time, m) =>
        match SystemTimeToTm (load (st_of ddt) m) is_daylight_saving_time
                (load (tm_of ddt) m) with
        | (false, _) => Returned (false, Clear m)
        | (true, tm) =>
            let m := store (tm_of ddt) tm m in
            match (if TimeFormat.usa_style (format this)
                   then GetStringsUSA this (load ddt m)
                   else GetStrings this (load ddt m)) with
            | (false, d) => Returned (false, Clear (store ddt d m))
            | (true, d) =>
                let m := store ddt d m in
                let m := store (format_of ddt) (format this) m in
                let m := store (valid_of ddt) true m in
                Returned (load (valid_of ddt) m, m)
            end
        end
    end.

(** [GetTimeInfo( DayDateTime &, const FILETIME & )] *)
Definition GetTimeInfo_ddt_ft {M : Type} (this : t)
  (ddt : ref M DayDateTime.t) (utc_ft : ref M FILETIME) (m : M)
  : outcome (bool * M) :=
  GetTimeInfoLocalOrUTC this ddt utc_ft (prefer_local_time this) m.

(** [GetTimeInfo( TimeInfo &, const FILETIME & )] *)
Definition GetTimeInfo_ti_ft {M : Type} (this : t)
  (ti : ref M TimeInfo.t) (utc_ft : ref M FILETIME) (m : M)
  : outcome (bool * M) :=
  let Clear := fun m => store ti (TimeInfo.Clear (load ti m) true) m in
  let m := Clear m in
  let m :=
    store ti (TimeInfo.InitializeLocalTimePref (load ti m)
                (prefer_local_time this)) m in
  match GetTimeInfoLocalOrUTC this
          (pointee ti (TimeInfo._local (load ti m))) utc_ft true m with
  | Aborted => Aborted
  | Returned (false, m) => Returned (false, Clear m)
  | Returned (true, m) =>
      match GetTimeInfoLocalOrUTC this
              (pointee ti (TimeInfo._utc (load ti m))) utc_ft false m with
      | Aborted => Aborted
      | Returned (false, m) => Returned (false, Clear m)
      | Returned (true, m) =>
          let m :=
            store ti
              (TimeInfo.set_timestamp (load ti m)
                 (GetUTCTimestampString this
                    (DayDateTime.st (TimeInfo.utc (load ti m))))) m in
          if negb (nonempty (TimeInfo.timestamp (load ti m)))
          then Returned (false, Clear m)
          else
            let m := store ti (TimeInfo.set_valid (load ti m) true) m in
            Returned (TimeInfo.valid (load ti m), m)
      end
  end.

End Platform.

End ISO8601.

(** ** Notions used in the statements about strings *)

Module Parse.
Import Ascii String Stream.
Local Open Scope string_scope.
Local Open Scope Z_scope.

(** The number that a string of decimal digits denotes, leading zeros
    allowed; [None] for the empty string and for a string with any other
    character in it. *)
Definition integer (s : string) : option Z :=
  option_map Z.of_int (DecimalString.NilZero.int_of_string s).

(** The number in the [len] characters of [s] from position [pos] on. *)
Definition field (s : string) (pos len : nat) : option Z :=
  integer (substring pos len s).

Fixpoint upto (lo : Z) (count : nat) : list Z :=
  match count with
  | O => []
  | S count' => lo :: upto (lo + 1) count'
  end.

(** [lo], [lo + 1], ..., [hi]. *)
Definition range (lo hi : Z) : list Z := upto lo (Z.to_nat (hi - lo + 1)).

(** Whether every number of a range, written in a field of width [w]
    filled with ['0'], takes [len] characters and reads back as itself. *)
Definition reads_back (w len : nat) (lo hi : Z) : bool :=
  forallb
    (fun n =>
       Nat.eqb (String.length (setw "0" w (put_integer n))) len
       && match integer (setw "0" w (put_integer n)) with
          | Some m => m =? n
          | None => false
          end)
    (range lo hi).

End Parse.

(** The object [this] with the milliseconds of the time string turned on. *)
Definition with_milliseconds (this : ISO8601.t) : ISO8601.t :=
  ISO8601.mk (ISO8601.prefer_local_time this) (ISO8601.dst_start_year this)
    (ISO8601.ignore_dst this)
    (TimeFormat.mk (TimeFormat.usa_style (ISO8601.format this))
       (TimeFormat.day_string_with_abbreviation (ISO8601.format this))
       true).

(** The object that [ISO8601()] makes. *)
Definition ISO8601_default : ISO8601.t :=
  ISO8601.mk true 1967 false (TimeFormat.mk false false false).

(** Sunday 2013-08-11T18:46:00.085, the time of the examples of
    [iso8601.hpp]. *)
Definition august_11_2013 : SYSTEMTIME := mkST 2013 8 0 11 18 46 0 85.

(** A [DayDateTime] as its default constructor leaves it. *)
Definition DayDateTime_cleared : DayDateTime.t :=
  DayDateTime.mk false (mkFT 0 0) zero_SYSTEMTIME (mkTm 0 0 0 0 0 0 0 0 0) 0
    String.EmptyString String.EmptyString String.EmptyString
    String.EmptyString (TimeFormat.mk false false false).

(** The [DayDateTime] that holds the time [st], at [ft] and with the bias
    [bias], formatted by [this]. *)
Definition DayDateTime_filled (this : ISO8601.t) (is_daylight_saving_time : bool)
  (ft : FILETIME) (st : SYSTEMTIME) (bias : Z) : DayDateTime.t :=
  let usa_style := TimeFormat.usa_style (ISO8601.format this) in
  DayDateTime.mk true ft st
    (snd (SystemTimeToTm st is_daylight_saving_time
            (mkTm 0 0 0 0 0 0 0 0 0)))
    bias
    (ISO8601.GetDayStringEnglish this (wDayOfWeek st))
    (if usa_style then ISO8601.GetDateStringUSA this st
     else ISO8601.GetDateString this st)
    (if usa_style then ISO8601.GetTimeStringUSA this st
     else ISO8601.GetTimeString this st)
    (if usa_style then ISO8601.GetUTCOffsetStringUSA this bias
     else ISO8601.GetUTCOffsetString this bias)
    (ISO8601.format this).

(** A [TimeInfo] as its default constructor leaves it. *)
Definition TimeInfo_cleared : TimeInfo.t :=
  TimeInfo.mk DayDateTime_cleared false String.EmptyString
    TimeInfo.this_base TimeInfo.alternate false DayDateTime_cleared.

(** The two pointers of a [TimeInfo] agree with [_prefer_local_time]. *)
Definition TimeInfo_consistent (ti : TimeInfo.t) : Prop :=
  TimeInfo._utc ti
  = (if TimeInfo._prefer_local_time ti then TimeInfo.alternate
     else TimeInfo.this_base)
  /\ TimeInfo._local ti
     = (if TimeInfo._prefer_local_time ti then TimeInfo.this_base
        else TimeInfo.alternate).

(** [august_11_2013] as a [FILETIME]. *)
Definition august_11_2013_ft : FILETIME := mkFT 97737808 30316227.

(** A [TimeInfo] that prefers UTC, with a time in the base subobject. *)
Definition TimeInfo_august_11_2013 : TimeInfo.t :=
  TimeInfo.store TimeInfo_cleared TimeInfo.this_base
    (DayDateTime.set_st DayDateTime_cleared august_11_2013).

(** *** [GetTimeInfoLocalOrUTC] as a function of the time it reads

    What the function leaves in the object of [ddt] and what it returns,
    as a function of the [FILETIME] that the reference [utc_ft] reads during
    the call.  The properties below relate the function itself to it. *)

Section TimeInfoValues.

Variable NDEBUG : bool.
Variable SystemTimeToFileTime : SYSTEMTIME -> option FILETIME.
Variable FileTimeToSystemTime : FILETIME -> option SYSTEMTIME.
Variable pfnGetDynamicTimeZoneInformation
  : option (Z * DYNAMIC_TIME_ZONE_INFORMATION).
Variable pfnGetTimeZoneInformationForYear
  : option (Z -> DYNAMIC_TIME_ZONE_INFORMATION -> option TIME_ZONE_INFORMATION).
Variable GetTimeZoneInformation : Z * TIME_ZONE_INFORMATION.

(** The bias that goes with a timezone id, and whether it is that of
    daylight time. *)
Definition bias_for (tzi_id : Z) (tzi : TIME_ZONE_INFORMATION)
  : option (bool * Z) :=
  if tzi_id =? TIME_ZONE_ID_DAYLIGHT
  then Some (true, s32 (Bias tzi + DaylightBias tzi))
  else if tzi_id =? TIME_ZONE_ID_STANDARD
  then Some (false, s32 (Bias tzi + StandardBias tzi))
  else if tzi_id =? TIME_ZONE_ID_UNKNOWN
  then Some (false, Bias tzi)
  else None.

(** [is_daylight_saving_time] and the members [ft], [st] and [bias],
    without conversion to local time and with it. *)
Definition utc_members (utc_ft : FILETIME)
  : outcome (option (bool * FILETIME * SYSTEMTIME * Z)) :=
  match FileTimeToSystemTime utc_ft with
  | None => Returned None
  | Some st => Returned (Some (false, utc_ft, st, 0))
  end.

Definition local_members (utc_ft : FILETIME)
  : outcome (option (bool * FILETIME * SYSTEMTIME * Z)) :=
  match FileTimeToSystemTime utc_ft with
  | None => Returned None
  | Some utc_st =>
      if IsSystemTimeValid utc_st then
        match first_resolution NDEBUG SystemTimeToFileTime
                FileTimeToSystemTime pfnGetDynamicTimeZoneInformation
                pfnGetTimeZoneInformationForYear GetTimeZoneInformation
                utc_st (rule_set_attempts utc_st) with
        | Aborted => Aborted
        | Returned None => Returned None
        | Returned (Some s) =>
            match bias_for (out_tzi_id s) (out_tzi s) with
            | None => Returned None
            | Some (is_daylight_saving_time, bias) =>
                match FileTimeSubtractMinutes utc_ft bias with
                | (true, ft) =>
                    Returned (Some (is_daylight_saving_time, ft,
                                    out_local_time s, bias))
                | (false, _) => Returned None
                end
            end
        end
      else Returned None
  end.

Definition time_info_for (this : ISO8601.t) (convert_to_local_time : bool)
  (utc_ft : FILETIME) : outcome (bool * DayDateTime.t) :=
  if negb (IsFileTimeValid utc_ft) then Returned (false, DayDateTime_cleared)
  else
    match (if convert_to_local_time then local_members utc_ft
           else utc_members utc_ft) with
    | Aborted => Aborted
    | Returned None => Returned (false, DayDateTime_cleared)
    | Returned (Some (is_daylight_saving_time, ft, st, bias)) =>
        if IsSystemTimeValid st
        then Returned (true,
                       DayDateTime_filled this is_daylight_saving_time
                                          ft st bias)
        else Returned (false, DayDateTime_cleared)
    end.

End TimeInfoValues.

(** The memory of a caller with a [FILETIME] next to another object, and
    the memory of a caller with one object. *)
Definition the_filetime {A : Type} : ref (FILETIME * A) FILETIME :=
  mkRef fst (fun v m => (v, snd m)).
Definition beside_the_filetime {A : Type} : ref (FILETIME * A) A :=
  mkRef snd (fun v m => (fst m, v)).
Definition the_object {A : Type} : ref A A :=
  mkRef (fun m => m) (fun v _ => v).

(** * Properties *)

(** ** Machine integers *)

Lemma u16_id z : is_u16 z -> u16 z = z.
Proof. unfold is_u16, u16; intros; apply Z.mod_small; lia. Qed.

Lemma u32_id z : is_u32 z -> u32 z = z.
Proof. unfold is_u32, u32; intros; apply Z.mod_small; lia. Qed.

Lemma s32_id z : is_s32 z -> s32 z = z.
Proof. unfold is_s32, s32; intros; rewrite Z.mod_small; lia. Qed.

Lemma s64_id z : is_s64 z -> s64 z = z.
Proof. unfold is_s64, s64; intros; rewrite Z.mod_small; lia. Qed.

Lemma s64_range z : is_s64 (s64 z).
Proof.
  unfold is_s64, s64.
  pose proof (Z.mod_pos_bound (z + 2 ^ 63) (2 ^ 64)); lia.
Qed.

(** Case analysis on every integer comparison of the goal. *)
Ltac zbool :=
  repeat match goal with
  | |- context [?a <? ?b] => destruct (Z.ltb_spec a b); try lia
  | |- context [?a <=? ?b] => destruct (Z.leb_spec a b); try lia
  | |- context [?a =? ?b] => destruct (Z.eqb_spec a b); try lia
  end.

(** ** [IsLeapYear] *)

(** C9: [IsLeapYear] is true exactly for the years divisible by 400, or
    divisible by 4 and not by 100; no range of years is excluded, and the
    four years 2000, 1900, 2024 and 2023 come out as leap, common, leap and
    common. *)
Theorem IsLeapYear_gregorian :
  (forall year : Z,
     IsLeapYear year = true <->
     ((400 | year) \/ ((4 | year) /\ ~ (100 | year))))
  /\ IsLeapYear 2000 = true /\ IsLeapYear 1900 = false
  /\ IsLeapYear 2024 = true /\ IsLeapYear 2023 = false.
Proof.
  split; [| repeat split; reflexivity].
  intro year.
  rewrite <- !Z.mod_divide by lia.
  unfold IsLeapYear.
  zbool; split; intros; try discriminate; try reflexivity; tauto.
Qed.

(** ** [AreTimezoneBiasesValid] *)

(** C3 as stated fails: both sums of [tzi_large_bias] are within a day and
    the function rejects it. *)
Lemma AreTimezoneBiasesValid_sums_alone_fail :
  ~ (AreTimezoneBiasesValid tzi_large_bias = true <->
     in_day (Bias tzi_large_bias + StandardBias tzi_large_bias)
     /\ in_day (Bias tzi_large_bias + DaylightBias tzi_large_bias)).
Proof.
  intros [_ H].
  assert (E : AreTimezoneBiasesValid tzi_large_bias = false) by reflexivity.
  rewrite H in E; [discriminate |].
  unfold in_day; simpl; lia.
Qed.

(** C3, amended: [AreTimezoneBiasesValid] is true exactly when [Bias] itself
    and both sums [Bias + StandardBias] and [Bias + DaylightBias] are within
    [-1440, 1440]; the differences it computes on the way stay within
    [long]. *)
Theorem AreTimezoneBiasesValid_iff (tzi : TIME_ZONE_INFORMATION) :
  wf_biases tzi ->
  (AreTimezoneBiasesValid tzi = true <->
   in_day (Bias tzi)
   /\ in_day (Bias tzi + StandardBias tzi)
   /\ in_day (Bias tzi + DaylightBias tzi))
  /\ (0 < StandardBias tzi -> is_s32 (max_diff - StandardBias tzi))
  /\ (StandardBias tzi < 0 -> is_s32 (- max_diff - StandardBias tzi))
  /\ (0 < DaylightBias tzi -> is_s32 (max_diff - DaylightBias tzi))
  /\ (DaylightBias tzi < 0 -> is_s32 (- max_diff - DaylightBias tzi)).
Proof.
  intros (HB & HS & HD).
  unfold is_s32, max_diff in *.
  split; [| lia].
  unfold AreTimezoneBiasesValid, in_day, max_diff.
  change (s32 (- (24 * 60))) with (- 1440).
  destruct (Z.ltb_spec 0 (StandardBias tzi));
    destruct (Z.ltb_spec (StandardBias tzi) 0); try lia;
    destruct (Z.ltb_spec 0 (DaylightBias tzi));
    destruct (Z.ltb_spec (DaylightBias tzi) 0); try lia;
    cbn [andb orb]; rewrite ?s32_id by (unfold is_s32; lia);
    zbool; cbn [andb orb]; split; intros; try discriminate; try reflexivity;
    lia.
Qed.

Lemma AreTimezoneBiasesValid_iff_witness :
  AreTimezoneBiasesValid
    (mkTZI 300 [0] zero_SYSTEMTIME 0 [0] zero_SYSTEMTIME (-60)) = true.
Proof.
  apply (AreTimezoneBiasesValid_iff
           (mkTZI 300 [0] zero_SYSTEMTIME 0 [0] zero_SYSTEMTIME (-60)));
    unfold wf_biases, is_s32, in_day; simpl; lia.
Defined.

(** ** Tick arithmetic on [FILETIME] *)

Lemma s32_cases h :
  is_u32 h -> s32 h = if h <? 2 ^ 31 then h else h - 2 ^ 32.
Proof.
  unfold is_u32, s32; intros.
  destruct (Z.ltb_spec h (2 ^ 31)).
  - rewrite Z.mod_small; lia.
  - replace (h + 2 ^ 31) with (h - 2 ^ 31 + 1 * 2 ^ 32) by lia.
    rewrite Z_mod_plus_full, Z.mod_small; lia.
Qed.

Lemma s32_u32 x : s32 (u32 x) = s32 x.
Proof. unfold s32, u32. now rewrite Zplus_mod_idemp_l. Qed.

Lemma u32_s32 x : u32 (s32 x) = u32 x.
Proof.
  unfold s32, u32.
  rewrite <- Zminus_mod_idemp_l, Z.mod_mod by lia.
  rewrite Zminus_mod_idemp_l. f_equal; lia.
Qed.

Lemma u32_range x : is_u32 (u32 x).
Proof. unfold is_u32, u32. apply Z.mod_pos_bound; lia. Qed.

Lemma wf_of_QuadPart q : wf_FILETIME (of_QuadPart q).
Proof. split; apply u32_range. Qed.

Lemma QuadPart_range ft : wf_FILETIME ft -> is_s64 (QuadPart ft).
Proof.
  intros [Hl Hh]. unfold QuadPart. rewrite (s32_cases _ Hh).
  unfold is_u32, is_s64 in *.
  destruct (Z.ltb_spec (dwHighDateTime ft) (2 ^ 31)); lia.
Qed.

Lemma of_QuadPart_QuadPart ft : wf_FILETIME ft -> of_QuadPart (QuadPart ft) = ft.
Proof.
  destruct ft as [l h]; intros [Hl Hh].
  unfold of_QuadPart, QuadPart; cbn [dwLowDateTime dwHighDateTime] in *.
  assert (El : u32 (s32 h * 2 ^ 32 + l) = l).
  { unfold u32. rewrite Z.add_comm, Z_mod_plus_full. apply Z.mod_small, Hl. }
  assert (Eh : (s32 h * 2 ^ 32 + l) / 2 ^ 32 = s32 h).
  { rewrite Z.add_comm, Z_div_plus_full by lia.
    unfold is_u32 in Hl. rewrite Z.div_small; lia. }
  rewrite El, Eh, u32_s32, u32_id; auto.
Qed.

Lemma QuadPart_of_QuadPart q : is_s64 q -> QuadPart (of_QuadPart q) = q.
Proof.
  intros Hq. unfold QuadPart, of_QuadPart; cbn [dwLowDateTime dwHighDateTime].
  rewrite s32_u32, s32_id.
  - unfold u32. pose proof (Z.div_mod q (2 ^ 32)). lia.
  - unfold is_s64, is_s32 in *.
    split.
    + apply Z.div_le_lower_bound; lia.
    + apply Z.div_lt_upper_bound; lia.
Qed.

Lemma IsFileTimeValid_QuadPart ft :
  wf_FILETIME ft ->
  IsFileTimeValid ft = (0 <=? QuadPart ft) && (QuadPart ft <=? max_ticks).
Proof.
  intros [Hl Hh]. unfold IsFileTimeValid, QuadPart, max_ticks, max_FILETIME.
  rewrite (s32_cases _ Hh). unfold is_u32 in *.
  cbn [dwLowDateTime dwHighDateTime].
  destruct (Z.ltb_spec (dwHighDateTime ft) (2 ^ 31)); zbool; reflexivity.
Qed.

(** [FileTimeSubtract100nsIntervals] in terms of the integers it computes
    with: its overflow test is exact. *)
Lemma FileTimeSubtract100nsIntervals_unfold ft n :
  wf_FILETIME ft -> is_s64 n ->
  FileTimeSubtract100nsIntervals ft n =
  if negb (IsFileTimeValid ft) then (false, ft)
  else if n =? 0 then (true, ft)
  else if (QuadPart ft - n <? LLONG_MIN) || (LLONG_MAX <? QuadPart ft - n)
  then (false, ft)
  else (IsFileTimeValid (of_QuadPart (QuadPart ft - n)),
        of_QuadPart (QuadPart ft - n)).
Proof.
  intros Hft Hn. unfold FileTimeSubtract100nsIntervals.
  pose proof (QuadPart_range _ Hft) as Hq.
  destruct (IsFileTimeValid ft); cbn [negb]; [| reflexivity].
  destruct (Z.eqb_spec n 0); [reflexivity |].
  unfold is_s64, LLONG_MIN, LLONG_MAX in *.
  destruct (Z.ltb_spec 0 n); destruct (Z.ltb_spec n 0); try lia;
    cbn [andb orb]; rewrite ?orb_false_r;
    rewrite s64_id by (unfold is_s64; lia).
  - destruct (Z.ltb_spec (QuadPart ft) (- 2 ^ 63 + n)); zbool; try reflexivity.
    cbn [orb]. rewrite s64_id by (unfold is_s64; lia). reflexivity.
  - destruct (Z.ltb_spec (2 ^ 63 - 1 + n) (QuadPart ft)); zbool; try reflexivity.
    cbn [orb]. rewrite s64_id by (unfold is_s64; lia). reflexivity.
Qed.

(** A successful subtraction is the subtraction of the integers, and its
    result is within the supported range: nothing wraps at this level. *)
Lemma FileTimeSubtract100nsIntervals_exact ft n ft' :
  wf_FILETIME ft -> is_s64 n ->
  FileTimeSubtract100nsIntervals ft n = (true, ft') ->
  QuadPart ft' = QuadPart ft - n /\ 0 <= QuadPart ft' <= max_ticks.
Proof.
  intros Hft Hn.
  rewrite (FileTimeSubtract100nsIntervals_unfold _ _ Hft Hn).
  pose proof (IsFileTimeValid_QuadPart _ Hft) as Hv.
  destruct (IsFileTimeValid ft); cbn [negb]; [| discriminate].
  symmetry in Hv. apply andb_true_iff in Hv. rewrite !Z.leb_le in Hv.
  destruct (Z.eqb_spec n 0).
  - intros E; injection E as <-. subst n. lia.
  - unfold LLONG_MIN, LLONG_MAX.
    destruct (Z.ltb_spec (QuadPart ft - n) (- 2 ^ 63)); [discriminate |].
    destruct (Z.ltb_spec (2 ^ 63 - 1) (QuadPart ft - n)); [discriminate |].
    cbn [orb]. intros E; injection E as Hv' <-.
    rewrite (IsFileTimeValid_QuadPart _ (wf_of_QuadPart _)) in Hv'.
    rewrite QuadPart_of_QuadPart in * by (unfold is_s64; lia).
    apply andb_true_iff in Hv'. rewrite !Z.leb_le in Hv'. lia.
Qed.

(** The product of [FileTimeSubtractMinutes] and [FileTimeAddMinutes] is the
    product of the integers as long as that fits [long long]. *)
Lemma minutes_to_intervals_exact minutes :
  is_s64 (minutes * 10000 * 1000 * 60) ->
  minutes_to_intervals minutes = minutes * 600000000.
Proof.
  unfold minutes_to_intervals, is_s64. intros H.
  rewrite (s64_id (minutes * 10000)) by (unfold is_s64; lia).
  rewrite (s64_id (minutes * 10000 * 1000)) by (unfold is_s64; lia).
  rewrite s64_id by (unfold is_s64; lia). lia.
Qed.

(** C10: the three ways [FileTimeSubtract100nsIntervals] fails.  An invalid
    [ft] and a subtraction that would leave [long long] give [false] with
    [ft] as it was; a subtraction that stays within [long long] and leaves
    the supported range gives [false] with [ft] overwritten by the
    out-of-range result, which differs from the [ft] passed in. *)
Theorem FileTimeSubtract100nsIntervals_failure_paths
  (ft : FILETIME) (intervals : Z) :
  wf_FILETIME ft -> is_s64 intervals ->
  (IsFileTimeValid ft = false ->
   FileTimeSubtract100nsIntervals ft intervals = (false, ft))
  /\ (IsFileTimeValid ft = true -> intervals <> 0 ->
      ~ is_s64 (QuadPart ft - intervals) ->
      FileTimeSubtract100nsIntervals ft intervals = (false, ft))
  /\ (IsFileTimeValid ft = true -> intervals <> 0 ->
      is_s64 (QuadPart ft - intervals) ->
      IsFileTimeValid (of_QuadPart (QuadPart ft - intervals)) = false ->
      FileTimeSubtract100nsIntervals ft intervals
        = (false, of_QuadPart (QuadPart ft - intervals))
      /\ of_QuadPart (QuadPart ft - intervals) <> ft).
Proof.
  intros Hft Hn.
  rewrite (FileTimeSubtract100nsIntervals_unfold _ _ Hft Hn).
  unfold is_s64, LLONG_MIN, LLONG_MAX.
  repeat split.
  - intros ->. reflexivity.
  - intros -> Hz Hov. cbn [negb].
    destruct (Z.eqb_spec intervals 0); [contradiction |].
    zbool; reflexivity.
  - rewrite H; cbn [negb].
    destruct (Z.eqb_spec intervals 0); [contradiction |].
    zbool. cbn [orb]. now rewrite H2.
  - intros E. rewrite E in H2. congruence.
Qed.

(** One second after the epoch, and a subtraction of two seconds. *)
Lemma FileTimeSubtract100nsIntervals_failure_paths_witness :
  FileTimeSubtract100nsIntervals (mkFT 10000000 0) 20000000
  = (false, mkFT 4284967296 4294967295)
  /\ mkFT 4284967296 4294967295 <> mkFT 10000000 0.
Proof.
  refine (proj2 (proj2 (FileTimeSubtract100nsIntervals_failure_paths
                          (mkFT 10000000 0) 20000000 _ _)) _ _ _ _);
    try (vm_compute; reflexivity); try discriminate;
    vm_compute; intuition discriminate.
Defined.

Lemma FileTimeAdd100nsIntervals_unfold ft n :
  is_s64 n ->
  FileTimeAdd100nsIntervals ft n =
  if n =? LLONG_MIN then (false, ft)
  else FileTimeSubtract100nsIntervals ft (- n).
Proof.
  intros Hn. unfold FileTimeAdd100nsIntervals.
  unfold is_s64, LLONG_MIN, LLONG_MAX in *.
  destruct (Z.ltb_spec n 0); destruct (Z.ltb_spec 0 n); try lia;
    cbn [andb orb]; rewrite ?orb_false_r;
    try rewrite (s64_id (2 ^ 63 - 1 + n)) by (unfold is_s64; lia);
    try rewrite (s64_id (- 2 ^ 63 + n)) by (unfold is_s64; lia);
    zbool; try reflexivity;
    rewrite s64_id by (unfold is_s64; lia); reflexivity.
Qed.

(** Adding and then subtracting the same number of intervals. *)
Lemma FileTimeAdd100nsIntervals_then_Subtract ft n ft' :
  wf_FILETIME ft -> is_s64 n ->
  FileTimeAdd100nsIntervals ft n = (true, ft') ->
  FileTimeSubtract100nsIntervals ft' n = (true, ft).
Proof.
  intros Hft Hn.
  rewrite (FileTimeAdd100nsIntervals_unfold _ _ Hn).
  unfold is_s64, LLONG_MIN, LLONG_MAX in *.
  destruct (Z.eqb_spec n (- 2 ^ 63)); [discriminate |].
  assert (Hn' : is_s64 (- n)) by (unfold is_s64; lia).
  rewrite (FileTimeSubtract100nsIntervals_unfold _ _ Hft Hn').
  destruct (IsFileTimeValid ft) eqn:Hv; cbn [negb]; [| discriminate].
  destruct (Z.eqb_spec (- n) 0) as [Hz | Hz].
  - intros E; injection E as <-.
    rewrite (FileTimeSubtract100nsIntervals_unfold _ _ Hft Hn), Hv.
    cbn [negb]. replace n with 0 by lia. reflexivity.
  - unfold LLONG_MIN, LLONG_MAX.
    destruct (Z.ltb_spec (QuadPart ft - - n) (- 2 ^ 63)); [discriminate |].
    destruct (Z.ltb_spec (2 ^ 63 - 1) (QuadPart ft - - n)); [discriminate |].
    cbn [orb]. intros E; injection E as Hv' <-.
    assert (Hq : is_s64 (QuadPart ft - - n)) by (unfold is_s64; lia).
    rewrite (FileTimeSubtract100nsIntervals_unfold _ _ (wf_of_QuadPart _) Hn).
    rewrite Hv', (QuadPart_of_QuadPart _ Hq). cbn [negb].
    pose proof (QuadPart_range _ Hft) as Hr. unfold is_s64 in Hr.
    unfold LLONG_MIN, LLONG_MAX.
    replace (QuadPart ft - - n - n) with (QuadPart ft) by lia.
    rewrite (of_QuadPart_QuadPart _ Hft), Hv.
    zbool. reflexivity.
Qed.

(** C8: when [FileTimeAddMinutes] succeeds on [ft], [FileTimeSubtractMinutes]
    with the same number of minutes succeeds on the result and gives [ft]
    back. *)
Theorem FileTimeAddMinutes_then_SubtractMinutes
  (ft ft' : FILETIME) (minutes : Z) :
  wf_FILETIME ft ->
  FileTimeAddMinutes ft minutes = (true, ft') ->
  FileTimeSubtractMinutes ft' minutes = (true, ft).
Proof.
  unfold FileTimeAddMinutes, FileTimeSubtractMinutes. intros Hft.
  apply FileTimeAdd100nsIntervals_then_Subtract; [exact Hft |].
  apply s64_range.
Qed.

(** 2014-12-31T23:30:00 and ninety minutes. *)
Lemma FileTimeAddMinutes_then_SubtractMinutes_witness :
  FileTimeSubtractMinutes (mkFT 1149102080 30418270) 90
  = (true, mkFT 2983676928 30418257).
Proof.
  apply (FileTimeAddMinutes_then_SubtractMinutes
           (mkFT 2983676928 30418257) (mkFT 1149102080 30418270) 90).
  - vm_compute; intuition discriminate.
  - vm_compute; reflexivity.
Defined.

(** C5: the product [minutes * 10000 * 1000 * 60] is not guarded.  For
    [2 ^ 55 + 1] minutes, a [long long], the product is far beyond
    [LLONG_MAX] and wraps to the intervals of one minute; both functions
    report success and move the time by one minute. *)
Theorem FileTimeAddMinutes_wraps_silently :
  let minutes := 2 ^ 55 + 1 in
  is_s64 minutes
  /\ LLONG_MAX < minutes * 10000 * 1000 * 60
  /\ minutes_to_intervals minutes = 600000000
  /\ FileTimeAddMinutes (mkFT 0 0) minutes = (true, mkFT 600000000 0)
  /\ FileTimeSubtractMinutes (mkFT 600000000 0) minutes = (true, mkFT 0 0).
Proof.
  cbv zeta. repeat split; try (vm_compute; reflexivity);
    vm_compute; intuition discriminate.
Qed.

(** ** Calendar dates and days of the week *)

Lemma month_cases m :
  1 <= m <= 12 ->
  m = 1 \/ m = 2 \/ m = 3 \/ m = 4 \/ m = 5 \/ m = 6 \/
  m = 7 \/ m = 8 \/ m = 9 \/ m = 10 \/ m = 11 \/ m = 12.
Proof. lia. Qed.

(** Replaces a month in range by its twelve values. *)
Ltac each_month m H :=
  let C := fresh "C" in
  pose proof (month_cases m H) as C;
  repeat (destruct C as [C | C]; [subst m |]); [.. | subst m].

(** Evaluates the closed table lookups and comparisons of the goal. *)
Ltac eval_tables :=
  repeat match goal with
  | |- context [nth ?n ?l 0] =>
      let v := eval vm_compute in (nth n l 0) in
      change (nth n l 0) with v
  | |- context [Z.eqb ?a ?b] =>
      let v := eval vm_compute in (Z.eqb a b) in
      match v with
      | true => change (Z.eqb a b) with true
      | false => change (Z.eqb a b) with false
      end
  | |- context [Z.ltb ?a ?b] =>
      let v := eval vm_compute in (Z.ltb a b) in
      match v with
      | true => change (Z.ltb a b) with true
      | false => change (Z.ltb a b) with false
      end
  end; cbn [andb orb negb].

Lemma month_length_range leap m :
  1 <= m <= 12 -> 28 <= month_length leap m <= 31.
Proof.
  intros H. each_month m H; destruct leap; vm_compute; intuition discriminate.
Qed.

Lemma IsDateValid_iff d m y :
  IsDateValid d m y = true <->
  IsYearValid y = true /\ 1 <= m <= 12
  /\ 1 <= d <= month_length (IsLeapYear y) m.
Proof.
  unfold IsDateValid.
  destruct (IsYearValid y); cbn [negb orb]; [| intuition discriminate].
  destruct (Z.ltb_spec m 1); [intuition (try discriminate; lia) |].
  destruct (Z.ltb_spec 12 m); [intuition (try discriminate; lia) |].
  cbn [orb].
  assert (Hm : 1 <= m <= 12) by lia.
  pose proof (month_length_range (IsLeapYear y) m Hm) as Hl.
  destruct (Z.ltb_spec d 1); [intuition (try discriminate; lia) |].
  destruct (Z.ltb_spec 31 d); [intuition (try discriminate; lia) |].
  cbn [orb]. unfold month_length in *.
  destruct (IsLeapYear y); cbn [andb] in *;
    each_month m Hm; eval_tables; zbool; cbn;
    intuition (try discriminate; lia).
Qed.

Lemma sakamoto_t_range n : 0 <= nth n sakamoto_t 0 <= 6.
Proof.
  do 12 (destruct n as [| n]; [cbn; lia |]). destruct n; cbn; lia.
Qed.

Lemma GetDayOfWeek_range d m y : 0 <= GetDayOfWeek d m y <= 6.
Proof.
  unfold GetDayOfWeek.
  destruct ((m <? 1) || (12 <? m)); [lia |].
  match goal with |- context [u16 (?x mod 7)] =>
    pose proof (Z.mod_pos_bound x 7 ltac:(lia)) as Hb;
    rewrite (u16_id (x mod 7)) by (unfold is_u16; lia)
  end.
  lia.
Qed.

(** Within the supported years nothing in [GetDayOfWeek] wraps. *)
Lemma GetDayOfWeek_valid d m y :
  IsYearValid y = true -> 1 <= m <= 12 -> 0 <= d < 2 ^ 16 ->
  GetDayOfWeek d m y = (dow_base m y + d) mod 7.
Proof.
  unfold IsYearValid, GetDayOfWeek, dow_base.
  rewrite andb_true_iff, !Z.leb_le. intros [Hy1 Hy2] Hm Hd.
  destruct (Z.ltb_spec m 1); [lia |].
  destruct (Z.ltb_spec 12 m); [lia |]. cbn [orb].
  pose proof (sakamoto_t_range (Z.to_nat (m - 1))) as Ht.
  set (c := if m <? 3 then 1 else 0).
  assert (Hc : 0 <= c <= 1) by (unfold c; destruct (m <? 3); lia).
  rewrite (u32_id (y - c)) by (unfold is_u32; lia).
  set (y' := y - c) in *.
  assert (Hy' : 1600 <= y' <= 30827) by (unfold y'; lia).
  assert (0 <= y' / 400 <= y' / 100 /\ y' / 100 <= y' / 4 /\ y' / 4 <= y')
    by (clearbody y'; Z.to_euclidean_division_equations; lia).
  rewrite u32_id by (unfold is_u32; lia).
  apply u16_id. unfold is_u16.
  match goal with |- context [?x mod 7] =>
    pose proof (Z.mod_pos_bound x 7 ltac:(lia)) end.
  lia.
Qed.

(** ** Transition rules *)

Lemma IsRelativeTimezoneTimeValid_fields tzt :
  IsRelativeTimezoneTimeValid tzt = true ->
  wYear tzt = 0 /\ 1 <= wMonth tzt <= 12 /\ wDayOfWeek tzt <= 6
  /\ 1 <= wDay tzt <= 5.
Proof.
  unfold IsRelativeTimezoneTimeValid.
  rewrite !andb_true_iff, !Z.leb_le, Z.eqb_eq. tauto.
Qed.

Lemma IsYearValid_range y : IsYearValid y = true -> 1601 <= y <= 30827.
Proof. unfold IsYearValid. rewrite andb_true_iff, !Z.leb_le. tauto. Qed.

(** A relative rule in a supported year: the conversion succeeds, the day it
    finds exists in the month and falls on the weekday of the rule. *)
Lemma TimezoneTimeToLocalTime_relative tzt y l0 :
  0 <= wDayOfWeek tzt ->
  IsRelativeTimezoneTimeValid tzt = true ->
  IsYearValid y = true ->
  TimezoneTimeToLocalTime tzt y l0
    = (true, set_wYear (set_wDay tzt (relative_day tzt y)) y)
  /\ IsDateValid (relative_day tzt y) (wMonth tzt) y = true
  /\ GetDayOfWeek (relative_day tzt y) (wMonth tzt) y = wDayOfWeek tzt.
Proof.
  intros Hw0 Hrel Hy.
  destruct (IsRelativeTimezoneTimeValid_fields _ Hrel) as (_ & Hm & Hw & Hk).
  pose proof (IsYearValid_range _ Hy) as Hyr.
  pose proof (month_length_range (IsLeapYear y) _ Hm) as Hlen.
  unfold TimezoneTimeToLocalTime. rewrite Hrel, Hy. cbn [negb].
  pose proof (GetDayOfWeek_range 1 (wMonth tzt) y) as Hf.
  assert (Ef : GetDayOfWeek 1 (wMonth tzt) y
               = (dow_base (wMonth tzt) y + 1) mod 7)
    by (apply GetDayOfWeek_valid; auto; lia).
  unfold relative_day, occurrence_day.
  set (f := GetDayOfWeek 1 (wMonth tzt) y) in *.
  set (w := wDayOfWeek tzt) in *. set (k := wDay tzt) in *.
  set (m := wMonth tzt) in *.
  rewrite (s32_id (k - 1)) by (unfold is_s32; lia).
  rewrite (s32_id ((k - 1) * 7)) by (unfold is_s32; lia).
  rewrite (u32_id ((k - 1) * 7)) by (unfold is_u32; lia).
  assert (Eday :
    (if f <=? w
     then u32 (u32 (u32 (w - f) + 1) + (k - 1) * 7)
     else u32 (u32 (u32 (u32 (u32 (6 - f) + 1) + w) + 1) + (k - 1) * 7))
    = (w - f) mod 7 + 1 + 7 * (k - 1)).
  { destruct (Z.leb_spec f w).
    - rewrite (u32_id (w - f)) by (unfold is_u32; lia).
      rewrite (u32_id (w - f + 1)) by (unfold is_u32; lia).
      rewrite u32_id by (unfold is_u32; lia).
      rewrite (Z.mod_small (w - f)) by lia. lia.
    - rewrite (u32_id (6 - f)) by (unfold is_u32; lia).
      rewrite (u32_id (6 - f + 1)) by (unfold is_u32; lia).
      rewrite (u32_id (6 - f + 1 + w)) by (unfold is_u32; lia).
      rewrite (u32_id (6 - f + 1 + w + 1)) by (unfold is_u32; lia).
      rewrite u32_id by (unfold is_u32; lia).
      replace (w - f) with (w - f + 7 + (-1) * 7) by lia.
      rewrite Z_mod_plus_full, Z.mod_small by lia. lia. }
  rewrite Eday. clear Eday.
  pose proof (Z.mod_pos_bound (w - f) 7 ltac:(lia)) as Hmod.
  set (day0 := (w - f) mod 7 + 1 + 7 * (k - 1)) in *.
  assert (Hday0 : 1 <= day0 <= 35) by (unfold day0; lia).
  assert (Hcong : (dow_base m y + day0) mod 7 = w).
  { unfold day0. rewrite Ef. clearbody w k. clear Hmod Hday0 day0 Ef.
    generalize (dow_base m y). intros b.
    Z.to_euclidean_division_equations; lia. }
  destruct (IsDateValid day0 m y) eqn:Hv; cbn [negb].
  - rewrite (u16_id day0) by (unfold is_u16; lia).
    rewrite (u16_id y) by (unfold is_u16; lia).
    repeat split; auto.
    rewrite GetDayOfWeek_valid by (auto; lia). exact Hcong.
  - assert (Hbig : month_length (IsLeapYear y) m < day0).
    { destruct (Z.ltb_spec (month_length (IsLeapYear y) m) day0); auto.
      assert (IsDateValid day0 m y = true)
        by (apply IsDateValid_iff; repeat split; auto; lia).
      congruence. }
    rewrite (u32_id (day0 - 7)) by (unfold is_u32; lia).
    rewrite (u16_id (day0 - 7)) by (unfold is_u16; lia).
    rewrite (u16_id y) by (unfold is_u16; lia).
    repeat split; auto.
    + apply IsDateValid_iff; repeat split; auto; lia.
    + rewrite GetDayOfWeek_valid by (auto; lia).
      rewrite <- Hcong.
      replace (dow_base m y + (day0 - 7))
        with (dow_base m y + day0 + (-1) * 7) by lia.
      apply Z_mod_plus_full.
Qed.

Lemma IsSystemTimeValid_IgnoreDayOfWeek_fields st :
  IsSystemTimeValid_IgnoreDayOfWeek st = true ->
  IsDateValid (wDay st) (wMonth st) (wYear st) = true
  /\ wHour st <= 23 /\ wMinute st <= 59 /\ wSecond st <= 59
  /\ wMilliseconds st <= 999.
Proof.
  unfold IsSystemTimeValid_IgnoreDayOfWeek.
  rewrite !andb_true_iff, !Z.leb_le. tauto.
Qed.

(** The weekday distance from the first of the month, for a date of a
    supported year. *)
Lemma weekday_offset d m y :
  IsYearValid y = true -> 1 <= m <= 12 -> 1 <= d <= 31 ->
  (GetDayOfWeek d m y - GetDayOfWeek 1 m y) mod 7 = (d - 1) mod 7.
Proof.
  intros Hy Hm Hd.
  rewrite !GetDayOfWeek_valid by (auto; lia).
  generalize (dow_base m y). intros b.
  Z.to_euclidean_division_equations; lia.
Qed.

(** What the function writes for a time that it accepts: when [tzt] is an
    object of its own, and when [tzt] is [local] itself. *)
Lemma LocalTimeToRelativeTimezoneTime_unfold {M : Type}
  (local tzt : ref M SYSTEMTIME) (flag : bool) (m : M) :
  IsSystemTimeValid_IgnoreDayOfWeek (load local m) = true ->
  let d := load local m in
  let occurrence :=
    if ((wDay d - 1) / 7 + 1 =? 4)
       && negb (IsDateValid (wDay d + 7) (wMonth d) (wYear d))
       && flag
    then 5 else (wDay d - 1) / 7 + 1 in
  1 <= (wDay d - 1) / 7 + 1 <= 5
  /\ (holds tzt -> unaffected local tzt ->
      exists m',
        LocalTimeToRelativeTimezoneTime local flag tzt m = (true, m')
        /\ load tzt m'
           = mkST 0 (wMonth d) (GetDayOfWeek (wDay d) (wMonth d) (wYear d))
                  occurrence (wHour d) (wMinute d) (wSecond d)
                  (wMilliseconds d)
        /\ load local m' = d)
  /\ (holds local ->
      exists m',
        LocalTimeToRelativeTimezoneTime local flag local m = (true, m')
        /\ load local m'
           = mkST 0 (wMonth d) (GetDayOfWeek occurrence (wMonth d) (wYear d))
                  occurrence (wHour d) (wMinute d) (wSecond d)
                  (wMilliseconds d)).
Proof.
  intros Hv. cbv zeta. set (d := load local m) in *.
  set (occurrence :=
         if ((wDay d - 1) / 7 + 1 =? 4)
            && negb (IsDateValid (wDay d + 7) (wMonth d) (wYear d))
            && flag
         then 5 else (wDay d - 1) / 7 + 1).
  destruct (IsSystemTimeValid_IgnoreDayOfWeek_fields _ Hv) as (Hdate & _).
  apply IsDateValid_iff in Hdate as (Hy & Hm & Hd).
  pose proof (month_length_range (IsLeapYear (wYear d)) _ Hm) as Hlen.
  assert (Hocc : 1 <= (wDay d - 1) / 7 + 1 <= 5)
    by (Z.to_euclidean_division_equations; lia).
  assert (Hocc' : is_u16 occurrence)
    by (unfold is_u16, occurrence; destruct (_ && _); lia).
  split; [exact Hocc |].
  split.
  - intros Hh Hu. unfold holds in Hh. unfold unaffected in Hu.
    unfold LocalTimeToRelativeTimezoneTime. fold d. rewrite Hv. cbn [negb].
    rewrite (s32_id (wDay d - 1)) by (unfold is_s32; lia).
    rewrite Z.quot_div_nonneg by lia.
    rewrite (s32_id ((wDay d - 1) / 7 + 1)) by (unfold is_s32; lia).
    rewrite (u32_id ((wDay d - 1) / 7 + 1)) by (unfold is_u32; lia).
    rewrite (s32_id (wDay d + 7)) by (unfold is_s32; lia).
    rewrite (u32_id (wDay d + 7)) by (unfold is_u32; lia).
    fold occurrence. rewrite (u16_id occurrence) by exact Hocc'.
    cbv zeta. eexists. split; [reflexivity |].
    repeat first [rewrite Hh | rewrite Hu]. fold d.
    split; [| reflexivity].
    unfold set_wYear, set_wDayOfWeek, set_wDay.
    cbn [wYear wMonth wDayOfWeek wDay wHour wMinute wSecond wMilliseconds].
    reflexivity.
  - intros Hh. unfold holds in Hh.
    unfold LocalTimeToRelativeTimezoneTime. fold d. rewrite Hv. cbn [negb].
    rewrite (s32_id (wDay d - 1)) by (unfold is_s32; lia).
    rewrite Z.quot_div_nonneg by lia.
    rewrite (s32_id ((wDay d - 1) / 7 + 1)) by (unfold is_s32; lia).
    rewrite (u32_id ((wDay d - 1) / 7 + 1)) by (unfold is_u32; lia).
    rewrite (s32_id (wDay d + 7)) by (unfold is_s32; lia).
    rewrite (u32_id (wDay d + 7)) by (unfold is_u32; lia).
    fold occurrence. rewrite (u16_id occurrence) by exact Hocc'.
    cbv zeta. eexists. split; [reflexivity |].
    rewrite !Hh.
    unfold set_wYear, set_wDayOfWeek, set_wDay.
    cbn [wYear wMonth wDayOfWeek wDay wHour wMinute wSecond wMilliseconds].
    reflexivity.
Qed.

(** The rule written for a strictly valid time, converted for the year of
    the time, is the time again. *)
Lemma relative_round_trip d flag local0 :
  IsSystemTimeValid d = true ->
  let occurrence :=
    if ((wDay d - 1) / 7 + 1 =? 4)
       && negb (IsDateValid (wDay d + 7) (wMonth d) (wYear d))
       && flag
    then 5 else (wDay d - 1) / 7 + 1 in
  TimezoneTimeToLocalTime
    (mkST 0 (wMonth d) (GetDayOfWeek (wDay d) (wMonth d) (wYear d))
          occurrence (wHour d) (wMinute d) (wSecond d) (wMilliseconds d))
    (wYear d) local0 = (true, d).
Proof.
  unfold IsSystemTimeValid. intros Hvalid. cbv zeta.
  apply andb_true_iff in Hvalid as [Hv Hdow]. apply Z.eqb_eq in Hdow.
  set (occ := if ((wDay d - 1) / 7 + 1 =? 4)
                 && negb (IsDateValid (wDay d + 7) (wMonth d) (wYear d))
                 && flag
              then 5 else (wDay d - 1) / 7 + 1).
  destruct (IsSystemTimeValid_IgnoreDayOfWeek_fields _ Hv)
    as (Hdate & Hh & Hmi & Hs & Hms).
  pose proof Hdate as Hdate'.
  apply IsDateValid_iff in Hdate' as (Hy & Hm & Hd).
  pose proof (month_length_range (IsLeapYear (wYear d)) _ Hm) as Hlen.
  pose proof (IsYearValid_range _ Hy) as Hyr.
  pose proof (GetDayOfWeek_range (wDay d) (wMonth d) (wYear d)) as Hw.
  assert (Hocc : 1 <= (wDay d - 1) / 7 + 1 <= 5)
    by (Z.to_euclidean_division_equations; lia).
  assert (Hocc' : 1 <= occ <= 5) by (unfold occ; destruct (_ && _); lia).
  set (tzt := mkST 0 _ _ _ _ _ _ _).
  assert (Hrel : IsRelativeTimezoneTimeValid tzt = true).
  { unfold IsRelativeTimezoneTimeValid, tzt.
    cbn [wYear wMonth wDayOfWeek wDay wHour wMinute wSecond wMilliseconds].
    rewrite !andb_true_iff, !Z.leb_le, Z.eqb_eq. lia. }
  assert (Hw0 : 0 <= wDayOfWeek tzt) by (unfold tzt; cbn; lia).
  destruct (TimezoneTimeToLocalTime_relative tzt (wYear d) local0 Hw0 Hrel Hy)
    as (E & _ & _).
  assert (Eday : relative_day tzt (wYear d) = wDay d).
  { unfold relative_day, occurrence_day, tzt.
    cbn [wYear wMonth wDayOfWeek wDay wHour wMinute wSecond wMilliseconds].
    rewrite weekday_offset by (auto; lia).
    unfold occ.
    destruct (Z.eqb_spec ((wDay d - 1) / 7 + 1) 4) as [E4 | E4];
      cbn [andb];
      [destruct (IsDateValid (wDay d + 7) (wMonth d) (wYear d)) eqn:Hv7;
       cbn [andb negb]; [| destruct flag] |].
    - replace ((wDay d - 1) mod 7 + 1 + 7 * ((wDay d - 1) / 7 + 1 - 1))
        with (wDay d) by (Z.to_euclidean_division_equations; lia).
      now rewrite Hdate.
    - replace ((wDay d - 1) mod 7 + 1 + 7 * (5 - 1)) with (wDay d + 7)
        by (Z.to_euclidean_division_equations; lia).
      rewrite Hv7. lia.
    - replace ((wDay d - 1) mod 7 + 1 + 7 * ((wDay d - 1) / 7 + 1 - 1))
        with (wDay d) by (Z.to_euclidean_division_equations; lia).
      now rewrite Hdate.
    - replace ((wDay d - 1) mod 7 + 1 + 7 * ((wDay d - 1) / 7 + 1 - 1))
        with (wDay d) by (Z.to_euclidean_division_equations; lia).
      now rewrite Hdate. }
  rewrite E, Eday. unfold tzt.
  cbn [wYear wMonth wDayOfWeek wDay wHour wMinute wSecond wMilliseconds].
  rewrite <- Hdow. destruct d; reflexivity.
Qed.

(** C2: when [tzt] is an object of its own, a strictly valid calendar time
    turned into a relative rule with the promotion flag set and turned back
    for its year is the time again, every field included, and [local] is
    left as it was; this covers the dates whose fourth occurrence of the
    weekday is the last one of the month, for which the rule carries the
    occurrence 5.  When the rule is written over the time itself, as in
    [LocalTimeToRelativeTimezoneTime( d, true, d )], the weekday is computed
    after the day has been overwritten with the occurrence: for Sunday
    2015-02-22 the rule written is the last Thursday of February, and
    turned back it is the 26th. *)
Theorem LocalTimeToRelativeTimezoneTime_round_trip :
  (forall (M : Type) (local tzt : ref M SYSTEMTIME) (m : M)
          (local0 : SYSTEMTIME),
     holds tzt -> unaffected local tzt ->
     IsSystemTimeValid (load local m) = true ->
     let d := load local m in
     let r := LocalTimeToRelativeTimezoneTime local true tzt m in
     fst r = true
     /\ load local (snd r) = d
     /\ TimezoneTimeToLocalTime (load tzt (snd r)) (wYear d) local0
        = (true, d)
     /\ ((wDay d - 1) / 7 + 1 = 4 ->
         IsDateValid (wDay d + 7) (wMonth d) (wYear d) = false ->
         wDay (load tzt (snd r)) = 5))
  /\ IsSystemTimeValid (mkST 2015 2 0 22 2 0 0 0) = true
  /\ LocalTimeToRelativeTimezoneTime the_time true the_time
       (mkST 2015 2 0 22 2 0 0 0)
     = (true, mkST 0 2 4 5 2 0 0 0)
  /\ TimezoneTimeToLocalTime (mkST 0 2 4 5 2 0 0 0) 2015 zero_SYSTEMTIME
     = (true, mkST 2015 2 4 26 2 0 0 0).
Proof.
  split; [| repeat split; vm_compute; reflexivity].
  intros M local tzt m local0 Hh Hu Hv d r.
  assert (Hv' : IsSystemTimeValid_IgnoreDayOfWeek d = true).
  { unfold IsSystemTimeValid in Hv. now apply andb_true_iff in Hv. }
  destruct (LocalTimeToRelativeTimezoneTime_unfold local tzt true m Hv')
    as (_ & H & _).
  destruct (H Hh Hu) as (m' & E & Et & El).
  subst r. rewrite E. cbn [fst snd]. rewrite Et, El.
  fold d.
  split; [reflexivity |]. split; [reflexivity |].
  split; [exact (relative_round_trip d true local0 Hv) |].
  intros E4 Hv7. cbn [wDay]. rewrite E4, Hv7. reflexivity.
Qed.

(** Sunday 2015-02-22, the fourth and last Sunday of a February of 28
    days, with the rule written to a second object. *)
Lemma LocalTimeToRelativeTimezoneTime_round_trip_witness :
  let d := mkST 2015 2 0 22 2 0 0 0 in
  let r :=
    LocalTimeToRelativeTimezoneTime first_time true second_time
      (d, zero_SYSTEMTIME) in
  TimezoneTimeToLocalTime (load second_time (snd r)) 2015 zero_SYSTEMTIME
  = (true, d)
  /\ wDay (load second_time (snd r)) = 5.
Proof.
  cbv zeta.
  destruct (proj1 LocalTimeToRelativeTimezoneTime_round_trip
              (SYSTEMTIME * SYSTEMTIME)%type first_time second_time
              (mkST 2015 2 0 22 2 0 0 0, zero_SYSTEMTIME) zero_SYSTEMTIME)
    as (_ & _ & H2 & H3);
    [intros v m; reflexivity | intros v m; reflexivity | reflexivity |].
  split; [exact H2 | apply H3; reflexivity].
Defined.

(** ** Comparing a local time with a transition rule *)

Lemma RETURN_IF_NOT_EQUAL_same a rest : RETURN_IF_NOT_EQUAL a a rest = rest.
Proof. unfold RETURN_IF_NOT_EQUAL. now rewrite Z.ltb_irrefl. Qed.

Lemma CompareSystemTimes_IgnoreDayOfWeek_zero a b :
  CompareSystemTimes_IgnoreDayOfWeek a b = 0 ->
  wYear a = wYear b /\ wMonth a = wMonth b /\ wDay a = wDay b.
Proof.
  unfold CompareSystemTimes_IgnoreDayOfWeek, RETURN_IF_NOT_EQUAL. intros H.
  repeat match type of H with
  | (if ?x <? ?y then _ else _) = 0 =>
      destruct (Z.ltb_spec x y); [discriminate |]
  end.
  lia.
Qed.

Lemma CompareSystemTimes_unfold a b :
  CompareSystemTimes a b =
  if CompareSystemTimes_IgnoreDayOfWeek a b =? 0
  then RETURN_IF_NOT_EQUAL (wDayOfWeek a) (wDayOfWeek b) 0
  else CompareSystemTimes_IgnoreDayOfWeek a b.
Proof.
  unfold CompareSystemTimes. cbv zeta.
  now destruct (CompareSystemTimes_IgnoreDayOfWeek a b =? 0).
Qed.

(** What a successful conversion puts into [wDayOfWeek] is the weekday of
    the date it returns. *)
Lemma TimezoneTimeToLocalTime_day_of_week tzt y l0 l :
  wf_SYSTEMTIME tzt ->
  TimezoneTimeToLocalTime tzt y l0 = (true, l) ->
  wDayOfWeek l = GetDayOfWeek (wDay l) (wMonth l) (wYear l).
Proof.
  intros Hwf.
  assert (Hw0 : 0 <= wDayOfWeek tzt)
    by (destruct Hwf as (_ & _ & Hw & _); unfold is_u16 in Hw; lia).
  destruct (IsRelativeTimezoneTimeValid tzt) eqn:Hrel.
  - destruct (IsYearValid y) eqn:Hy.
    + destruct (TimezoneTimeToLocalTime_relative tzt y l0 Hw0 Hrel Hy)
        as (E & _ & Hdow).
      rewrite E. intros H; injection H as <-.
      unfold set_wYear, set_wDay.
      cbn [wYear wMonth wDayOfWeek wDay]. now rewrite Hdow.
    + unfold TimezoneTimeToLocalTime. rewrite Hrel, Hy. discriminate.
  - unfold TimezoneTimeToLocalTime. rewrite Hrel. cbn [negb].
    destruct (IsAbsoluteTimezoneTimeValid tzt); [| discriminate].
    intros H; injection H as <-. reflexivity.
Qed.

(** C4 as stated fails: with every other field equal the comparison is
    decided by [wDayOfWeek] and is not the result of the comparison that
    ignores it, and changing nothing but [wDayOfWeek] of the local time
    changes the result. *)
Lemma CompareLocalTimeToTimezoneTime_reads_wDayOfWeek :
  CompareLocalTimeToTimezoneTime march_8_2015_as_wednesday
                                 second_sunday_of_march
  <> CompareSystemTimes_IgnoreDayOfWeek
       march_8_2015_as_wednesday
       (snd (TimezoneTimeToLocalTime second_sunday_of_march
               (wYear march_8_2015_as_wednesday) zero_SYSTEMTIME))
  /\ CompareLocalTimeToTimezoneTime march_8_2015_as_wednesday
                                    second_sunday_of_march
     <> CompareLocalTimeToTimezoneTime
          (set_wDayOfWeek march_8_2015_as_wednesday 0)
          second_sunday_of_march.
Proof. split; vm_compute; discriminate. Qed.

(** C4, amended: [CompareLocalTimeToTimezoneTime] is [CompareSystemTimes],
    the comparison that includes the day of the week, of [local] against the
    rule converted for the year of [local].  The comparison that ignores
    [wDayOfWeek] decides whenever it is not 0; when it is 0 the two
    [wDayOfWeek] members are compared.  For a strictly valid [local] and a
    rule that converts, the result is that of the comparison that ignores
    [wDayOfWeek]. *)
Theorem CompareLocalTimeToTimezoneTime_spec (local tzt : SYSTEMTIME) :
  let local2 :=
    snd (TimezoneTimeToLocalTime tzt (wYear local) zero_SYSTEMTIME) in
  (CompareSystemTimes_IgnoreDayOfWeek local local2 <> 0 ->
   CompareLocalTimeToTimezoneTime local tzt
   = CompareSystemTimes_IgnoreDayOfWeek local local2)
  /\ (CompareSystemTimes_IgnoreDayOfWeek local local2 = 0 ->
      CompareLocalTimeToTimezoneTime local tzt
      = RETURN_IF_NOT_EQUAL (wDayOfWeek local) (wDayOfWeek local2) 0)
  /\ (wf_SYSTEMTIME tzt -> IsSystemTimeValid local = true ->
      fst (TimezoneTimeToLocalTime tzt (wYear local) zero_SYSTEMTIME) = true ->
      CompareLocalTimeToTimezoneTime local tzt
      = CompareSystemTimes_IgnoreDayOfWeek local local2).
Proof.
  cbv zeta. unfold CompareLocalTimeToTimezoneTime.
  rewrite CompareSystemTimes_unfold.
  destruct (TimezoneTimeToLocalTime tzt (wYear local) zero_SYSTEMTIME)
    as [ok local2] eqn:E.
  cbn [fst snd].
  destruct (Z.eqb_spec (CompareSystemTimes_IgnoreDayOfWeek local local2) 0)
    as [E0 | E0].
  - repeat split; try tauto.
    intros Hwf Hv ->. rewrite E0.
    apply CompareSystemTimes_IgnoreDayOfWeek_zero in E0 as (Ey & Em & Ed).
    pose proof (TimezoneTimeToLocalTime_day_of_week _ _ _ _ Hwf E) as Hdow.
    unfold IsSystemTimeValid in Hv.
    rewrite andb_true_iff, Z.eqb_eq in Hv. destruct Hv as [_ Hl].
    rewrite Hl, Hdow, Ey, Em, Ed. apply RETURN_IF_NOT_EQUAL_same.
  - repeat split; tauto.
Qed.

(** Sunday 2015-03-08T02:00 against the second Sunday of March. *)
Lemma CompareLocalTimeToTimezoneTime_spec_witness :
  CompareLocalTimeToTimezoneTime (mkST 2015 3 0 8 2 0 0 0)
                                 second_sunday_of_march = 0.
Proof.
  refine (proj2 (proj2 (CompareLocalTimeToTimezoneTime_spec
                          (mkST 2015 3 0 8 2 0 0 0) second_sunday_of_march))
                _ eq_refl eq_refl).
  vm_compute. intuition discriminate.
Defined.

(** ** Resolving a local time against a rule set *)

Section PlatformFacts.

Variable NDEBUG : bool.
Variable SystemTimeToFileTime : SYSTEMTIME -> option FILETIME.
Variable FileTimeToSystemTime : FILETIME -> option SYSTEMTIME.
Variable pfnGetDynamicTimeZoneInformation
  : option (Z * DYNAMIC_TIME_ZONE_INFORMATION).
Variable pfnGetTimeZoneInformationForYear
  : option (Z -> DYNAMIC_TIME_ZONE_INFORMATION -> option TIME_ZONE_INFORMATION).
Variable GetTimeZoneInformation : Z * TIME_ZONE_INFORMATION.

(** The functions of [Platform] on the variables of this section. *)
Local Abbreviation subtract_minutes :=
  (SystemTimeSubtractMinutes SystemTimeToFileTime FileTimeToSystemTime).
Local Abbreviation add_minutes :=
  (SystemTimeAddMinutes SystemTimeToFileTime FileTimeToSystemTime).
Local Abbreviation local_time_for_timezone :=
  (GetLocalTimeForTimezone NDEBUG SystemTimeToFileTime FileTimeToSystemTime).
Local Abbreviation passes :=
  (passes_debug_block NDEBUG SystemTimeToFileTime FileTimeToSystemTime).
Local Abbreviation timezone_for_year :=
  (GetTimezoneForYear pfnGetDynamicTimeZoneInformation
     pfnGetTimeZoneInformationForYear GetTimeZoneInformation).
Local Abbreviation utc_to_local :=
  (UTCTimeToLocalTime NDEBUG SystemTimeToFileTime FileTimeToSystemTime
     pfnGetDynamicTimeZoneInformation
     pfnGetTimeZoneInformationForYear GetTimeZoneInformation).
Local Abbreviation attempt_on :=
  (attempt NDEBUG SystemTimeToFileTime FileTimeToSystemTime
     pfnGetDynamicTimeZoneInformation
     pfnGetTimeZoneInformationForYear GetTimeZoneInformation).
Local Abbreviation first_resolution_on :=
  (first_resolution NDEBUG SystemTimeToFileTime FileTimeToSystemTime
     pfnGetDynamicTimeZoneInformation
     pfnGetTimeZoneInformationForYear GetTimeZoneInformation).
Local Abbreviation resolve :=
  (resolve_for_year NDEBUG SystemTimeToFileTime FileTimeToSystemTime
     pfnGetDynamicTimeZoneInformation
     pfnGetTimeZoneInformationForYear GetTimeZoneInformation).

Lemma COPY_TO_local_time_cases strict year newtime id :
  COPY_TO_local_time strict year newtime id = (TIME_ZONE_ID_INVALID, newtime)
  \/ (COPY_TO_local_time strict year newtime id = (id, newtime)
      /\ (strict = true -> wYear newtime = year)).
Proof.
  unfold COPY_TO_local_time. destruct strict; cbn [andb].
  - destruct (Z.eqb_spec (wYear newtime) year); cbn [negb]; auto.
  - right. split; [reflexivity | discriminate].
Qed.

(** The [assert] of the block under [#ifdef DEBUG_ST] ends the process when
    the sources are compiled without [NDEBUG] and one of the two additions
    failed. *)
Lemma debug_block_cases (a b : bool) :
  (if negb a || negb b then assert NDEBUG false else Returned tt)
  = if NDEBUG || (a && b) then Returned tt else Aborted.
Proof. unfold assert. destruct NDEBUG, a, b; reflexivity. Qed.

(** Case analysis on an innermost test of the goal. *)
Ltac split_match :=
  match goal with
  | |- context [match ?x with _ => _ end] =>
      lazymatch x with
      | context [match _ with _ => _ end] => fail
      | _ => destruct x eqn:?
      end
  end.

(** With a supported year, whether the call returns does not depend on the
    contents of [local_time] before the call, and neither does what it
    returns, unless it returns [TIME_ZONE_ID_INVALID]. *)
Lemma GetLocalTimeForTimezone_frame lt lt' tzi utc_st tzi_year strict :
  IsYearValid (effective_year utc_st tzi_year) = true ->
  match local_time_for_timezone lt tzi utc_st tzi_year strict,
        local_time_for_timezone lt' tzi utc_st tzi_year strict with
  | Aborted, Aborted => True
  | Returned (id, out), Returned (id', out') =>
      id = id' /\ (id <> TIME_ZONE_ID_INVALID -> out = out')
  | _, _ => False
  end.
Proof.
  unfold GetLocalTimeForTimezone, effective_year, COPY_TO_local_time.
  cbv zeta. intros ->. cbn [negb].
  repeat first [rewrite debug_block_cases | split_match];
    auto; split; congruence.
Qed.

(** In strict mode and with a supported year, every result other than
    [TIME_ZONE_ID_INVALID] comes with a local time of that year. *)
Lemma GetLocalTimeForTimezone_strict_year lt tzi utc_st tzi_year id out :
  IsYearValid (effective_year utc_st tzi_year) = true ->
  local_time_for_timezone lt tzi utc_st tzi_year true = Returned (id, out) ->
  id <> TIME_ZONE_ID_INVALID ->
  wYear out = effective_year utc_st tzi_year.
Proof.
  unfold GetLocalTimeForTimezone, effective_year.
  cbv zeta. intros ->. cbn [negb].
  repeat first [rewrite debug_block_cases | split_match];
    try (intros E; injection E as <- <-; congruence);
    try discriminate;
    match goal with
    | |- Returned (COPY_TO_local_time ?s ?y ?n ?i) = _ -> _ =>
        destruct (COPY_TO_local_time_cases s y n i) as [-> | [-> Hy']];
        intros E; injection E as <- <-; [congruence | auto]
    end.
Qed.

(** The call on a rule set whose two transitions convert to boundaries that
    compare equal, once it has its three candidates and is past the block
    under [#ifdef DEBUG_ST]. *)
Lemma GetLocalTimeForTimezone_coincident_unfold
  (local_time utc_st : SYSTEMTIME) (tzi : TIME_ZONE_INFORMATION)
  (tzi_year : Z) (strict : bool)
  (local_standard_start local_daylight_start unk std dl : SYSTEMTIME) :
  IsYearValid (effective_year utc_st tzi_year) = true ->
  IsTimezoneInfoValid tzi true = true ->
  subtract_minutes utc_st (Bias tzi) = (true, unk) ->
  subtract_minutes utc_st (s32 (Bias tzi + StandardBias tzi)) = (true, std) ->
  subtract_minutes utc_st (s32 (Bias tzi + DaylightBias tzi)) = (true, dl) ->
  TimezoneTimeToLocalTime (StandardDate tzi) (effective_year utc_st tzi_year)
                          zero_SYSTEMTIME = (true, local_standard_start) ->
  TimezoneTimeToLocalTime (DaylightDate tzi) (effective_year utc_st tzi_year)
                          zero_SYSTEMTIME = (true, local_daylight_start) ->
  CompareSystemTimes local_standard_start local_daylight_start = 0 ->
  passes tzi (effective_year utc_st tzi_year) = true ->
  local_time_for_timezone local_time tzi utc_st tzi_year strict
  = if strict
       && negb (wYear unk =? effective_year utc_st tzi_year)
       && negb (wYear std =? effective_year utc_st tzi_year)
       && negb (wYear dl =? effective_year utc_st tzi_year)
    then Returned (TIME_ZONE_ID_INVALID, local_time)
    else if negb (DaylightBias tzi =? 0)
    then Returned (COPY_TO_local_time strict (effective_year utc_st tzi_year)
                                      dl TIME_ZONE_ID_DAYLIGHT)
    else Returned (COPY_TO_local_time strict (effective_year utc_st tzi_year)
                                      unk TIME_ZONE_ID_UNKNOWN).
Proof.
  unfold GetLocalTimeForTimezone, passes_debug_block, effective_year.
  cbv zeta. intros -> -> -> -> -> -> -> -> Hp. cbn [negb].
  rewrite debug_block_cases, Hp.
  change (0 <? 0) with false. cbv iota. reflexivity.
Qed.

(** C1, amended: on a rule set whose two transitions convert, for a
    supported target year, to boundaries that compare equal, a call that has
    a valid rule set and its three candidates and gets past the block under
    [#ifdef DEBUG_ST] returns.  With [DaylightBias] other than zero it
    returns [TIME_ZONE_ID_DAYLIGHT] with the UTC time less
    [Bias + DaylightBias]; with [DaylightBias] zero it returns
    [TIME_ZONE_ID_UNKNOWN] with the UTC time less [Bias] alone; in strict
    mode both only when that local time is of the target year, and
    [TIME_ZONE_ID_INVALID] otherwise.  So [TIME_ZONE_ID_DAYLIGHT] is never
    returned with [DaylightBias] zero, and a result other than
    [TIME_ZONE_ID_INVALID] is [TIME_ZONE_ID_DAYLIGHT] exactly when
    [DaylightBias] is not zero. *)
Theorem GetLocalTimeForTimezone_coincident_transitions
  (local_time utc_st : SYSTEMTIME) (tzi : TIME_ZONE_INFORMATION)
  (tzi_year : Z) (strict : bool)
  (local_standard_start local_daylight_start unk std dl : SYSTEMTIME) :
  IsYearValid (effective_year utc_st tzi_year) = true ->
  IsTimezoneInfoValid tzi true = true ->
  subtract_minutes utc_st (Bias tzi) = (true, unk) ->
  subtract_minutes utc_st (s32 (Bias tzi + StandardBias tzi)) = (true, std) ->
  subtract_minutes utc_st (s32 (Bias tzi + DaylightBias tzi)) = (true, dl) ->
  TimezoneTimeToLocalTime (StandardDate tzi) (effective_year utc_st tzi_year)
                          zero_SYSTEMTIME = (true, local_standard_start) ->
  TimezoneTimeToLocalTime (DaylightDate tzi) (effective_year utc_st tzi_year)
                          zero_SYSTEMTIME = (true, local_daylight_start) ->
  CompareSystemTimes local_standard_start local_daylight_start = 0 ->
  passes tzi (effective_year utc_st tzi_year) = true ->
  (DaylightBias tzi <> 0 ->
   strict = false \/ wYear dl = effective_year utc_st tzi_year ->
   local_time_for_timezone local_time tzi utc_st tzi_year strict
   = Returned (TIME_ZONE_ID_DAYLIGHT, dl))
  /\ (DaylightBias tzi = 0 ->
      strict = false \/ wYear unk = effective_year utc_st tzi_year ->
      local_time_for_timezone local_time tzi utc_st tzi_year strict
      = Returned (TIME_ZONE_ID_UNKNOWN, unk))
  /\ (strict = true ->
      wYear (if DaylightBias tzi =? 0 then unk else dl)
      <> effective_year utc_st tzi_year ->
      exists out,
        local_time_for_timezone local_time tzi utc_st tzi_year strict
        = Returned (TIME_ZONE_ID_INVALID, out))
  /\ (forall id out,
        local_time_for_timezone local_time tzi utc_st tzi_year strict
        = Returned (id, out) ->
        (DaylightBias tzi = 0 -> id <> TIME_ZONE_ID_DAYLIGHT)
        /\ (id <> TIME_ZONE_ID_INVALID ->
            (id = TIME_ZONE_ID_DAYLIGHT <-> DaylightBias tzi <> 0))).
Proof.
  intros Hy Hv Hu Hs Hd Hss Hds Hc Hp.
  rewrite (GetLocalTimeForTimezone_coincident_unfold
             local_time utc_st tzi tzi_year strict _ _ _ _ _
             Hy Hv Hu Hs Hd Hss Hds Hc Hp).
  set (y := effective_year utc_st tzi_year).
  unfold COPY_TO_local_time. cbv zeta.
  assert (Hids : TIME_ZONE_ID_DAYLIGHT <> TIME_ZONE_ID_INVALID
                 /\ TIME_ZONE_ID_UNKNOWN <> TIME_ZONE_ID_DAYLIGHT
                 /\ TIME_ZONE_ID_INVALID <> TIME_ZONE_ID_DAYLIGHT)
    by (repeat split; discriminate).
  destruct Hids as (Hdi & Hud & Hid).
  destruct strict;
    destruct (Z.eqb_spec (wYear unk) y), (Z.eqb_spec (wYear std) y),
             (Z.eqb_spec (wYear dl) y);
    destruct (Z.eqb_spec (DaylightBias tzi) 0);
    cbn [negb andb]; repeat split; intros;
    try match goal with
        | H : Returned _ = Returned _ |- _ => injection H as <- <-
        end;
    try solve [eauto | congruence
              | match goal with
                | H : _ \/ _ |- _ => destruct H; congruence
                end].
Qed.

(** C7: with a target year outside 1601..30827 the function leaves through
    [return false], which is 0, the value of [TIME_ZONE_ID_UNKNOWN], and
    [local_time] is not written: in strict mode, for the year 1600, the
    caller sees a success code next to whatever [local_time] held. *)
Theorem GetLocalTimeForTimezone_unsupported_year_reports_unknown
  (local_time utc_st : SYSTEMTIME) (tzi : TIME_ZONE_INFORMATION) :
  local_time_for_timezone local_time tzi utc_st 1600 true
  = Returned (TIME_ZONE_ID_UNKNOWN, local_time)
  /\ TIME_ZONE_ID_UNKNOWN <> TIME_ZONE_ID_INVALID
  /\ exists out,
       local_time_for_timezone zero_SYSTEMTIME tzi utc_st 1600 true
       = Returned (TIME_ZONE_ID_UNKNOWN, out)
       /\ wYear out <> 1600.
Proof.
  unfold GetLocalTimeForTimezone.
  change (1600 =? 0) with false. cbv iota zeta.
  change (IsYearValid 1600) with false. cbn [negb].
  split; [reflexivity |]. split; [discriminate |].
  exists zero_SYSTEMTIME. split; [reflexivity | discriminate].
Qed.

(** A result other than [TIME_ZONE_ID_INVALID], for a supported year, is one
    of the three other codes, and the local time is one of the three
    candidates. *)
Lemma GetLocalTimeForTimezone_selects lt tzi utc_st tzi_year strict id out :
  IsYearValid (effective_year utc_st tzi_year) = true ->
  local_time_for_timezone lt tzi utc_st tzi_year strict = Returned (id, out) ->
  id <> TIME_ZONE_ID_INVALID ->
  (id = TIME_ZONE_ID_UNKNOWN \/ id = TIME_ZONE_ID_STANDARD
   \/ id = TIME_ZONE_ID_DAYLIGHT)
  /\ (subtract_minutes utc_st (Bias tzi) = (true, out)
      \/ subtract_minutes utc_st (s32 (Bias tzi + StandardBias tzi))
         = (true, out)
      \/ subtract_minutes utc_st (s32 (Bias tzi + DaylightBias tzi))
         = (true, out)).
Proof.
  unfold GetLocalTimeForTimezone, effective_year.
  cbv zeta. intros ->. cbn [negb].
  destruct (IsTimezoneInfoValid tzi true); cbn [negb];
    [| intros E; injection E as <- <-; congruence].
  destruct (SystemTimeSubtractMinutes _ _ utc_st (Bias tzi))
    as [[] unk]; [| intros E; injection E as <- <-; congruence].
  destruct (SystemTimeSubtractMinutes _ _ utc_st
              (s32 (Bias tzi + StandardBias tzi)))
    as [[] std]; [| intros E; injection E as <- <-; congruence].
  destruct (SystemTimeSubtractMinutes _ _ utc_st
              (s32 (Bias tzi + DaylightBias tzi)))
    as [[] dl]; [| intros E; injection E as <- <-; congruence].
  repeat first [rewrite debug_block_cases | split_match];
    try (intros E; injection E as <- <-; congruence);
    try discriminate;
    match goal with
    | |- Returned (COPY_TO_local_time ?s ?y ?n ?i) = _ -> _ =>
        destruct (COPY_TO_local_time_cases s y n i) as [-> | [-> _]];
        intros E; injection E as <- <-; [congruence | auto]
    end.
Qed.

(** In non-strict mode, a valid rule set, a supported year, three
    candidates and a passed block under [#ifdef DEBUG_ST] are enough for a
    result other than [TIME_ZONE_ID_INVALID]. *)
Lemma GetLocalTimeForTimezone_non_strict_resolves
  lt tzi utc_st tzi_year unk std dl :
  IsYearValid (effective_year utc_st tzi_year) = true ->
  IsTimezoneInfoValid tzi true = true ->
  subtract_minutes utc_st (Bias tzi) = (true, unk) ->
  subtract_minutes utc_st (s32 (Bias tzi + StandardBias tzi)) = (true, std) ->
  subtract_minutes utc_st (s32 (Bias tzi + DaylightBias tzi)) = (true, dl) ->
  passes tzi (effective_year utc_st tzi_year) = true ->
  exists id out,
    local_time_for_timezone lt tzi utc_st tzi_year false = Returned (id, out)
    /\ id <> TIME_ZONE_ID_INVALID.
Proof.
  unfold GetLocalTimeForTimezone, passes_debug_block, effective_year.
  cbv zeta. intros -> -> -> -> -> Hp. cbn [negb andb].
  unfold COPY_TO_local_time. cbn [andb].
  destruct (TimezoneTimeToLocalTime (StandardDate tzi) _ _) as [[] s];
    [| eexists _, _; split; [reflexivity | discriminate]].
  destruct (TimezoneTimeToLocalTime (DaylightDate tzi) _ _) as [[] d];
    [| eexists _, _; split; [reflexivity | discriminate]].
  rewrite debug_block_cases, Hp.
  repeat split_match; eexists _, _; (split; [reflexivity | discriminate]).
Qed.

(** In strict mode, when none of the candidates that can be computed is of
    the target year, the call returns [TIME_ZONE_ID_INVALID] before it
    converts a transition, and [local_time] is not written. *)
Lemma GetLocalTimeForTimezone_strict_other_year lt tzi utc_st tzi_year :
  IsYearValid (effective_year utc_st tzi_year) = true ->
  (forall minutes out,
     In minutes [Bias tzi; s32 (Bias tzi + StandardBias tzi);
                 s32 (Bias tzi + DaylightBias tzi)] ->
     subtract_minutes utc_st minutes = (true, out) ->
     wYear out <> effective_year utc_st tzi_year) ->
  local_time_for_timezone lt tzi utc_st tzi_year true
  = Returned (TIME_ZONE_ID_INVALID, lt).
Proof.
  unfold GetLocalTimeForTimezone, effective_year.
  cbv zeta. intros -> H. cbn [negb andb].
  destruct (IsTimezoneInfoValid tzi true); cbn [negb]; [| reflexivity].
  destruct (SystemTimeSubtractMinutes _ _ utc_st (Bias tzi))
    as [[] unk] eqn:Eu; [| reflexivity].
  destruct (SystemTimeSubtractMinutes _ _ utc_st
              (s32 (Bias tzi + StandardBias tzi)))
    as [[] std] eqn:Es; [| reflexivity].
  destruct (SystemTimeSubtractMinutes _ _ utc_st
              (s32 (Bias tzi + DaylightBias tzi)))
    as [[] dl] eqn:Ed; [| reflexivity].
  apply H in Eu; [| cbn [In]; auto].
  apply H in Es; [| cbn [In]; auto].
  apply H in Ed; [| cbn [In]; auto].
  apply Z.eqb_neq in Eu, Es, Ed. rewrite Eu, Es, Ed. reflexivity.
Qed.

(** A rule set is only returned for a supported year, and what is returned
    does not depend on the contents of [tzi] before the call. *)
Lemma GetTimezoneForYear_success tzi year t :
  timezone_for_year tzi year = (true, t) ->
  IsYearValid year = true
  /\ forall tzi', timezone_for_year tzi' year = (true, t).
Proof.
  unfold GetTimezoneForYear.
  destruct (IsYearValid year); cbn [negb]; [| discriminate].
  intros H. split; [reflexivity |]. intros tzi'. revert H.
  repeat split_match; congruence.
Qed.

Lemma GetTimezoneForYear_failure tzi year t :
  timezone_for_year tzi year = (false, t) ->
  forall tzi', fst (timezone_for_year tzi' year) = false.
Proof.
  unfold GetTimezoneForYear.
  intros H tzi'. revert H.
  repeat split_match; cbn [fst]; congruence.
Qed.

(** A block of [UTCTimeToLocalTime], called on four objects, does what the
    attempt taken on its own does. *)
Lemma resolve_for_year_attempt {M : Type}
  (utc_st local_time : ref M SYSTEMTIME) (tzi_id : ref M Z)
  (tzi : ref M TIME_ZONE_INFORMATION) year strict (m : M) :
  distinct_objects utc_st local_time tzi_id tzi ->
  conversion_agrees utc_st local_time tzi_id tzi (load utc_st m)
    (attempt_on (load utc_st m) (year, strict))
    (resolve utc_st local_time tzi_id tzi year strict m).
Proof.
  intros (Hl & Hi & Ht & Hul & Hui & Hut & Hli & Hlt & Hil & Hit & Htl & Hti).
  unfold conversion_agrees, attempt, resolve_for_year. cbn [fst snd].
  destruct (timezone_for_year (load tzi m) year) as [[] t] eqn:E.
  - destruct (GetTimezoneForYear_success _ _ _ E) as [Hy Hall].
    rewrite (Hall zero_TIME_ZONE_INFORMATION).
    assert (Hy' : IsYearValid (effective_year (load utc_st m) year) = true).
    { unfold effective_year. destruct (Z.eqb_spec year 0); [| exact Hy].
      subst year. discriminate. }
    rewrite Ht, Hut, Hlt.
    pose proof (GetLocalTimeForTimezone_frame zero_SYSTEMTIME
                  (load local_time m) t (load utc_st m) year strict Hy')
      as Hf.
    destruct (local_time_for_timezone zero_SYSTEMTIME t (load utc_st m)
                year strict) as [[id0 lt0] |];
      destruct (local_time_for_timezone (load local_time m) t (load utc_st m)
                  year strict) as [[id1 lt1] |];
      try contradiction; [| reflexivity].
    destruct Hf as [<- Hout]. rewrite Hi.
    destruct (Z.eqb_spec id0 TIME_ZONE_ID_INVALID) as [Ei | Ei]; cbn [negb];
      eexists; (split; [reflexivity |]);
      repeat first [rewrite Hui | rewrite Hul | rewrite Hut]; auto.
    rewrite Hi, Hli, Hl, Hti, Htl, Ht.
    cbn [out_local_time out_tzi_id out_tzi].
    rewrite (Hout Ei). auto.
  - pose proof (GetTimezoneForYear_failure _ _ _ E zero_TIME_ZONE_INFORMATION)
      as Hf.
    destruct (timezone_for_year zero_TIME_ZONE_INFORMATION year) as [[] t'];
      [discriminate |].
    exists m. split; reflexivity.
Qed.

(** The order of the attempts: [UTCTimeToLocalTime], called on four objects
    with a valid UTC time, does what the first resolution over the attempts
    that the specification lists does. *)
Lemma UTCTimeToLocalTime_order {M : Type}
  (utc_st local_time : ref M SYSTEMTIME) (tzi_id : ref M Z)
  (tzi : ref M TIME_ZONE_INFORMATION) (m : M) :
  distinct_objects utc_st local_time tzi_id tzi ->
  IsSystemTimeValid (load utc_st m) = true ->
  conversion_agrees utc_st local_time tzi_id tzi (load utc_st m)
    (first_resolution_on (load utc_st m) (rule_set_attempts (load utc_st m)))
    (utc_to_local utc_st local_time tzi_id tzi m).
Proof.
  intros Hobj Hv. unfold UTCTimeToLocalTime, rule_set_attempts.
  rewrite Hv. cbn [negb]. cbv zeta.
  set (u := load utc_st m) in *.
  assert (Hy : 1601 <= wYear u <= 30827).
  { unfold IsSystemTimeValid in Hv. apply andb_true_iff in Hv as [Hv _].
    apply IsSystemTimeValid_IgnoreDayOfWeek_fields in Hv as (Hd & _).
    apply IsDateValid_iff in Hd as (Hy & _).
    now apply IsYearValid_range. }
  rewrite (u32_id (wYear u - 1)) by (unfold is_u32; lia).
  rewrite (u32_id (wYear u + 1)) by (unfold is_u32; lia).
  destruct ((wMonth u =? 1) && (wDay u =? 1)).
  - cbn [first_resolution].
    pose proof (resolve_for_year_attempt utc_st local_time tzi_id tzi
                  (wYear u - 1) true m Hobj) as H1.
    fold u in H1. unfold conversion_agrees in H1 |- *.
    destruct (attempt_on u (wYear u - 1, true)) as [[r |] |].
    + destruct H1 as (m1 & -> & H1). exists m1. auto.
    + destruct H1 as (m1 & -> & H1).
      pose proof (resolve_for_year_attempt utc_st local_time tzi_id tzi
                    (wYear u) false m1 Hobj) as H2.
      rewrite H1 in H2. unfold conversion_agrees in H2.
      destruct (attempt_on u (wYear u, false)) as [[r |] |].
      * destruct H2 as (m2 & -> & H2). exists m2. auto.
      * destruct H2 as (m2 & -> & H2). exists m2. auto.
      * now rewrite H2.
    + now rewrite H1.
  - pose proof (resolve_for_year_attempt utc_st local_time tzi_id tzi
                  (wYear u) true m Hobj) as H1.
    fold u in H1. unfold conversion_agrees in H1 |- *.
    destruct ((wMonth u =? 12) && (wDay u =? 31)) eqn:Edec;
      cbn [first_resolution];
      destruct (attempt_on u (wYear u, true)) as [[r |] |];
      try (now rewrite H1);
      destruct H1 as (m1 & -> & H1);
      try (exists m1; now auto);
      rewrite H1, Edec; [| exists m1; now auto].
    pose proof (resolve_for_year_attempt utc_st local_time tzi_id tzi
                  (wYear u + 1) false m1 Hobj) as H2.
    rewrite H1 in H2. unfold conversion_agrees in H2.
    destruct (attempt_on u (wYear u + 1, false)) as [[r |] |].
    + destruct H2 as (m2 & -> & H2). exists m2. auto.
    + destruct H2 as (m2 & -> & H2). exists m2. auto.
    + now rewrite H2.
Qed.

End PlatformFacts.

(** ** Concrete runs on the reference model of the WinAPI conversions *)

(** The reference model on known dates: the epoch, the largest supported
    time, a leap day, and the weekday of 2000-01-01, a Saturday. *)
Example reference_dates :
  Win32.FileTimeToSystemTime (mkFT 0 0) = Some (mkST 1601 1 1 1 0 0 0 0)
  /\ Win32.FileTimeToSystemTime max_FILETIME
     = Some (mkST 30827 12 5 31 23 59 59 999)
  /\ Win32.SystemTimeToFileTime (mkST 30827 12 5 31 23 59 59 999)
     = Some max_FILETIME
  /\ option_map QuadPart (Win32.SystemTimeToFileTime new_years_eve_2014)
     = Some 130645422000000000
  /\ Win32.FileTimeToSystemTime (of_QuadPart 125962560000000000)
     = Some (mkST 2000 2 2 29 0 0 0 0)
  /\ GetDayOfWeek 1 1 2000 = 6.
Proof. repeat split; vm_compute; reflexivity. Qed.

(** The transitions of 2015 on Eastern time: standard time up to
    2015-03-08T06:59:59.999 UTC, daylight time from 07:00:00 UTC, and back
    to standard time at 2015-11-01T06:00:00 UTC. *)
Example us_eastern_2015 :
  Win32.GetLocalTimeForTimezone zero_SYSTEMTIME us_eastern
    (mkST 2015 3 0 8 6 59 59 999) 2015 true
  = Returned (TIME_ZONE_ID_STANDARD, mkST 2015 3 0 8 1 59 59 999)
  /\ Win32.GetLocalTimeForTimezone zero_SYSTEMTIME us_eastern
       (mkST 2015 3 0 8 7 0 0 0) 2015 true
     = Returned (TIME_ZONE_ID_DAYLIGHT, mkST 2015 3 0 8 3 0 0 0)
  /\ Win32.GetLocalTimeForTimezone zero_SYSTEMTIME us_eastern
       (mkST 2015 11 0 1 5 59 59 999) 2015 true
     = Returned (TIME_ZONE_ID_DAYLIGHT, mkST 2015 11 0 1 1 59 59 999)
  /\ Win32.GetLocalTimeForTimezone zero_SYSTEMTIME us_eastern
       (mkST 2015 11 0 1 6 0 0 0) 2015 true
     = Returned (TIME_ZONE_ID_STANDARD, mkST 2015 11 0 1 1 0 0 0).
Proof. repeat split; vm_compute; reflexivity. Qed.

(** C1 as stated fails: the two transitions of [year_round_dst] convert to
    the same boundary of 2014 and [DaylightBias] is not zero.  In strict
    mode for 2014 the base candidate of [new_years_eve_2014] is in 2014, so
    the call gets as far as the test of [DaylightBias]; the daylight
    candidate it then selects is in 2015 and the result is
    [TIME_ZONE_ID_INVALID], not [TIME_ZONE_ID_DAYLIGHT]. *)
Lemma GetLocalTimeForTimezone_coincident_strict_fails :
  TimezoneTimeToLocalTime (StandardDate year_round_dst) 2014 zero_SYSTEMTIME
  = TimezoneTimeToLocalTime (DaylightDate year_round_dst) 2014 zero_SYSTEMTIME
  /\ fst (TimezoneTimeToLocalTime (StandardDate year_round_dst) 2014
                                  zero_SYSTEMTIME) = true
  /\ Win32.GetLocalTimeForTimezone zero_SYSTEMTIME year_round_dst
       new_years_eve_2014 2014 true
     = Returned (TIME_ZONE_ID_INVALID, mkST 2015 1 4 1 0 30 0 0)
  /\ ~ ((exists out,
           Win32.GetLocalTimeForTimezone zero_SYSTEMTIME year_round_dst
             new_years_eve_2014 2014 true
           = Returned (TIME_ZONE_ID_DAYLIGHT, out))
        <-> DaylightBias year_round_dst <> 0).
Proof.
  assert (E : Win32.GetLocalTimeForTimezone zero_SYSTEMTIME year_round_dst
                new_years_eve_2014 2014 true
              = Returned (TIME_ZONE_ID_INVALID, mkST 2015 1 4 1 0 30 0 0))
    by (vm_compute; reflexivity).
  split; [reflexivity |]. split; [reflexivity |]. split; [exact E |].
  rewrite E. intros [_ H].
  destruct H as [out H]; [vm_compute; discriminate |].
  discriminate H.
Qed.

(** The calls that the amended C1 leaves out, on rule sets with coincident
    transitions: a rule set that is not valid and a candidate that cannot be
    computed give [TIME_ZONE_ID_INVALID] whatever [DaylightBias] is, and
    the [assert] of the block under [#ifdef DEBUG_ST] ends the process,
    unless the sources are compiled with [NDEBUG], when a transition cannot
    be moved by the bias of the other period. *)
Example GetLocalTimeForTimezone_coincident_early_exits :
  Win32.GetLocalTimeForTimezone zero_SYSTEMTIME (coincident_rules 2000 (-60))
    new_years_eve_2014 2014 false
  = Returned (TIME_ZONE_ID_INVALID, zero_SYSTEMTIME)
  /\ Win32.GetLocalTimeForTimezone zero_SYSTEMTIME (coincident_rules 60 (-60))
       epoch 0 false
     = Returned (TIME_ZONE_ID_INVALID, zero_SYSTEMTIME)
  /\ IsTimezoneInfoValid epoch_rules true = true
  /\ Win32.GetLocalTimeForTimezone zero_SYSTEMTIME epoch_rules
       new_years_eve_2014 2014 false
     = Aborted
  /\ GetLocalTimeForTimezone true Win32.SystemTimeToFileTime
       Win32.FileTimeToSystemTime zero_SYSTEMTIME epoch_rules
       new_years_eve_2014 2014 false
     = Returned (TIME_ZONE_ID_UNKNOWN, mkST 2015 1 4 1 0 0 0 0).
Proof. repeat split; vm_compute; reflexivity. Qed.

(** [new_years_eve_2014] against rule sets with coincident transitions:
    daylight time all year in non-strict mode for 2015; no daylight saving
    time, in non-strict mode for 2015 and in strict mode for 2014; and
    daylight time all year in strict mode for 2014, where the local time is
    in 2015. *)
Lemma GetLocalTimeForTimezone_coincident_transitions_witness :
  Win32.GetLocalTimeForTimezone zero_SYSTEMTIME year_round_dst
    new_years_eve_2014 2015 false
  = Returned (TIME_ZONE_ID_DAYLIGHT, mkST 2015 1 4 1 0 30 0 0)
  /\ Win32.GetLocalTimeForTimezone zero_SYSTEMTIME (coincident_rules (-60) 0)
       new_years_eve_2014 2015 false
     = Returned (TIME_ZONE_ID_UNKNOWN, mkST 2015 1 4 1 0 30 0 0)
  /\ Win32.GetLocalTimeForTimezone zero_SYSTEMTIME (coincident_rules 0 0)
       new_years_eve_2014 2014 true
     = Returned (TIME_ZONE_ID_UNKNOWN, new_years_eve_2014)
  /\ exists out,
       Win32.GetLocalTimeForTimezone zero_SYSTEMTIME year_round_dst
         new_years_eve_2014 2014 true
       = Returned (TIME_ZONE_ID_INVALID, out).
Proof.
  assert (H15 : TimezoneTimeToLocalTime second_sunday_of_march 2015
                  zero_SYSTEMTIME = (true, mkST 2015 3 0 8 2 0 0 0))
    by (vm_compute; reflexivity).
  assert (H14 : TimezoneTimeToLocalTime second_sunday_of_march 2014
                  zero_SYSTEMTIME = (true, mkST 2014 3 0 9 2 0 0 0))
    by (vm_compute; reflexivity).
  assert (Hthere : SystemTimeSubtractMinutes Win32.SystemTimeToFileTime
                     Win32.FileTimeToSystemTime new_years_eve_2014 0
                   = (true, new_years_eve_2014))
    by (vm_compute; reflexivity).
  assert (Hahead : SystemTimeSubtractMinutes Win32.SystemTimeToFileTime
                     Win32.FileTimeToSystemTime new_years_eve_2014 (-60)
                   = (true, mkST 2015 1 4 1 0 30 0 0))
    by (vm_compute; reflexivity).
  split; [| split; [| split]].
  - refine (proj1 (GetLocalTimeForTimezone_coincident_transitions
                     false Win32.SystemTimeToFileTime
                     Win32.FileTimeToSystemTime
                     zero_SYSTEMTIME new_years_eve_2014 year_round_dst
                     2015 false _ _ _ _ _
                     eq_refl eq_refl Hthere Hthere Hahead H15 H15
                     eq_refl _) _ _).
    + vm_compute; reflexivity.
    + discriminate.
    + left; reflexivity.
  - refine (proj1 (proj2 (GetLocalTimeForTimezone_coincident_transitions
                     false Win32.SystemTimeToFileTime
                     Win32.FileTimeToSystemTime
                     zero_SYSTEMTIME new_years_eve_2014
                     (coincident_rules (-60) 0)
                     2015 false _ _ _ _ _
                     eq_refl eq_refl Hahead Hahead Hahead H15 H15
                     eq_refl _)) _ _).
    + vm_compute; reflexivity.
    + reflexivity.
    + left; reflexivity.
  - refine (proj1 (proj2 (GetLocalTimeForTimezone_coincident_transitions
                     false Win32.SystemTimeToFileTime
                     Win32.FileTimeToSystemTime
                     zero_SYSTEMTIME new_years_eve_2014
                     (coincident_rules 0 0)
                     2014 true _ _ _ _ _
                     eq_refl eq_refl Hthere Hthere Hthere H14 H14
                     eq_refl _)) _ _).
    + vm_compute; reflexivity.
    + reflexivity.
    + right; reflexivity.
  - refine (proj1 (proj2 (proj2
              (GetLocalTimeForTimezone_coincident_transitions
                     false Win32.SystemTimeToFileTime
                     Win32.FileTimeToSystemTime
                     zero_SYSTEMTIME new_years_eve_2014 year_round_dst
                     2014 true _ _ _ _ _
                     eq_refl eq_refl Hthere Hthere Hahead H14 H14
                     eq_refl _))) _ _).
    + vm_compute; reflexivity.
    + reflexivity.
    + vm_compute; discriminate.
Defined.

(** Every subtraction of 30 to 1440 minutes "behind", that is every local
    time half an hour to a day ahead, takes [new_years_eve_2014] into
    2015. *)
Lemma new_years_eve_2014_ahead m :
  - 1440 <= m <= - 30 ->
  exists st,
    SystemTimeSubtractMinutes Win32.SystemTimeToFileTime
      Win32.FileTimeToSystemTime new_years_eve_2014 m = (true, st)
    /\ wYear st = 2015.
Proof.
  intros Hm.
  assert (Hall :
    forallb (fun m => lands_in_2015
               (SystemTimeSubtractMinutes Win32.SystemTimeToFileTime
                  Win32.FileTimeToSystemTime new_years_eve_2014 m))
            (map (fun n => - 1440 + Z.of_nat n) (seq 0 1411)) = true)
    by (vm_compute; reflexivity).
  rewrite forallb_forall in Hall.
  specialize (Hall m).
  destruct (SystemTimeSubtractMinutes _ _ new_years_eve_2014 m) as [[] st].
  - exists st. split; [reflexivity |].
    apply Z.eqb_eq. apply Hall.
    apply in_map_iff. exists (Z.to_nat (m + 1440)).
    split; [lia | apply in_seq; lia].
  - assert (F : false = true); [| discriminate F].
    apply Hall. apply in_map_iff. exists (Z.to_nat (m + 1440)).
    split; [lia | apply in_seq; lia].
Qed.

(** C6 as stated fails for a bias that is negative by less than half an
    hour: ten minutes ahead of UTC the local time of [new_years_eve_2014] is
    23:40 of the same day, the strict attempt with the rule set of 2014
    resolves, and the local time returned is in 2014. *)
Lemma UTCTimeToLocalTime_ten_minutes_ahead_stays_in_2014 :
  Bias (no_dst (-10)) < 0
  /\ Win32.UTCTimeToLocalTime TIME_ZONE_ID_UNKNOWN (no_dst (-10))
       utc_of local_time_of tzi_id_of tzi_of
       (new_years_eve_2014, zero_state)
     = Returned (true,
                 (new_years_eve_2014,
                  mkState (mkST 2014 12 3 31 23 40 0 0) TIME_ZONE_ID_UNKNOWN
                          (no_dst (-10))))
  /\ wYear (mkST 2014 12 3 31 23 40 0 0) <> 2015.
Proof.
  repeat split; try (vm_compute; reflexivity); vm_compute; discriminate.
Qed.

(** The four references of a caller with four objects. *)
Lemma four_objects : distinct_objects utc_of local_time_of tzi_id_of tzi_of.
Proof. repeat split. Qed.

(** C6, amended: called on four objects that do not overlap, with a valid
    UTC time, [UTCTimeToLocalTime] does what the first resolution other than
    [TIME_ZONE_ID_INVALID] over the attempts of [rule_set_attempts], taken
    in that order, does: it returns [true] with the outputs of that
    resolution, returns [false] when there is none, and ends where an
    attempt ends the process; the UTC time is left as it was.  In
    particular, for UTC 2014-12-31T23:30:00, when the rule sets served for
    2014 and 2015 put the local time at least half an hour (and at most a
    day) ahead of UTC with each of their three total biases and the one for
    2015 is valid and gets past the block under [#ifdef DEBUG_ST], the
    strict attempt for 2014 does not resolve and the non-strict attempt for
    2015 returns a local time of the year 2015. *)
Theorem UTCTimeToLocalTime_attempts_in_order :
  (forall NDEBUG SystemTimeToFileTime FileTimeToSystemTime
          pfnGetDynamicTimeZoneInformation pfnGetTimeZoneInformationForYear
          GetTimeZoneInformation (M : Type)
          (utc_st local_time : ref M SYSTEMTIME) (tzi_id : ref M Z)
          (tzi : ref M TIME_ZONE_INFORMATION) (m : M),
     distinct_objects utc_st local_time tzi_id tzi ->
     IsSystemTimeValid (load utc_st m) = true ->
     conversion_agrees utc_st local_time tzi_id tzi (load utc_st m)
       (first_resolution NDEBUG SystemTimeToFileTime FileTimeToSystemTime
          pfnGetDynamicTimeZoneInformation
          pfnGetTimeZoneInformationForYear GetTimeZoneInformation
          (load utc_st m) (rule_set_attempts (load utc_st m)))
       (UTCTimeToLocalTime NDEBUG SystemTimeToFileTime FileTimeToSystemTime
          pfnGetDynamicTimeZoneInformation pfnGetTimeZoneInformationForYear
          GetTimeZoneInformation utc_st local_time tzi_id tzi m))
  /\ (forall NDEBUG pfnGetDynamicTimeZoneInformation
             pfnGetTimeZoneInformationForYear GetTimeZoneInformation
             (M : Type) (utc_st local_time : ref M SYSTEMTIME)
             (tzi_id : ref M Z) (tzi : ref M TIME_ZONE_INFORMATION) (m : M)
             tzi_2015,
        distinct_objects utc_st local_time tzi_id tzi ->
        load utc_st m = new_years_eve_2014 ->
        (forall tzi_2014,
           GetTimezoneForYear pfnGetDynamicTimeZoneInformation
             pfnGetTimeZoneInformationForYear GetTimeZoneInformation
             zero_TIME_ZONE_INFORMATION 2014 = (true, tzi_2014) ->
           half_hour_ahead tzi_2014) ->
        GetTimezoneForYear pfnGetDynamicTimeZoneInformation
          pfnGetTimeZoneInformationForYear GetTimeZoneInformation
          zero_TIME_ZONE_INFORMATION 2015 = (true, tzi_2015) ->
        half_hour_ahead tzi_2015 ->
        IsTimezoneInfoValid tzi_2015 true = true ->
        passes_debug_block NDEBUG Win32.SystemTimeToFileTime
          Win32.FileTimeToSystemTime tzi_2015 2015 = true ->
        exists r m',
          UTCTimeToLocalTime NDEBUG Win32.SystemTimeToFileTime
            Win32.FileTimeToSystemTime pfnGetDynamicTimeZoneInformation
            pfnGetTimeZoneInformationForYear GetTimeZoneInformation
            utc_st local_time tzi_id tzi m = Returned (true, m')
          /\ load local_time m' = out_local_time r
          /\ load tzi_id m' = out_tzi_id r
          /\ load tzi m' = out_tzi r
          /\ attempt NDEBUG Win32.SystemTimeToFileTime
               Win32.FileTimeToSystemTime
               pfnGetDynamicTimeZoneInformation
               pfnGetTimeZoneInformationForYear GetTimeZoneInformation
               new_years_eve_2014 (2014, true) = Returned None
          /\ attempt NDEBUG Win32.SystemTimeToFileTime
               Win32.FileTimeToSystemTime
               pfnGetDynamicTimeZoneInformation
               pfnGetTimeZoneInformationForYear GetTimeZoneInformation
               new_years_eve_2014 (2015, false) = Returned (Some r)
          /\ wYear (out_local_time r) = 2015
          /\ out_tzi r = tzi_2015).
Proof.
  split; [intros; now apply UTCTimeToLocalTime_order |].
  intros NDEBUG dyn for_year gtzi M utc_st local_time tzi_id tzi m tzi_2015
         Hobj Hu H14 H15 Ha15 Hv15 Hp15.
  set (S2F := Win32.SystemTimeToFileTime) in *.
  set (F2S := Win32.FileTimeToSystemTime) in *.
  (* the strict attempt with the rule set of 2014 *)
  assert (A14 : attempt NDEBUG S2F F2S dyn for_year gtzi new_years_eve_2014
                  (2014, true) = Returned None).
  { unfold attempt. cbn [fst snd].
    destruct (GetTimezoneForYear dyn for_year gtzi
                zero_TIME_ZONE_INFORMATION 2014) as [[] tzi_2014] eqn:E14;
      [| reflexivity].
    destruct (H14 _ eq_refl) as (Hb & Hs & Hd).
    rewrite GetLocalTimeForTimezone_strict_other_year;
      [reflexivity | reflexivity |].
    intros minutes out Hin Hsub.
    rewrite !s32_id in Hin by (unfold is_s32; lia).
    change (effective_year new_years_eve_2014 2014) with 2014.
    assert (Hm : - 1440 <= minutes <= - 30)
      by (destruct Hin as [<- | [<- | [<- | []]]]; lia).
    destruct (new_years_eve_2014_ahead minutes Hm) as (st & E' & Y).
    fold S2F F2S in E'. rewrite E' in Hsub. injection Hsub as <-. lia. }
  (* the non-strict attempt with the rule set of 2015 *)
  destruct Ha15 as (Hb & Hs & Hd).
  destruct (new_years_eve_2014_ahead _ Hb) as (unk & Eu & Yu).
  destruct (new_years_eve_2014_ahead _ Hs) as (std & Es & Ys).
  destruct (new_years_eve_2014_ahead _ Hd) as (dl & Ed & Yd).
  fold S2F F2S in Eu, Es, Ed.
  assert (Hy : IsYearValid (effective_year new_years_eve_2014 2015) = true)
    by reflexivity.
  assert (Hres : exists id lt,
             GetLocalTimeForTimezone NDEBUG S2F F2S zero_SYSTEMTIME tzi_2015
               new_years_eve_2014 2015 false = Returned (id, lt)
             /\ id <> TIME_ZONE_ID_INVALID).
  { pose proof (GetLocalTimeForTimezone_non_strict_resolves NDEBUG S2F F2S
                  zero_SYSTEMTIME tzi_2015 new_years_eve_2014 2015
                  unk std dl Hy Hv15) as H.
    rewrite !s32_id in H by (unfold is_s32; lia).
    exact (H Eu Es Ed Hp15). }
  destruct Hres as (id & lt & E & Hid).
  assert (Hyear : wYear lt = 2015).
  { destruct (GetLocalTimeForTimezone_selects _ _ _ _ _ _ _ _ _ _
                Hy E Hid) as [_ Hc].
    rewrite !s32_id in Hc by (unfold is_s32; lia).
    destruct Hc as [Hc | [Hc | Hc]];
      [rewrite Eu in Hc | rewrite Es in Hc | rewrite Ed in Hc];
      injection Hc as <-; assumption. }
  assert (A15 : attempt NDEBUG S2F F2S dyn for_year gtzi new_years_eve_2014
                  (2015, false) = Returned (Some (mkState lt id tzi_2015))).
  { unfold attempt. cbn [fst snd]. rewrite H15, E.
    destruct (Z.eqb_spec id TIME_ZONE_ID_INVALID); [contradiction |].
    reflexivity. }
  assert (Hvalid : IsSystemTimeValid (load utc_st m) = true)
    by (rewrite Hu; reflexivity).
  pose proof (UTCTimeToLocalTime_order NDEBUG S2F F2S dyn for_year gtzi
                utc_st local_time tzi_id tzi m Hobj Hvalid) as Hord.
  rewrite Hu in Hord.
  change (rule_set_attempts new_years_eve_2014)
    with [(2014, true); (2015, false)] in Hord.
  cbn [first_resolution] in Hord. rewrite A14, A15 in Hord.
  destruct Hord as (m' & Hr & _ & Hl & Hi & Ht).
  exists (mkState lt id tzi_2015), m'.
  repeat split; auto.
Qed.

(** An operating system with one rule set, an hour ahead of UTC, and a
    caller with four objects. *)
Lemma UTCTimeToLocalTime_attempts_in_order_witness :
  exists m',
    Win32.UTCTimeToLocalTime TIME_ZONE_ID_UNKNOWN (no_dst (-60))
      utc_of local_time_of tzi_id_of tzi_of
      (new_years_eve_2014, zero_state) = Returned (true, m')
    /\ wYear (load local_time_of m') = 2015.
Proof.
  assert (Ha : half_hour_ahead (no_dst (-60)))
    by (unfold half_hour_ahead; cbn; lia).
  assert (H15 : GetTimezoneForYear None None
                  (TIME_ZONE_ID_UNKNOWN, no_dst (-60))
                  zero_TIME_ZONE_INFORMATION 2015 = (true, no_dst (-60)))
    by reflexivity.
  assert (H14 : forall tzi_2014,
            GetTimezoneForYear None None (TIME_ZONE_ID_UNKNOWN, no_dst (-60))
              zero_TIME_ZONE_INFORMATION 2014 = (true, tzi_2014) ->
            half_hour_ahead tzi_2014).
  { intros t E. change (GetTimezoneForYear None None
                          (TIME_ZONE_ID_UNKNOWN, no_dst (-60))
                          zero_TIME_ZONE_INFORMATION 2014)
      with (true, no_dst (-60)) in E.
    injection E as <-. exact Ha. }
  destruct (proj2 UTCTimeToLocalTime_attempts_in_order false None None
              (TIME_ZONE_ID_UNKNOWN, no_dst (-60)) _
              utc_of local_time_of tzi_id_of tzi_of
              (new_years_eve_2014, zero_state) (no_dst (-60))
              four_objects eq_refl H14 H15 Ha eq_refl eq_refl)
    as (r & m' & Hr & Hl & _ & _ & _ & _ & Hy & _).
  exists m'. split; [exact Hr | rewrite Hl; exact Hy].
Defined.
(** * Further properties *)

(** ** Dates and days of the week *)

Lemma month_length_gregorian leap m :
  1 <= m <= 12 -> month_length leap m = gregorian_month_days leap m.
Proof.
  intros H. each_month m H; destruct leap; vm_compute; reflexivity.
Qed.

Lemma IsLeapYear_true y :
  IsLeapYear y = true ->
  y mod 400 = 0 \/ (y mod 4 = 0 /\ y mod 100 <> 0).
Proof. unfold IsLeapYear. zbool; intros; try discriminate; auto. Qed.

Lemma IsLeapYear_false y :
  IsLeapYear y = false ->
  y mod 400 <> 0 /\ (y mod 4 <> 0 \/ y mod 100 = 0).
Proof. unfold IsLeapYear. zbool; intros; try discriminate; auto. Qed.

(** X1: [IsDateValid] accepts exactly the dates of the Gregorian calendar
    in the years 1601 to 30827: the month is 1 to 12 and the day is 1 to
    the length of the month, February having 29 days in the years that
    [IsLeapYear] accepts and 28 in the others. *)
Theorem IsDateValid_gregorian (day month year : Z) :
  IsDateValid day month year = true <->
  1601 <= year <= 30827 /\ 1 <= month <= 12
  /\ 1 <= day <= gregorian_month_days (IsLeapYear year) month.
Proof.
  rewrite IsDateValid_iff. unfold IsYearValid.
  rewrite andb_true_iff, !Z.leb_le.
  split; intros (Hy & Hm & Hd);
    pose proof (month_length_gregorian (IsLeapYear year) month Hm) as E;
    rewrite E in * || rewrite <- E in *; lia.
Qed.

(** The weekday of the day after a valid date, in the three places where
    that day can be. *)
Lemma GetDayOfWeek_successor d m y :
  IsDateValid d m y = true ->
  (IsDateValid (d + 1) m y = true ->
   GetDayOfWeek (d + 1) m y = (GetDayOfWeek d m y + 1) mod 7)
  /\ (IsDateValid (d + 1) m y = false -> m < 12 ->
      GetDayOfWeek 1 (m + 1) y = (GetDayOfWeek d m y + 1) mod 7)
  /\ (IsDateValid (d + 1) m y = false -> m = 12 -> y < 30827 ->
      GetDayOfWeek 1 1 (y + 1) = (GetDayOfWeek d m y + 1) mod 7).
Proof.
  intros Hv. pose proof Hv as Hv'.
  apply IsDateValid_iff in Hv' as (Hy & Hm & Hd).
  pose proof (IsYearValid_range _ Hy) as Hyr.
  pose proof (month_length_range (IsLeapYear y) m Hm) as Hlen.
  assert (Hlast : IsDateValid (d + 1) m y = false ->
                  d = month_length (IsLeapYear y) m).
  { intros Hn.
    destruct (Z.eq_dec d (month_length (IsLeapYear y) m)); [assumption |].
    assert (IsDateValid (d + 1) m y = true)
      by (apply IsDateValid_iff; repeat split; auto; lia).
    congruence. }
  repeat split.
  - intros _. rewrite !GetDayOfWeek_valid by (auto; lia).
    generalize (dow_base m y). intros b.
    Z.to_euclidean_division_equations; lia.
  - intros Hn Hlt. apply Hlast in Hn.
    rewrite !GetDayOfWeek_valid by (auto; lia). subst d.
    unfold dow_base, month_length.
    destruct (IsLeapYear y) eqn:Hleap;
      [apply IsLeapYear_true in Hleap | apply IsLeapYear_false in Hleap];
      each_month m Hm; try lia; eval_tables;
      Z.to_euclidean_division_equations; lia.
  - intros Hn -> Hlt. apply Hlast in Hn.
    assert (Hy1 : IsYearValid (y + 1) = true)
      by (unfold IsYearValid; apply andb_true_iff; rewrite !Z.leb_le; lia).
    rewrite !GetDayOfWeek_valid by (auto; lia). subst d.
    unfold dow_base, month_length. eval_tables.
    replace (y + 1 - 1) with y by lia.
    destruct (IsLeapYear y); cbn [andb];
      Z.to_euclidean_division_equations; lia.
Qed.

(** X2: [GetDayOfWeek] never leaves 0..6, gives Monday for 1601-01-01, and
    follows the calendar of [IsDateValid]: from a valid date to the next
    day, be it in the same month, the first of the next month or the first
    of January of the next year, the day of the week goes up by one modulo
    7. *)
Theorem GetDayOfWeek_follows_calendar :
  (forall day month year, 0 <= GetDayOfWeek day month year <= 6)
  /\ GetDayOfWeek 1 1 1601 = 1
  /\ (forall day month year,
        IsDateValid day month year = true ->
        (IsDateValid (day + 1) month year = true ->
         GetDayOfWeek (day + 1) month year
         = (GetDayOfWeek day month year + 1) mod 7)
        /\ (IsDateValid (day + 1) month year = false -> month < 12 ->
            GetDayOfWeek 1 (month + 1) year
            = (GetDayOfWeek day month year + 1) mod 7)
        /\ (IsDateValid (day + 1) month year = false -> month = 12 ->
            year < 30827 ->
            GetDayOfWeek 1 1 (year + 1)
            = (GetDayOfWeek day month year + 1) mod 7)).
Proof.
  split; [exact GetDayOfWeek_range |].
  split; [reflexivity |].
  exact GetDayOfWeek_successor.
Qed.

(** From Saturday 2000-02-29 to Sunday 2000-03-01. *)
Lemma GetDayOfWeek_follows_calendar_witness :
  GetDayOfWeek 1 3 2000 = (GetDayOfWeek 29 2 2000 + 1) mod 7.
Proof.
  destruct GetDayOfWeek_follows_calendar as (_ & _ & H).
  destruct (H 29 2 2000 eq_refl) as (_ & H2 & _).
  apply H2; [reflexivity | lia].
Defined.

(** ** The order of [CompareSystemTimes] *)

Lemma lexico_values xs : forall ys,
  lexico xs ys = -1 \/ lexico xs ys = 0 \/ lexico xs ys = 1.
Proof.
  induction xs as [| x xs IH]; intros [| y ys]; cbn [lexico]; auto.
  unfold RETURN_IF_NOT_EQUAL.
  destruct (x <? y); auto. destruct (y <? x); auto.
Qed.

Lemma lexico_opposite xs : forall ys, lexico ys xs = - lexico xs ys.
Proof.
  induction xs as [| x xs IH]; intros [| y ys]; cbn [lexico]; auto.
  unfold RETURN_IF_NOT_EQUAL. rewrite IH.
  destruct (Z.ltb_spec x y); destruct (Z.ltb_spec y x); lia.
Qed.

Lemma lexico_zero xs : forall ys,
  length xs = length ys -> (lexico xs ys = 0 <-> xs = ys).
Proof.
  induction xs as [| x xs IH]; intros [| y ys]; cbn [lexico length];
    try discriminate; [tauto |].
  intros Hl. injection Hl as Hl. specialize (IH ys Hl).
  unfold RETURN_IF_NOT_EQUAL.
  destruct (Z.ltb_spec x y); [split; [discriminate | intros E; inversion E; lia] |].
  destruct (Z.ltb_spec y x); [split; [discriminate | intros E; inversion E; lia] |].
  assert (x = y) by lia. subst y. rewrite IH.
  split; [intros -> | intros E; inversion E]; reflexivity.
Qed.

Lemma lexico_transitive xs : forall ys zs,
  lexico xs ys = -1 -> lexico ys zs = -1 -> lexico xs zs = -1.
Proof.
  induction xs as [| x xs IH]; intros [| y ys] [| z zs]; cbn [lexico];
    try discriminate.
  unfold RETURN_IF_NOT_EQUAL. specialize (IH ys zs).
  destruct (Z.ltb_spec x y); destruct (Z.ltb_spec y x);
    destruct (Z.ltb_spec y z); destruct (Z.ltb_spec z y);
    destruct (Z.ltb_spec x z); destruct (Z.ltb_spec z x);
    try lia; try discriminate; auto.
Qed.

Lemma CompareSystemTimes_lexico a b :
  CompareSystemTimes a b = lexico (compared_members a) (compared_members b).
Proof.
  unfold CompareSystemTimes, CompareSystemTimes_IgnoreDayOfWeek,
    compared_members.
  cbv zeta. cbn [lexico]. unfold RETURN_IF_NOT_EQUAL.
  destruct (wYear a <? wYear b); [reflexivity |].
  destruct (wYear b <? wYear a); [reflexivity |].
  destruct (wMonth a <? wMonth b); [reflexivity |].
  destruct (wMonth b <? wMonth a); [reflexivity |].
  destruct (wDay a <? wDay b); [reflexivity |].
  destruct (wDay b <? wDay a); [reflexivity |].
  destruct (wHour a <? wHour b); [reflexivity |].
  destruct (wHour b <? wHour a); [reflexivity |].
  destruct (wMinute a <? wMinute b); [reflexivity |].
  destruct (wMinute b <? wMinute a); [reflexivity |].
  destruct (wSecond a <? wSecond b); [reflexivity |].
  destruct (wSecond b <? wSecond a); [reflexivity |].
  destruct (wMilliseconds a <? wMilliseconds b); [reflexivity |].
  destruct (wMilliseconds b <? wMilliseconds a); reflexivity.
Qed.

Lemma compared_members_inj a b :
  compared_members a = compared_members b -> a = b.
Proof.
  destruct a, b. unfold compared_members.
  cbn [wYear wMonth wDayOfWeek wDay wHour wMinute wSecond wMilliseconds].
  intros E. injection E as -> -> -> -> -> -> -> ->. reflexivity.
Qed.

(** X3: [CompareSystemTimes] is a strict total order on [SYSTEMTIME]
    values: it returns -1, 0 or 1; it returns 0 exactly for equal
    structures; exchanging the arguments negates the result; and "less
    than" is transitive.  Where [CompareSystemTimes_IgnoreDayOfWeek] is not
    0 the two functions agree. *)
Theorem CompareSystemTimes_total_order (a b c : SYSTEMTIME) :
  (CompareSystemTimes a b = -1 \/ CompareSystemTimes a b = 0
   \/ CompareSystemTimes a b = 1)
  /\ (CompareSystemTimes a b = 0 <-> a = b)
  /\ CompareSystemTimes b a = - CompareSystemTimes a b
  /\ (CompareSystemTimes a b = -1 -> CompareSystemTimes b c = -1 ->
      CompareSystemTimes a c = -1)
  /\ (CompareSystemTimes_IgnoreDayOfWeek a b <> 0 ->
      CompareSystemTimes a b = CompareSystemTimes_IgnoreDayOfWeek a b).
Proof.
  rewrite !CompareSystemTimes_lexico.
  split; [apply lexico_values |].
  split.
  { rewrite lexico_zero by reflexivity.
    split; [apply compared_members_inj | intros ->; reflexivity]. }
  split; [apply lexico_opposite |].
  split; [apply lexico_transitive |].
  intros H. rewrite <- CompareSystemTimes_lexico, CompareSystemTimes_unfold.
  destruct (Z.eqb_spec (CompareSystemTimes_IgnoreDayOfWeek a b) 0);
    [contradiction | reflexivity].
Qed.

(** Three moments of 2015-03-08. *)
Lemma CompareSystemTimes_total_order_witness :
  CompareSystemTimes (mkST 2015 3 0 8 1 59 59 999) (mkST 2015 3 0 8 3 0 0 0)
  = -1.
Proof.
  refine (proj1 (proj2 (proj2 (proj2
            (CompareSystemTimes_total_order
               (mkST 2015 3 0 8 1 59 59 999) (mkST 2015 3 0 8 2 0 0 0)
               (mkST 2015 3 0 8 3 0 0 0))))) _ _); reflexivity.
Defined.

(** ** More of the tick arithmetic *)

Lemma IsFileTimeValid_range ft :
  wf_FILETIME ft ->
  (IsFileTimeValid ft = true <-> 0 <= QuadPart ft <= max_ticks).
Proof.
  intros H. rewrite (IsFileTimeValid_QuadPart _ H).
  rewrite andb_true_iff, !Z.leb_le. tauto.
Qed.

Lemma FileTimeSubtract100nsIntervals_result ft n :
  wf_FILETIME ft -> is_s64 n ->
  (0 <= QuadPart ft <= max_ticks /\ 0 <= QuadPart ft - n <= max_ticks ->
   FileTimeSubtract100nsIntervals ft n = (true, of_QuadPart (QuadPart ft - n)))
  /\ (~ (0 <= QuadPart ft <= max_ticks /\ 0 <= QuadPart ft - n <= max_ticks) ->
      fst (FileTimeSubtract100nsIntervals ft n) = false).
Proof.
  intros Hft Hn.
  rewrite (FileTimeSubtract100nsIntervals_unfold _ _ Hft Hn).
  pose proof (IsFileTimeValid_range _ Hft) as Hv.
  unfold max_ticks, is_s64, LLONG_MIN, LLONG_MAX in *.
  destruct (IsFileTimeValid ft); cbn [negb].
  - assert (Hq : 0 <= QuadPart ft <= 9223149887999990000) by (apply Hv; auto).
    destruct (Z.eqb_spec n 0) as [-> | Hn0].
    + replace (QuadPart ft - 0) with (QuadPart ft) by lia.
      rewrite (of_QuadPart_QuadPart _ Hft).
      split; [reflexivity | intros Hx; exfalso; apply Hx; lia].
    + destruct (Z.ltb_spec (QuadPart ft - n) (- 2 ^ 63));
        [cbn [orb fst]; split; [lia | reflexivity] |].
      destruct (Z.ltb_spec (2 ^ 63 - 1) (QuadPart ft - n));
        [cbn [orb fst]; split; [lia | reflexivity] |].
      cbn [orb fst].
      pose proof (IsFileTimeValid_range _ (wf_of_QuadPart (QuadPart ft - n)))
        as Hv'.
      rewrite QuadPart_of_QuadPart in Hv' by (unfold is_s64; lia).
      unfold max_ticks in Hv'.
      destruct (IsFileTimeValid (of_QuadPart (QuadPart ft - n))).
      * split; [reflexivity |].
        intros Hx; exfalso; apply Hx. split; [lia | apply Hv'; reflexivity].
      * split; [| reflexivity].
        intros [_ Hx]. apply Hv' in Hx. discriminate.
  - cbn [fst]. split; [| reflexivity].
    intros [Hx _]. apply Hv in Hx. discriminate.
Qed.

Lemma FileTimeAdd100nsIntervals_result ft n :
  wf_FILETIME ft -> is_s64 n ->
  (0 <= QuadPart ft <= max_ticks /\ 0 <= QuadPart ft + n <= max_ticks ->
   FileTimeAdd100nsIntervals ft n = (true, of_QuadPart (QuadPart ft + n)))
  /\ (~ (0 <= QuadPart ft <= max_ticks /\ 0 <= QuadPart ft + n <= max_ticks) ->
      fst (FileTimeAdd100nsIntervals ft n) = false).
Proof.
  intros Hft Hn.
  rewrite (FileTimeAdd100nsIntervals_unfold _ _ Hn).
  unfold is_s64, LLONG_MIN in *.
  destruct (Z.eqb_spec n (- 2 ^ 63)) as [-> | Hmin].
  - cbn [fst]. unfold max_ticks. split; [lia | reflexivity].
  - assert (Hn' : is_s64 (- n)) by (unfold is_s64; lia).
    destruct (FileTimeSubtract100nsIntervals_result ft (- n) Hft Hn')
      as [H1 H2].
    replace (QuadPart ft - - n) with (QuadPart ft + n) in * by lia.
    split; assumption.
Qed.

(** X4: on a [FILETIME] with 32-bit members and for every [long long]
    count, [FileTimeSubtract100nsIntervals] and [FileTimeAdd100nsIntervals]
    return [true] exactly when the tick count before and the tick count
    after are both within 0 .. [0x7FFF35F4F06C58F0], and then [ft] holds
    exactly the difference or the sum: nothing wraps and nothing is
    clamped. *)
Theorem FileTime_100ns_arithmetic_exact (ft : FILETIME) (intervals : Z) :
  wf_FILETIME ft -> is_s64 intervals ->
  (fst (FileTimeSubtract100nsIntervals ft intervals) = true <->
   0 <= QuadPart ft <= max_ticks
   /\ 0 <= QuadPart ft - intervals <= max_ticks)
  /\ (fst (FileTimeSubtract100nsIntervals ft intervals) = true ->
      QuadPart (snd (FileTimeSubtract100nsIntervals ft intervals))
      = QuadPart ft - intervals)
  /\ (fst (FileTimeAdd100nsIntervals ft intervals) = true <->
      0 <= QuadPart ft <= max_ticks
      /\ 0 <= QuadPart ft + intervals <= max_ticks)
  /\ (fst (FileTimeAdd100nsIntervals ft intervals) = true ->
      QuadPart (snd (FileTimeAdd100nsIntervals ft intervals))
      = QuadPart ft + intervals).
Proof.
  intros Hft Hn.
  destruct (FileTimeSubtract100nsIntervals_result ft intervals Hft Hn)
    as [S1 S2].
  destruct (FileTimeAdd100nsIntervals_result ft intervals Hft Hn)
    as [A1 A2].
  pose proof (QuadPart_range _ Hft) as Hq.
  unfold max_ticks, is_s64 in *.
  assert (Dsub : {0 <= QuadPart ft <= 9223149887999990000
                  /\ 0 <= QuadPart ft - intervals <= 9223149887999990000}
                 + {~ (0 <= QuadPart ft <= 9223149887999990000
                       /\ 0 <= QuadPart ft - intervals <= 9223149887999990000)}).
  { destruct (Z_le_dec 0 (QuadPart ft));
      destruct (Z_le_dec (QuadPart ft) 9223149887999990000);
      destruct (Z_le_dec 0 (QuadPart ft - intervals));
      destruct (Z_le_dec (QuadPart ft - intervals) 9223149887999990000);
      try (left; lia); right; lia. }
  assert (Dadd : {0 <= QuadPart ft <= 9223149887999990000
                  /\ 0 <= QuadPart ft + intervals <= 9223149887999990000}
                 + {~ (0 <= QuadPart ft <= 9223149887999990000
                       /\ 0 <= QuadPart ft + intervals <= 9223149887999990000)}).
  { destruct (Z_le_dec 0 (QuadPart ft));
      destruct (Z_le_dec (QuadPart ft) 9223149887999990000);
      destruct (Z_le_dec 0 (QuadPart ft + intervals));
      destruct (Z_le_dec (QuadPart ft + intervals) 9223149887999990000);
      try (left; lia); right; lia. }
  split; [split |].
  - intros Hs. destruct Dsub as [D | D]; [exact D |].
    rewrite (S2 D) in Hs. discriminate.
  - intros D. rewrite (S1 D). reflexivity.
  - split; [| split; [split |]].
    + intros Hs. destruct Dsub as [D | D];
        [| rewrite (S2 D) in Hs; discriminate].
      rewrite (S1 D). cbn [snd].
      apply QuadPart_of_QuadPart. unfold is_s64. lia.
    + intros Hs. destruct Dadd as [D | D]; [exact D |].
      rewrite (A2 D) in Hs. discriminate.
    + intros D. rewrite (A1 D). reflexivity.
    + intros Hs. destruct Dadd as [D | D];
        [| rewrite (A2 D) in Hs; discriminate].
      rewrite (A1 D). cbn [snd].
      apply QuadPart_of_QuadPart. unfold is_s64. lia.
Qed.

(** One second after the epoch, less one second. *)
Lemma FileTime_100ns_arithmetic_exact_witness :
  QuadPart (snd (FileTimeSubtract100nsIntervals (mkFT 10000000 0) 10000000))
  = QuadPart (mkFT 10000000 0) - 10000000.
Proof.
  refine (proj1 (proj2 (FileTime_100ns_arithmetic_exact
                          (mkFT 10000000 0) 10000000 _ _)) _).
  - vm_compute; intuition discriminate.
  - vm_compute; intuition discriminate.
  - vm_compute; reflexivity.
Defined.

Lemma FileTimeSubtract100nsIntervals_success ft n ft' :
  wf_FILETIME ft -> is_s64 n ->
  FileTimeSubtract100nsIntervals ft n = (true, ft') ->
  (0 <= QuadPart ft <= max_ticks /\ 0 <= QuadPart ft - n <= max_ticks)
  /\ ft' = of_QuadPart (QuadPart ft - n).
Proof.
  intros Hft Hn E.
  destruct (FileTimeSubtract100nsIntervals_result ft n Hft Hn) as [S1 S2].
  assert (D : 0 <= QuadPart ft <= max_ticks
              /\ 0 <= QuadPart ft - n <= max_ticks).
  { unfold max_ticks in *.
    destruct (Z_le_dec 0 (QuadPart ft));
      destruct (Z_le_dec (QuadPart ft) 9223149887999990000);
      destruct (Z_le_dec 0 (QuadPart ft - n));
      destruct (Z_le_dec (QuadPart ft - n) 9223149887999990000);
      try lia;
      (rewrite S2 in E by lia; cbn [fst] in E)
      || (assert (F : fst (FileTimeSubtract100nsIntervals ft n) = false)
            by (apply S2; lia);
          rewrite E in F; discriminate F). }
  split; [exact D |]. rewrite (S1 D) in E. congruence.
Qed.

Lemma FileTimeAdd100nsIntervals_success ft n ft' :
  wf_FILETIME ft -> is_s64 n ->
  FileTimeAdd100nsIntervals ft n = (true, ft') ->
  (0 <= QuadPart ft <= max_ticks /\ 0 <= QuadPart ft + n <= max_ticks)
  /\ ft' = of_QuadPart (QuadPart ft + n).
Proof.
  intros Hft Hn E.
  destruct (FileTimeAdd100nsIntervals_result ft n Hft Hn) as [S1 S2].
  assert (D : 0 <= QuadPart ft <= max_ticks
              /\ 0 <= QuadPart ft + n <= max_ticks).
  { unfold max_ticks in *.
    destruct (Z_le_dec 0 (QuadPart ft));
      destruct (Z_le_dec (QuadPart ft) 9223149887999990000);
      destruct (Z_le_dec 0 (QuadPart ft + n));
      destruct (Z_le_dec (QuadPart ft + n) 9223149887999990000);
      try lia;
      (assert (F : fst (FileTimeAdd100nsIntervals ft n) = false)
         by (apply S2; lia);
       rewrite E in F; discriminate F). }
  split; [exact D |]. rewrite (S1 D) in E. congruence.
Qed.

(** X5: when [FileTimeSubtractMinutes] succeeds on [ft],
    [FileTimeAddMinutes] with the same number of minutes succeeds on the
    result and gives [ft] back; the same holds one level down for
    [FileTimeSubtract100nsIntervals] and [FileTimeAdd100nsIntervals]. *)
Theorem FileTimeSubtractMinutes_then_AddMinutes
  (ft ft' : FILETIME) (minutes : Z) :
  wf_FILETIME ft ->
  (FileTimeSubtractMinutes ft minutes = (true, ft') ->
   FileTimeAddMinutes ft' minutes = (true, ft))
  /\ (forall intervals, is_s64 intervals ->
      FileTimeSubtract100nsIntervals ft intervals = (true, ft') ->
      FileTimeAdd100nsIntervals ft' intervals = (true, ft)).
Proof.
  intros Hft.
  assert (G : forall n, is_s64 n ->
            FileTimeSubtract100nsIntervals ft n = (true, ft') ->
            FileTimeAdd100nsIntervals ft' n = (true, ft)).
  { intros n Hn E.
    destruct (FileTimeSubtract100nsIntervals_success _ _ _ Hft Hn E)
      as [[D1 D2] ->].
    pose proof (QuadPart_range _ Hft) as Hq.
    assert (Hq' : is_s64 (QuadPart ft - n))
      by (unfold is_s64, max_ticks in *; lia).
    destruct (FileTimeAdd100nsIntervals_result
                (of_QuadPart (QuadPart ft - n)) n (wf_of_QuadPart _) Hn)
      as [A1 _].
    rewrite (QuadPart_of_QuadPart _ Hq') in A1.
    rewrite A1 by (split; [assumption | lia]).
    replace (QuadPart ft - n + n) with (QuadPart ft) by lia.
    now rewrite (of_QuadPart_QuadPart _ Hft). }
  split; [| exact G].
  unfold FileTimeSubtractMinutes, FileTimeAddMinutes.
  apply G, s64_range.
Qed.

(** 2015-01-01T01:00:00 and ninety minutes. *)
Lemma FileTimeSubtractMinutes_then_AddMinutes_witness :
  FileTimeAddMinutes (mkFT 2983676928 30418257) 90
  = (true, mkFT 1149102080 30418270).
Proof.
  apply (FileTimeSubtractMinutes_then_AddMinutes
           (mkFT 1149102080 30418270) (mkFT 2983676928 30418257) 90);
    try (vm_compute; reflexivity); vm_compute; intuition discriminate.
Defined.

(** X6: two subtractions that succeed one after the other give what one
    subtraction of the sum gives, and likewise two additions, as long as
    the sum of the two counts is a [long long]. *)
Theorem FileTime_100ns_arithmetic_composes
  (ft ft1 ft2 : FILETIME) (n1 n2 : Z) :
  wf_FILETIME ft -> is_s64 n1 -> is_s64 n2 -> is_s64 (n1 + n2) ->
  (FileTimeSubtract100nsIntervals ft n1 = (true, ft1) ->
   FileTimeSubtract100nsIntervals ft1 n2 = (true, ft2) ->
   FileTimeSubtract100nsIntervals ft (n1 + n2) = (true, ft2))
  /\ (FileTimeAdd100nsIntervals ft n1 = (true, ft1) ->
      FileTimeAdd100nsIntervals ft1 n2 = (true, ft2) ->
      FileTimeAdd100nsIntervals ft (n1 + n2) = (true, ft2)).
Proof.
  intros Hft H1 H2 H12.
  pose proof (QuadPart_range _ Hft) as Hq.
  split; intros E1 E2.
  - destruct (FileTimeSubtract100nsIntervals_success _ _ _ Hft H1 E1)
      as [[D1 D2] ->].
    assert (Hq1 : is_s64 (QuadPart ft - n1))
      by (unfold is_s64, max_ticks in *; lia).
    destruct (FileTimeSubtract100nsIntervals_success _ _ _
                (wf_of_QuadPart _) H2 E2) as [[D3 D4] ->].
    rewrite (QuadPart_of_QuadPart _ Hq1) in *.
    destruct (FileTimeSubtract100nsIntervals_result ft (n1 + n2) Hft H12)
      as [S1 _].
    rewrite S1 by (split; [assumption | lia]).
    do 2 f_equal. lia.
  - destruct (FileTimeAdd100nsIntervals_success _ _ _ Hft H1 E1)
      as [[D1 D2] ->].
    assert (Hq1 : is_s64 (QuadPart ft + n1))
      by (unfold is_s64, max_ticks in *; lia).
    destruct (FileTimeAdd100nsIntervals_success _ _ _
                (wf_of_QuadPart _) H2 E2) as [[D3 D4] ->].
    rewrite (QuadPart_of_QuadPart _ Hq1) in *.
    destruct (FileTimeAdd100nsIntervals_result ft (n1 + n2) Hft H12)
      as [S1 _].
    rewrite S1 by (split; [assumption | lia]).
    do 2 f_equal. lia.
Qed.

(** Three seconds after the epoch, less one second and less two. *)
Lemma FileTime_100ns_arithmetic_composes_witness :
  FileTimeSubtract100nsIntervals (mkFT 30000000 0) (10000000 + 20000000)
  = (true, mkFT 0 0).
Proof.
  refine (proj1 (FileTime_100ns_arithmetic_composes
                   (mkFT 30000000 0) (mkFT 20000000 0) (mkFT 0 0)
                   10000000 20000000 _ _ _ _) _ _);
    try (vm_compute; reflexivity); vm_compute; intuition discriminate.
Defined.

(** X7: for a number of minutes between -15372286728 and 15372286728 the
    product with 600000000 fits [long long], and [FileTimeSubtractMinutes]
    and [FileTimeAddMinutes] return [true] exactly when the tick counts
    before and after are in the supported range; [ft] then holds the tick
    count moved by exactly 600000000 times the minutes. *)
Theorem FileTime_minutes_arithmetic_exact (ft : FILETIME) (minutes : Z) :
  wf_FILETIME ft -> - max_minutes <= minutes <= max_minutes ->
  (fst (FileTimeSubtractMinutes ft minutes) = true <->
   0 <= QuadPart ft <= max_ticks
   /\ 0 <= QuadPart ft - 600000000 * minutes <= max_ticks)
  /\ (fst (FileTimeSubtractMinutes ft minutes) = true ->
      QuadPart (snd (FileTimeSubtractMinutes ft minutes))
      = QuadPart ft - 600000000 * minutes)
  /\ (fst (FileTimeAddMinutes ft minutes) = true <->
      0 <= QuadPart ft <= max_ticks
      /\ 0 <= QuadPart ft + 600000000 * minutes <= max_ticks)
  /\ (fst (FileTimeAddMinutes ft minutes) = true ->
      QuadPart (snd (FileTimeAddMinutes ft minutes))
      = QuadPart ft + 600000000 * minutes).
Proof.
  intros Hft Hm.
  assert (Hp : is_s64 (minutes * 10000 * 1000 * 60))
    by (unfold is_s64, max_minutes in *; lia).
  pose proof (minutes_to_intervals_exact _ Hp) as Ei.
  assert (Hn : is_s64 (minutes * 600000000))
    by (unfold is_s64, max_minutes in *; lia).
  unfold FileTimeSubtractMinutes, FileTimeAddMinutes. rewrite Ei.
  replace (600000000 * minutes) with (minutes * 600000000) by lia.
  destruct (FileTimeSubtract100nsIntervals_result ft _ Hft Hn) as [S1 S2].
  destruct (FileTimeAdd100nsIntervals_result ft _ Hft Hn) as [A1 A2].
  pose proof (QuadPart_range _ Hft) as Hq.
  split; [split |].
  - intros Hs.
    destruct (FileTimeSubtract100nsIntervals
                ft (minutes * 600000000)) as [[] ft'] eqn:E;
      [| discriminate].
    apply (FileTimeSubtract100nsIntervals_success _ _ _ Hft Hn E).
  - intros D. now rewrite (S1 D).
  - split; [| split; [split |]].
    + intros Hs.
      destruct (FileTimeSubtract100nsIntervals
                  ft (minutes * 600000000)) as [[] ft'] eqn:E;
        [| discriminate].
      destruct (FileTimeSubtract100nsIntervals_success _ _ _ Hft Hn E)
        as [[D1 D2] ->].
      cbn [snd]. apply QuadPart_of_QuadPart.
      unfold is_s64, max_ticks in *. lia.
    + intros Hs.
      destruct (FileTimeAdd100nsIntervals
                  ft (minutes * 600000000)) as [[] ft'] eqn:E;
        [| discriminate].
      apply (FileTimeAdd100nsIntervals_success _ _ _ Hft Hn E).
    + intros D. now rewrite (A1 D).
    + intros Hs.
      destruct (FileTimeAdd100nsIntervals
                  ft (minutes * 600000000)) as [[] ft'] eqn:E;
        [| discriminate].
      destruct (FileTimeAdd100nsIntervals_success _ _ _ Hft Hn E)
        as [[D1 D2] ->].
      cbn [snd]. apply QuadPart_of_QuadPart.
      unfold is_s64, max_ticks in *. lia.
Qed.

(** 2014-12-31T23:30:00 and the bias of a zone five hours behind UTC. *)
Lemma FileTime_minutes_arithmetic_exact_witness :
  QuadPart (snd (FileTimeSubtractMinutes (mkFT 2983676928 30418257) 300))
  = QuadPart (mkFT 2983676928 30418257) - 600000000 * 300.
Proof.
  refine (proj1 (proj2 (FileTime_minutes_arithmetic_exact
                          (mkFT 2983676928 30418257) 300 _ _)) _).
  - vm_compute; intuition discriminate.
  - vm_compute; intuition discriminate.
  - vm_compute; reflexivity.
Defined.

(** ** [SystemTimeToTm] *)

(** X8: [SystemTimeToTm] refuses exactly the times that [IsSystemTimeValid]
    refuses and then leaves [tm] as it was.  For a valid time [tm_mon] is
    in 0..11, [tm_yday] is the number of days of the year before the date,
    counted with the month lengths of [IsDateValid] (so at most 364, or 365
    in a leap year), and [tm_wday] is the day of the week of January 1 of
    that year moved on by [tm_yday] days. *)
Theorem SystemTimeToTm_day_of_year (st : SYSTEMTIME) (st_isdst : bool) (t : tm) :
  (IsSystemTimeValid st = false ->
   SystemTimeToTm st st_isdst t = (false, t))
  /\ (IsSystemTimeValid st = true ->
      let t' := snd (SystemTimeToTm st st_isdst t) in
      fst (SystemTimeToTm st st_isdst t) = true
      /\ 0 <= tm_mon t' <= 11
      /\ tm_yday t'
         = days_before (IsLeapYear (wYear st)) (Z.to_nat (wMonth st - 1))
           + wDay st - 1
      /\ 0 <= tm_yday t' <= (if IsLeapYear (wYear st) then 365 else 364)
      /\ tm_wday t' = (GetDayOfWeek 1 1 (wYear st) + tm_yday t') mod 7).
Proof.
  unfold SystemTimeToTm. split; [intros ->; reflexivity |].
  intros Hv. rewrite Hv. cbn [negb fst snd tm_mon tm_yday tm_wday].
  unfold IsSystemTimeValid in Hv.
  apply andb_true_iff in Hv as [Hv Hdow]. apply Z.eqb_eq in Hdow.
  destruct (IsSystemTimeValid_IgnoreDayOfWeek_fields _ Hv) as (Hdate & _).
  pose proof Hdate as Hdate'.
  apply IsDateValid_iff in Hdate' as (Hy & Hm & Hd).
  pose proof (IsYearValid_range _ Hy) as Hyr.
  assert (Hj : GetDayOfWeek 1 1 (wYear st)
               = (dow_base 1 (wYear st) + 1) mod 7)
    by (apply GetDayOfWeek_valid; auto; lia).
  pose proof (month_length_range (IsLeapYear (wYear st)) _ Hm) as Hlen.
  rewrite Hdow, Hj.
  rewrite (GetDayOfWeek_valid _ _ _ Hy Hm) by lia.
  clear Hdow Hj Hdate Hv Hlen.
  set (d := wDay st) in *. set (y := wYear st) in *.
  set (m := wMonth st) in *. clearbody d y m.
  rewrite (s32_id (m - 1)) by (unfold is_s32; lia).
  unfold month_length, dow_base in *.
  destruct (IsLeapYear y) eqn:Hleap;
    [apply IsLeapYear_true in Hleap | apply IsLeapYear_false in Hleap];
    cbn [andb] in *;
    each_month m Hm;
    repeat match goal with
    | |- context [days_before ?l ?n] =>
        let v := eval vm_compute in (days_before l n) in
        change (days_before l n) with v
    | H : context [nth ?n ?l 0] |- _ =>
        let v := eval vm_compute in (nth n l 0) in
        change (nth n l 0) with v in H
    | H : context [Z.eqb ?a ?b] |- _ =>
        let v := eval vm_compute in (Z.eqb a b) in
        change (Z.eqb a b) with v in H
    end;
    eval_tables; cbv iota in *;
    rewrite ?(s32_id (_ + d)) by (unfold is_s32; lia);
    rewrite ?(s32_id (_ + d - 1)) by (unfold is_s32; lia);
    rewrite ?(s32_id (_ + d - 1 + 1)) by (unfold is_s32; lia);
    (split; [reflexivity |]); (split; [lia |]); (split; [lia |]);
    (split; [lia |]);
    Z.to_euclidean_division_equations; lia.
Qed.

(** Wednesday 2014-12-31, the last day of a common year. *)
Lemma SystemTimeToTm_day_of_year_witness :
  tm_yday (snd (SystemTimeToTm new_years_eve_2014 false
                  (mkTm 0 0 0 0 0 0 0 0 0)))
  = days_before (IsLeapYear 2014) 11 + 31 - 1.
Proof.
  destruct (proj2 (SystemTimeToTm_day_of_year new_years_eve_2014 false
                     (mkTm 0 0 0 0 0 0 0 0 0)) eq_refl)
    as (_ & _ & H & _).
  exact H.
Defined.

(** ** More on transition rules *)

Lemma wf_SYSTEMTIME_nonneg st :
  wf_SYSTEMTIME st ->
  0 <= wYear st /\ 0 <= wMonth st /\ 0 <= wDayOfWeek st /\ 0 <= wDay st.
Proof. unfold wf_SYSTEMTIME, is_u16. intuition lia. Qed.

Lemma IsAbsoluteTimezoneTimeValid_not_relative tzt :
  IsAbsoluteTimezoneTimeValid tzt = true ->
  IsRelativeTimezoneTimeValid tzt = false
  /\ IsTimezoneTimeIgnored tzt = false.
Proof.
  unfold IsAbsoluteTimezoneTimeValid. intros H.
  apply IsSystemTimeValid_IgnoreDayOfWeek_fields in H as (Hd & _).
  apply IsDateValid_iff in Hd as (Hy & Hm & _).
  apply IsYearValid_range in Hy.
  unfold IsRelativeTimezoneTimeValid, IsTimezoneTimeIgnored.
  destruct (Z.eqb_spec (wYear tzt) 0); [lia |].
  destruct (Z.eqb_spec (wMonth tzt) 0); [lia |]. auto.
Qed.

(** The result of [TimezoneTimeToLocalTime] on an absolute time. *)
Lemma TimezoneTimeToLocalTime_absolute tzt y l0 :
  IsAbsoluteTimezoneTimeValid tzt = true ->
  TimezoneTimeToLocalTime tzt y l0
  = (true, set_wDayOfWeek tzt
             (GetDayOfWeek (wDay tzt) (wMonth tzt) (wYear tzt))).
Proof.
  intros H. unfold TimezoneTimeToLocalTime.
  destruct (IsAbsoluteTimezoneTimeValid_not_relative _ H) as [-> _].
  cbn [negb]. now rewrite H.
Qed.

Lemma IsSystemTimeValid_set_wDayOfWeek st :
  IsSystemTimeValid_IgnoreDayOfWeek st = true ->
  IsSystemTimeValid
    (set_wDayOfWeek st (GetDayOfWeek (wDay st) (wMonth st) (wYear st)))
  = true.
Proof.
  intros H. unfold IsSystemTimeValid.
  unfold IsSystemTimeValid_IgnoreDayOfWeek, set_wDayOfWeek in *.
  cbn [wYear wMonth wDayOfWeek wDay wHour wMinute wSecond wMilliseconds].
  rewrite H. apply Z.eqb_refl.
Qed.

Lemma TimezoneTimeToLocalTime_valid_result tzt y l0 l :
  wf_SYSTEMTIME tzt ->
  TimezoneTimeToLocalTime tzt y l0 = (true, l) ->
  IsSystemTimeValid l = true.
Proof.
  intros Hwf E.
  destruct (wf_SYSTEMTIME_nonneg _ Hwf) as (_ & _ & Hw0 & _).
  destruct (IsRelativeTimezoneTimeValid tzt) eqn:Hrel.
  - destruct (IsYearValid y) eqn:Hy.
    + destruct (TimezoneTimeToLocalTime_relative tzt y l0 Hw0 Hrel Hy)
        as (E' & Hd & Hdow).
      rewrite E' in E. injection E as <-.
      unfold IsRelativeTimezoneTimeValid in Hrel.
      rewrite !andb_true_iff in Hrel.
      destruct Hrel as ((((_ & Hh) & Hmi) & Hs) & Hms).
      unfold IsSystemTimeValid, IsSystemTimeValid_IgnoreDayOfWeek,
        set_wYear, set_wDay.
      cbn [wYear wMonth wDayOfWeek wDay wHour wMinute wSecond wMilliseconds].
      rewrite Hd, Hh, Hmi, Hs, Hms, Hdow. cbn [andb]. apply Z.eqb_refl.
    + unfold TimezoneTimeToLocalTime in E. rewrite Hrel, Hy in E.
      discriminate.
  - unfold TimezoneTimeToLocalTime in E. rewrite Hrel in E. cbn [negb] in E.
    destruct (IsAbsoluteTimezoneTimeValid tzt) eqn:Habs; [| discriminate].
    injection E as <-. now apply IsSystemTimeValid_set_wDayOfWeek.
Qed.

(** X9: [TimezoneTimeToLocalTime] succeeds exactly on a valid relative time
    with a supported [tzt_year] and on a valid absolute time, two cases that
    exclude each other; a time with [wMonth] 0 is never converted.  When it
    fails [local] is left as it was, and when it succeeds [local] is a
    calendar time that [IsSystemTimeValid] accepts, day of the week
    included. *)
Theorem TimezoneTimeToLocalTime_success
  (tzt local : SYSTEMTIME) (tzt_year : Z) :
  wf_SYSTEMTIME tzt ->
  (fst (TimezoneTimeToLocalTime tzt tzt_year local) = true <->
   (IsRelativeTimezoneTimeValid tzt = true /\ IsYearValid tzt_year = true)
   \/ IsAbsoluteTimezoneTimeValid tzt = true)
  /\ ~ (IsRelativeTimezoneTimeValid tzt = true
        /\ IsAbsoluteTimezoneTimeValid tzt = true)
  /\ (IsTimezoneTimeIgnored tzt = true ->
      fst (TimezoneTimeToLocalTime tzt tzt_year local) = false)
  /\ (fst (TimezoneTimeToLocalTime tzt tzt_year local) = false ->
      snd (TimezoneTimeToLocalTime tzt tzt_year local) = local)
  /\ (fst (TimezoneTimeToLocalTime tzt tzt_year local) = true ->
      IsSystemTimeValid (snd (TimezoneTimeToLocalTime tzt tzt_year local))
      = true).
Proof.
  intros Hwf.
  assert (Hex : ~ (IsRelativeTimezoneTimeValid tzt = true
                   /\ IsAbsoluteTimezoneTimeValid tzt = true)).
  { intros [Hr Ha].
    destruct (IsAbsoluteTimezoneTimeValid_not_relative _ Ha). congruence. }
  assert (Hig : IsTimezoneTimeIgnored tzt = true ->
                IsRelativeTimezoneTimeValid tzt = false
                /\ IsAbsoluteTimezoneTimeValid tzt = false).
  { intros Hi. split.
    - destruct (IsRelativeTimezoneTimeValid tzt) eqn:Hr; [| reflexivity].
      apply IsRelativeTimezoneTimeValid_fields in Hr.
      unfold IsTimezoneTimeIgnored in Hi. apply Z.eqb_eq in Hi. lia.
    - destruct (IsAbsoluteTimezoneTimeValid tzt) eqn:Ha; [| reflexivity].
      destruct (IsAbsoluteTimezoneTimeValid_not_relative _ Ha). congruence. }
  split; [| split; [exact Hex | split; [| split]]].
  - unfold TimezoneTimeToLocalTime.
    destruct (IsRelativeTimezoneTimeValid tzt) eqn:Hr; cbn [negb].
    + destruct (IsYearValid tzt_year); cbn [negb fst].
      * split; [auto | reflexivity].
      * split; [discriminate |].
        intros [[_ H] | H]; [discriminate | exfalso; apply Hex; auto].
    + destruct (IsAbsoluteTimezoneTimeValid tzt); cbn [fst].
      * split; [auto | reflexivity].
      * split; [discriminate |].
        intros [[H _] | H]; discriminate.
  - intros Hi. destruct (Hig Hi) as [Hr Ha].
    unfold TimezoneTimeToLocalTime. rewrite Hr, Ha. reflexivity.
  - unfold TimezoneTimeToLocalTime.
    destruct (IsRelativeTimezoneTimeValid tzt); cbn [negb].
    + destruct (IsYearValid tzt_year); cbn [negb fst snd];
        [discriminate | reflexivity].
    + destruct (IsAbsoluteTimezoneTimeValid tzt); cbn [fst snd];
        [discriminate | reflexivity].
  - intros Hs.
    destruct (TimezoneTimeToLocalTime tzt tzt_year local) as [ok l] eqn:E.
    cbn [fst snd] in *. subst ok.
    exact (TimezoneTimeToLocalTime_valid_result _ _ _ _ Hwf E).
Qed.

(** The second Sunday of March, for 2015. *)
Lemma TimezoneTimeToLocalTime_success_witness :
  IsSystemTimeValid
    (snd (TimezoneTimeToLocalTime second_sunday_of_march 2015
                                  zero_SYSTEMTIME)) = true.
Proof.
  refine (proj2 (proj2 (proj2 (proj2
            (TimezoneTimeToLocalTime_success second_sunday_of_march
               zero_SYSTEMTIME 2015 _)))) _).
  - vm_compute. intuition discriminate.
  - reflexivity.
Defined.

(** The members of the date that a relative time converts to. *)
Lemma TimezoneTimeToLocalTime_relative_result
  (tzt local : SYSTEMTIME) (tzt_year : Z) :
  wf_SYSTEMTIME tzt ->
  IsRelativeTimezoneTimeValid tzt = true ->
  IsYearValid tzt_year = true ->
  let r := snd (TimezoneTimeToLocalTime tzt tzt_year local) in
  fst (TimezoneTimeToLocalTime tzt tzt_year local) = true
  /\ wYear r = tzt_year /\ wMonth r = wMonth tzt
  /\ wHour r = wHour tzt /\ wMinute r = wMinute tzt
  /\ wSecond r = wSecond tzt /\ wMilliseconds r = wMilliseconds tzt
  /\ wDayOfWeek r = wDayOfWeek tzt
  /\ GetDayOfWeek (wDay r) (wMonth r) (wYear r) = wDayOfWeek tzt
  /\ IsDateValid (wDay r) (wMonth r) (wYear r) = true
  /\ (wDay tzt <= 4 -> 7 * (wDay tzt - 1) < wDay r <= 7 * wDay tzt)
  /\ (wDay tzt = 5 ->
      21 < wDay r /\ IsDateValid (wDay r + 7) (wMonth r) (wYear r) = false).
Proof.
  intros Hwf Hrel Hy.
  destruct (wf_SYSTEMTIME_nonneg _ Hwf) as (_ & _ & Hw0 & _).
  destruct (TimezoneTimeToLocalTime_relative tzt tzt_year local Hw0 Hrel Hy)
    as (E & Hd & Hdow).
  rewrite E. cbv zeta. cbn [fst snd]. unfold set_wYear, set_wDay.
  cbn [wYear wMonth wDayOfWeek wDay wHour wMinute wSecond wMilliseconds].
  destruct (IsRelativeTimezoneTimeValid_fields _ Hrel) as (_ & Hm & Hw & Hk).
  pose proof (month_length_range (IsLeapYear tzt_year) _ Hm) as Hlen.
  repeat (split; [reflexivity || assumption |]).
  unfold relative_day, occurrence_day in *.
  pose proof (Z.mod_pos_bound
                (wDayOfWeek tzt - GetDayOfWeek 1 (wMonth tzt) tzt_year) 7
                ltac:(lia)) as Hmod.
  set (f := (wDayOfWeek tzt - GetDayOfWeek 1 (wMonth tzt) tzt_year) mod 7)
    in *.
  destruct (IsDateValid (f + 1 + 7 * (wDay tzt - 1)) (wMonth tzt) tzt_year)
    eqn:Hv.
  - split; [lia |]. intros H5. split; [lia |].
    destruct (IsDateValid (f + 1 + 7 * (wDay tzt - 1) + 7) (wMonth tzt)
                          tzt_year) eqn:Hv7; [| reflexivity].
    apply IsDateValid_iff in Hv7. lia.
  - assert (Hbig : month_length (IsLeapYear tzt_year) (wMonth tzt)
                   < f + 1 + 7 * (wDay tzt - 1)).
    { destruct (Z.ltb_spec (month_length (IsLeapYear tzt_year) (wMonth tzt))
                           (f + 1 + 7 * (wDay tzt - 1))); auto.
      assert (IsDateValid (f + 1 + 7 * (wDay tzt - 1)) (wMonth tzt) tzt_year
              = true)
        by (apply IsDateValid_iff; repeat split; auto; lia).
      congruence. }
    split; [lia |]. intros H5. split; [lia |].
    replace (f + 1 + 7 * (wDay tzt - 1) - 7 + 7)
      with (f + 1 + 7 * (wDay tzt - 1)) by lia.
    exact Hv.
Qed.

(** X10: for a valid relative time and a supported year, the date that
    [TimezoneTimeToLocalTime] returns is in the month of the rule and in
    [tzt_year], keeps the time of day of the rule, and falls on the weekday
    of the rule.  For an occurrence 1 to 4 it is that occurrence, a day in
    [7 * (wDay - 1) + 1 .. 7 * wDay]; for the occurrence 5 it is the last
    such weekday of the month: seven days later the month is over. *)
Theorem TimezoneTimeToLocalTime_nth_weekday
  (tzt local : SYSTEMTIME) (tzt_year : Z) :
  wf_SYSTEMTIME tzt ->
  IsRelativeTimezoneTimeValid tzt = true ->
  IsYearValid tzt_year = true ->
  let r := snd (TimezoneTimeToLocalTime tzt tzt_year local) in
  fst (TimezoneTimeToLocalTime tzt tzt_year local) = true
  /\ wYear r = tzt_year /\ wMonth r = wMonth tzt
  /\ wHour r = wHour tzt /\ wMinute r = wMinute tzt
  /\ wSecond r = wSecond tzt /\ wMilliseconds r = wMilliseconds tzt
  /\ wDayOfWeek r = wDayOfWeek tzt
  /\ GetDayOfWeek (wDay r) (wMonth r) (wYear r) = wDayOfWeek tzt
  /\ IsDateValid (wDay r) (wMonth r) (wYear r) = true
  /\ (wDay tzt <= 4 -> 7 * (wDay tzt - 1) < wDay r <= 7 * wDay tzt)
  /\ (wDay tzt = 5 ->
      21 < wDay r /\ IsDateValid (wDay r + 7) (wMonth r) (wYear r) = false).
Proof. exact (TimezoneTimeToLocalTime_relative_result tzt local tzt_year). Qed.

(** The fifth Sunday of February 2015 is the fourth, the 22nd. *)
Lemma TimezoneTimeToLocalTime_nth_weekday_witness :
  21 < wDay (snd (TimezoneTimeToLocalTime (mkST 0 2 0 5 2 0 0 0) 2015
                                          zero_SYSTEMTIME))
  /\ IsDateValid
       (wDay (snd (TimezoneTimeToLocalTime (mkST 0 2 0 5 2 0 0 0) 2015
                                           zero_SYSTEMTIME)) + 7)
       2 2015 = false.
Proof.
  refine (proj2 (proj2 (proj2 (proj2 (proj2 (proj2 (proj2 (proj2 (proj2
            (proj2 (proj2
               (TimezoneTimeToLocalTime_nth_weekday (mkST 0 2 0 5 2 0 0 0)
                  zero_SYSTEMTIME 2015 _ eq_refl eq_refl))))))))))) eq_refl).
  vm_compute. intuition discriminate.
Defined.

Lemma IsSystemTimeValid_absolute st :
  IsSystemTimeValid st = true ->
  IsAbsoluteTimezoneTimeValid st = true
  /\ wDayOfWeek st = GetDayOfWeek (wDay st) (wMonth st) (wYear st).
Proof.
  unfold IsSystemTimeValid, IsAbsoluteTimezoneTimeValid.
  rewrite andb_true_iff, Z.eqb_eq. tauto.
Qed.

(** X11: what [TimezoneTimeToLocalTime] returns is a fixed point of the
    conversion: converted again, for any year at all, it comes back
    unchanged.  In particular an absolute time is converted without regard
    to [tzt_year]. *)
Theorem TimezoneTimeToLocalTime_idempotent
  (tzt local local' : SYSTEMTIME) (tzt_year tzt_year' : Z) :
  wf_SYSTEMTIME tzt ->
  fst (TimezoneTimeToLocalTime tzt tzt_year local) = true ->
  TimezoneTimeToLocalTime
    (snd (TimezoneTimeToLocalTime tzt tzt_year local)) tzt_year' local'
  = (true, snd (TimezoneTimeToLocalTime tzt tzt_year local))
  /\ (IsAbsoluteTimezoneTimeValid tzt = true ->
      TimezoneTimeToLocalTime tzt tzt_year' local
      = TimezoneTimeToLocalTime tzt tzt_year local).
Proof.
  intros Hwf Hs.
  destruct (TimezoneTimeToLocalTime tzt tzt_year local) as [ok l] eqn:E.
  cbn [fst snd] in *. subst ok.
  pose proof (TimezoneTimeToLocalTime_valid_result _ _ _ _ Hwf E) as Hv.
  destruct (IsSystemTimeValid_absolute _ Hv) as [Ha Hdow].
  split.
  - rewrite (TimezoneTimeToLocalTime_absolute _ _ _ Ha), <- Hdow.
    destruct l; reflexivity.
  - intros Habs. rewrite <- E.
    now rewrite !(TimezoneTimeToLocalTime_absolute _ _ _ Habs).
Qed.

(** The second Sunday of March, for 2015 and again for 1999. *)
Lemma TimezoneTimeToLocalTime_idempotent_witness :
  TimezoneTimeToLocalTime (mkST 2015 3 0 8 2 0 0 0) 1999 zero_SYSTEMTIME
  = (true, mkST 2015 3 0 8 2 0 0 0).
Proof.
  refine (proj1 (TimezoneTimeToLocalTime_idempotent second_sunday_of_march
                   zero_SYSTEMTIME zero_SYSTEMTIME 2015 1999 _ eq_refl)).
  vm_compute. intuition discriminate.
Defined.

(** ** More on [LocalTimeToRelativeTimezoneTime] *)

(** X12: [LocalTimeToRelativeTimezoneTime] refuses exactly the times that
    [IsSystemTimeValid_IgnoreDayOfWeek] refuses and then writes nothing.
    Otherwise it returns [true] and [tzt] is a valid relative time with the
    month and the time of day of [local], whose occurrence is
    [ceil (wDay / 7)], and 5 exactly when the day is after the 28th or the
    flag is set, the day is after the 21st and no later day of the month
    falls on the weekday.  When [tzt] is an object of its own, [local] is
    left as it was and the weekday of [tzt] is that of the date, whatever
    [wDayOfWeek] was passed in.  When [tzt] is [local] itself, the weekday
    is that of the day of the month whose number is the occurrence. *)
Theorem LocalTimeToRelativeTimezoneTime_result {M : Type}
  (local tzt : ref M SYSTEMTIME) (flag : bool) (m : M) :
  let d := load local m in
  let written (r : SYSTEMTIME) :=
    IsRelativeTimezoneTimeValid r = true
    /\ wMonth r = wMonth d /\ wHour r = wHour d /\ wMinute r = wMinute d
    /\ wSecond r = wSecond d /\ wMilliseconds r = wMilliseconds d
    /\ (wDay r <= 4 -> 7 * (wDay r - 1) < wDay d <= 7 * wDay r)
    /\ (wDay r = 5 <->
        28 < wDay d
        \/ (flag = true /\ 21 < wDay d
            /\ IsDateValid (wDay d + 7) (wMonth d) (wYear d) = false)) in
  (IsSystemTimeValid_IgnoreDayOfWeek d = false ->
   LocalTimeToRelativeTimezoneTime local flag tzt m = (false, m))
  /\ (IsSystemTimeValid_IgnoreDayOfWeek d = true ->
      holds tzt -> unaffected local tzt ->
      exists m',
        LocalTimeToRelativeTimezoneTime local flag tzt m = (true, m')
        /\ load local m' = d
        /\ written (load tzt m')
        /\ wDayOfWeek (load tzt m')
           = GetDayOfWeek (wDay d) (wMonth d) (wYear d))
  /\ (IsSystemTimeValid_IgnoreDayOfWeek d = true ->
      holds local ->
      exists m',
        LocalTimeToRelativeTimezoneTime local flag local m = (true, m')
        /\ written (load local m')
        /\ wDayOfWeek (load local m')
           = GetDayOfWeek (wDay (load local m')) (wMonth d) (wYear d)).
Proof.
  cbv zeta. set (d := load local m).
  assert (Hw : IsSystemTimeValid_IgnoreDayOfWeek d = true ->
               forall dow,
                 0 <= dow <= 6 ->
                 let r :=
                   mkST 0 (wMonth d) dow
                     (if ((wDay d - 1) / 7 + 1 =? 4)
                         && negb (IsDateValid (wDay d + 7) (wMonth d)
                                              (wYear d))
                         && flag
                      then 5 else (wDay d - 1) / 7 + 1)
                     (wHour d) (wMinute d) (wSecond d) (wMilliseconds d) in
                 IsRelativeTimezoneTimeValid r = true
                 /\ wMonth r = wMonth d /\ wHour r = wHour d
                 /\ wMinute r = wMinute d
                 /\ wSecond r = wSecond d
                 /\ wMilliseconds r = wMilliseconds d
                 /\ (wDay r <= 4 -> 7 * (wDay r - 1) < wDay d <= 7 * wDay r)
                 /\ (wDay r = 5 <->
                     28 < wDay d
                     \/ (flag = true /\ 21 < wDay d
                         /\ IsDateValid (wDay d + 7) (wMonth d) (wYear d)
                            = false))).
  { intros Hv dow Hdow. cbv zeta.
    cbn [wYear wMonth wDayOfWeek wDay wHour wMinute wSecond wMilliseconds].
    destruct (IsSystemTimeValid_IgnoreDayOfWeek_fields _ Hv)
      as (Hdate & Hh & Hmi & Hs & Hms).
    pose proof Hdate as Hdate'.
    apply IsDateValid_iff in Hdate' as (Hy & Hm & Hd).
    pose proof (month_length_range (IsLeapYear (wYear d)) _ Hm) as Hlen.
    assert (Hocc : 1 <= (wDay d - 1) / 7 + 1 <= 5)
      by (Z.to_euclidean_division_equations; lia).
    split.
    { unfold IsRelativeTimezoneTimeValid.
      cbn [wYear wMonth wDayOfWeek wDay wHour wMinute wSecond wMilliseconds].
      rewrite !andb_true_iff, !Z.leb_le, Z.eqb_eq.
      destruct (_ && _); lia. }
    repeat (split; [reflexivity |]).
    destruct (Z.eqb_spec ((wDay d - 1) / 7 + 1) 4) as [E4 | E4];
      cbn [andb].
    - destruct (IsDateValid (wDay d + 7) (wMonth d) (wYear d)) eqn:Hv7;
        cbn [negb andb]; [| destruct flag];
        (split; [intros; Z.to_euclidean_division_equations; lia |]);
        (split; [intros H5 |
                 intros [H28 | (Hf & H21 & H7)]; try discriminate;
                 try reflexivity;
                 Z.to_euclidean_division_equations; lia]);
        try lia.
      right. repeat split. Z.to_euclidean_division_equations; lia.
    - split; [intros; Z.to_euclidean_division_equations; lia |].
      split.
      + intros H5. left. Z.to_euclidean_division_equations; lia.
      + intros [H28 | (Hf & H21 & H7)];
          Z.to_euclidean_division_equations; lia. }
  split; [| split].
  - intros Hv. unfold LocalTimeToRelativeTimezoneTime. fold d.
    now rewrite Hv.
  - intros Hv Hh Hu.
    destruct (LocalTimeToRelativeTimezoneTime_unfold local tzt flag m Hv)
      as (_ & H & _).
    destruct (H Hh Hu) as (m' & E & Et & El). fold d in Et, El.
    exists m'. rewrite Et.
    split; [exact E |]. split; [exact El |].
    split; [| reflexivity].
    apply (Hw Hv). apply GetDayOfWeek_range.
  - intros Hv Hh.
    destruct (LocalTimeToRelativeTimezoneTime_unfold local tzt flag m Hv)
      as (_ & _ & H).
    destruct (H Hh) as (m' & E & Et). fold d in Et.
    exists m'. rewrite Et.
    split; [exact E |].
    split; [| reflexivity].
    apply (Hw Hv). apply GetDayOfWeek_range.
Qed.

(** 2015-02-22T02:00 with a day of the week that is not its own: written to
    a second object the rule is the last Sunday of February. *)
Lemma LocalTimeToRelativeTimezoneTime_result_witness :
  exists m',
    LocalTimeToRelativeTimezoneTime first_time true second_time
      (mkST 2015 2 4 22 2 0 0 0, zero_SYSTEMTIME) = (true, m')
    /\ wDay (load second_time m') = 5
    /\ wDayOfWeek (load second_time m') = 0.
Proof.
  destruct (proj1 (proj2 (LocalTimeToRelativeTimezoneTime_result
                            first_time second_time true
                            (mkST 2015 2 4 22 2 0 0 0, zero_SYSTEMTIME))))
    as (m' & E & _ & (_ & _ & _ & _ & _ & _ & _ & H5) & Hw);
    [reflexivity | intros v m; reflexivity | intros v m; reflexivity |].
  exists m'. split; [exact E |]. split; [| exact Hw].
  apply H5. right. split; [reflexivity | split; reflexivity].
Defined.

(** X13: a valid relative time, converted to the date of a supported year
    and converted back, into an object of its own, with the flag set
    exactly when its occurrence is 5, is the relative time again, every
    member included, and the date is left as it was.  Converted back in
    place, the second Sunday of March comes back through 2015 as the second
    Monday. *)
Theorem TimezoneTimeToLocalTime_round_trip :
  (forall (M : Type) (local out : ref M SYSTEMTIME) (m : M)
          (tzt local0 : SYSTEMTIME) (tzt_year : Z),
     wf_SYSTEMTIME tzt ->
     IsRelativeTimezoneTimeValid tzt = true ->
     IsYearValid tzt_year = true ->
     holds out -> unaffected local out ->
     load local m = snd (TimezoneTimeToLocalTime tzt tzt_year local0) ->
     exists m',
       LocalTimeToRelativeTimezoneTime local (wDay tzt =? 5) out m
       = (true, m')
       /\ load out m' = tzt
       /\ load local m' = load local m)
  /\ TimezoneTimeToLocalTime second_sunday_of_march 2015 zero_SYSTEMTIME
     = (true, mkST 2015 3 0 8 2 0 0 0)
  /\ LocalTimeToRelativeTimezoneTime the_time false the_time
       (mkST 2015 3 0 8 2 0 0 0)
     = (true, mkST 0 3 1 2 2 0 0 0).
Proof.
  split; [| split; vm_compute; reflexivity].
  intros M local out m tzt local0 tzt_year Hwf Hrel Hy Hh Hu El.
  destruct (TimezoneTimeToLocalTime_relative_result tzt local0 tzt_year
              Hwf Hrel Hy)
    as (Hs & Eyear & Emonth & Eh & Emi & Es & Ems & Ew & Edow & Hd & H4 & H5).
  cbv zeta in *.
  destruct (TimezoneTimeToLocalTime tzt tzt_year local0) as [ok l] eqn:E.
  cbn [fst snd] in *. subst ok.
  pose proof (TimezoneTimeToLocalTime_valid_result _ _ _ _ Hwf E) as Hv.
  destruct (IsSystemTimeValid_absolute _ Hv) as [Ha _].
  rewrite <- El in Ha.
  destruct (LocalTimeToRelativeTimezoneTime_unfold local out (wDay tzt =? 5)
              m Ha) as (Hocc & H & _).
  destruct (H Hh Hu) as (m' & E' & Et & El').
  rewrite El in Hocc, Et.
  exists m'. split; [exact E' |]. split; [| exact El'].
  rewrite Et.
  destruct (IsRelativeTimezoneTimeValid_fields _ Hrel) as (Y0 & Hm & Hw & Hk).
  assert (Eocc :
    (if ((wDay l - 1) / 7 + 1 =? 4)
        && negb (IsDateValid (wDay l + 7) (wMonth l) (wYear l))
        && (wDay tzt =? 5)
     then 5 else (wDay l - 1) / 7 + 1) = wDay tzt).
  { destruct (Z.eqb_spec (wDay tzt) 5) as [K5 | K5].
    - destruct (H5 K5) as [H21 H7]. rewrite H7. cbn [negb].
      rewrite !andb_true_r.
      destruct (Z.eqb_spec ((wDay l - 1) / 7 + 1) 4); [lia |].
      Z.to_euclidean_division_equations; lia.
    - rewrite andb_false_r.
      assert (K4 : wDay tzt <= 4) by lia. specialize (H4 K4).
      Z.to_euclidean_division_equations; lia. }
  rewrite Eocc, Edow, Emonth, Eh, Emi, Es, Ems, <- Y0.
  destruct tzt; reflexivity.
Qed.

(** The last Sunday of February, through 2015, with the date in one object
    and the rule written to another. *)
Lemma TimezoneTimeToLocalTime_round_trip_witness :
  exists m',
    LocalTimeToRelativeTimezoneTime first_time true second_time
      (mkST 2015 2 0 22 2 0 0 0, zero_SYSTEMTIME) = (true, m')
    /\ load second_time m' = mkST 0 2 0 5 2 0 0 0.
Proof.
  destruct (proj1 TimezoneTimeToLocalTime_round_trip
              (SYSTEMTIME * SYSTEMTIME)%type first_time second_time
              (mkST 2015 2 0 22 2 0 0 0, zero_SYSTEMTIME)
              (mkST 0 2 0 5 2 0 0 0) zero_SYSTEMTIME 2015)
    as (m' & E & Et & _);
    [vm_compute; intuition discriminate | reflexivity | reflexivity
    | intros v m; reflexivity | intros v m; reflexivity | reflexivity |].
  exists m'. split; [exact E | exact Et].
Defined.
(** ** More on resolving a local time *)

Section ResolutionFacts.

Variable NDEBUG : bool.
Variable SystemTimeToFileTime : SYSTEMTIME -> option FILETIME.
Variable FileTimeToSystemTime : FILETIME -> option SYSTEMTIME.
Variable pfnGetDynamicTimeZoneInformation
  : option (Z * DYNAMIC_TIME_ZONE_INFORMATION).
Variable pfnGetTimeZoneInformationForYear
  : option (Z -> DYNAMIC_TIME_ZONE_INFORMATION -> option TIME_ZONE_INFORMATION).
Variable GetTimeZoneInformation : Z * TIME_ZONE_INFORMATION.

(** The functions of [Platform] on the variables of this section. *)
Local Abbreviation subtract_minutes :=
  (SystemTimeSubtractMinutes SystemTimeToFileTime FileTimeToSystemTime).
Local Abbreviation local_time_for_timezone :=
  (GetLocalTimeForTimezone NDEBUG SystemTimeToFileTime FileTimeToSystemTime).
Local Abbreviation passes :=
  (passes_debug_block NDEBUG SystemTimeToFileTime FileTimeToSystemTime).
Local Abbreviation timezone_for_year :=
  (GetTimezoneForYear pfnGetDynamicTimeZoneInformation
     pfnGetTimeZoneInformationForYear GetTimeZoneInformation).

Ltac split_test :=
  match goal with
  | |- context [match ?x with _ => _ end] =>
      lazymatch x with
      | context [match _ with _ => _ end] => fail
      | _ => destruct x eqn:?
      end
  end.

(** The result of a call that does not fail, with the bias that goes with
    the id returned. *)
Lemma GetLocalTimeForTimezone_pairs lt tzi utc_st tzi_year strict id out :
  IsYearValid (effective_year utc_st tzi_year) = true ->
  local_time_for_timezone lt tzi utc_st tzi_year strict
  = Returned (id, out) ->
  id <> TIME_ZONE_ID_INVALID ->
  IsTimezoneInfoValid tzi true = true
  /\ ((id = TIME_ZONE_ID_UNKNOWN
       /\ subtract_minutes utc_st (Bias tzi) = (true, out))
      \/ (id = TIME_ZONE_ID_STANDARD
          /\ subtract_minutes utc_st (s32 (Bias tzi + StandardBias tzi))
             = (true, out))
      \/ (id = TIME_ZONE_ID_DAYLIGHT
          /\ subtract_minutes utc_st (s32 (Bias tzi + DaylightBias tzi))
             = (true, out))).
Proof.
  unfold GetLocalTimeForTimezone, effective_year.
  cbv zeta. intros ->. cbn [negb].
  destruct (IsTimezoneInfoValid tzi true); cbn [negb];
    [| intros E; injection E as <- <-; congruence].
  destruct (SystemTimeSubtractMinutes _ _ utc_st (Bias tzi))
    as [[] unk]; [| intros E; injection E as <- <-; congruence].
  destruct (SystemTimeSubtractMinutes _ _ utc_st
              (s32 (Bias tzi + StandardBias tzi)))
    as [[] std]; [| intros E; injection E as <- <-; congruence].
  destruct (SystemTimeSubtractMinutes _ _ utc_st
              (s32 (Bias tzi + DaylightBias tzi)))
    as [[] dl]; [| intros E; injection E as <- <-; congruence].
  repeat first [rewrite debug_block_cases | split_test];
    try (intros E; injection E as <- <-; congruence);
    try discriminate;
    match goal with
    | |- Returned (COPY_TO_local_time ?s ?y ?n ?i) = _ -> _ =>
        destruct (COPY_TO_local_time_cases s y n i) as [-> | [-> _]];
        intros E; injection E as <- <-; [congruence | auto 6]
    end.
Qed.

(** X14: for a supported target year, a call of [GetLocalTimeForTimezone]
    that does not return [TIME_ZONE_ID_INVALID] was given a rule set that
    [IsTimezoneInfoValid] accepts, returns one of the three other ids, and
    the local time it writes is the UTC time less the bias that goes with
    the id: [Bias] for unknown, [Bias + StandardBias] for standard and
    [Bias + DaylightBias] for daylight.  In strict mode that local time is
    in the target year. *)
Theorem GetLocalTimeForTimezone_result
  (local_time utc_st out : SYSTEMTIME) (tzi : TIME_ZONE_INFORMATION)
  (tzi_year id : Z) (strict : bool) :
  IsYearValid (effective_year utc_st tzi_year) = true ->
  local_time_for_timezone local_time tzi utc_st tzi_year strict
  = Returned (id, out) ->
  id <> TIME_ZONE_ID_INVALID ->
  IsTimezoneInfoValid tzi true = true
  /\ ((id = TIME_ZONE_ID_UNKNOWN
       /\ subtract_minutes utc_st (Bias tzi) = (true, out))
      \/ (id = TIME_ZONE_ID_STANDARD
          /\ subtract_minutes utc_st (s32 (Bias tzi + StandardBias tzi))
             = (true, out))
      \/ (id = TIME_ZONE_ID_DAYLIGHT
          /\ subtract_minutes utc_st (s32 (Bias tzi + DaylightBias tzi))
             = (true, out)))
  /\ (strict = true -> wYear out = effective_year utc_st tzi_year).
Proof.
  intros Hy E Hid.
  destruct (GetLocalTimeForTimezone_pairs _ _ _ _ _ _ _ Hy E Hid) as [H1 H2].
  repeat split; auto.
  intros ->.
  exact (GetLocalTimeForTimezone_strict_year _ _ _ _ _ _ _ _ _ Hy E Hid).
Qed.

(** X15: in non-strict mode and for a supported target year, what
    [GetLocalTimeForTimezone] does is decided by its inputs.  It returns
    [TIME_ZONE_ID_INVALID] exactly when the rule set is not valid (ignored
    dates allowed) or one of the three candidate local times cannot be
    computed.  Otherwise both transitions may convert for the year and the
    block under [#ifdef DEBUG_ST] is reached: when the sources are compiled
    without [NDEBUG] and a converted transition cannot be moved by the total
    bias of the other period, the [assert] ends the process; in every other
    case an id other than [TIME_ZONE_ID_INVALID] is returned. *)
Theorem GetLocalTimeForTimezone_non_strict
  (local_time utc_st : SYSTEMTIME) (tzi : TIME_ZONE_INFORMATION)
  (tzi_year : Z) :
  IsYearValid (effective_year utc_st tzi_year) = true ->
  let ready :=
    IsTimezoneInfoValid tzi true = true
    /\ fst (subtract_minutes utc_st (Bias tzi)) = true
    /\ fst (subtract_minutes utc_st (s32 (Bias tzi + StandardBias tzi)))
       = true
    /\ fst (subtract_minutes utc_st (s32 (Bias tzi + DaylightBias tzi)))
       = true in
  let r := local_time_for_timezone local_time tzi utc_st tzi_year false in
  ((exists out, r = Returned (TIME_ZONE_ID_INVALID, out)) <-> ~ ready)
  /\ (r = Aborted <->
      ready /\ passes tzi (effective_year utc_st tzi_year) = false)
  /\ ((exists id out, r = Returned (id, out) /\ id <> TIME_ZONE_ID_INVALID)
      <-> ready /\ passes tzi (effective_year utc_st tzi_year) = true).
Proof.
  intros Hy. cbv zeta.
  assert (Hearly :
    ~ (IsTimezoneInfoValid tzi true = true
       /\ fst (subtract_minutes utc_st (Bias tzi)) = true
       /\ fst (subtract_minutes utc_st (s32 (Bias tzi + StandardBias tzi)))
          = true
       /\ fst (subtract_minutes utc_st (s32 (Bias tzi + DaylightBias tzi)))
          = true) ->
    local_time_for_timezone local_time tzi utc_st tzi_year false
    = Returned (TIME_ZONE_ID_INVALID, local_time)).
  { unfold GetLocalTimeForTimezone, effective_year in *.
    cbv zeta. rewrite Hy. cbn [negb].
    destruct (IsTimezoneInfoValid tzi true); cbn [negb fst];
      [| reflexivity].
    destruct (SystemTimeSubtractMinutes _ _ utc_st (Bias tzi))
      as [[] unk]; cbn [fst]; [| reflexivity].
    destruct (SystemTimeSubtractMinutes _ _ utc_st
                (s32 (Bias tzi + StandardBias tzi)))
      as [[] std]; cbn [fst]; [| reflexivity].
    destruct (SystemTimeSubtractMinutes _ _ utc_st
                (s32 (Bias tzi + DaylightBias tzi)))
      as [[] dl]; cbn [fst]; [| reflexivity].
    intros H. exfalso. apply H. auto. }
  assert (Haborts :
    IsTimezoneInfoValid tzi true = true ->
    fst (subtract_minutes utc_st (Bias tzi)) = true ->
    fst (subtract_minutes utc_st (s32 (Bias tzi + StandardBias tzi)))
    = true ->
    fst (subtract_minutes utc_st (s32 (Bias tzi + DaylightBias tzi)))
    = true ->
    passes tzi (effective_year utc_st tzi_year) = false ->
    local_time_for_timezone local_time tzi utc_st tzi_year false = Aborted).
  { unfold GetLocalTimeForTimezone, passes_debug_block, effective_year in *.
    cbv zeta. rewrite Hy. cbn [negb andb]. intros ->. cbn [negb].
    destruct (SystemTimeSubtractMinutes _ _ utc_st (Bias tzi))
      as [[] unk]; cbn [fst]; [| discriminate]. intros _.
    destruct (SystemTimeSubtractMinutes _ _ utc_st
                (s32 (Bias tzi + StandardBias tzi)))
      as [[] std]; cbn [fst]; [| discriminate]. intros _.
    destruct (SystemTimeSubtractMinutes _ _ utc_st
                (s32 (Bias tzi + DaylightBias tzi)))
      as [[] dl]; cbn [fst]; [| discriminate]. intros _.
    destruct (TimezoneTimeToLocalTime (StandardDate tzi) _ _) as [[] s];
      [| discriminate].
    destruct (TimezoneTimeToLocalTime (DaylightDate tzi) _ _) as [[] d];
      [| discriminate].
    rewrite debug_block_cases. intros ->. reflexivity. }
  assert (Hresolves :
    IsTimezoneInfoValid tzi true = true ->
    fst (subtract_minutes utc_st (Bias tzi)) = true ->
    fst (subtract_minutes utc_st (s32 (Bias tzi + StandardBias tzi)))
    = true ->
    fst (subtract_minutes utc_st (s32 (Bias tzi + DaylightBias tzi)))
    = true ->
    passes tzi (effective_year utc_st tzi_year) = true ->
    exists id out,
      local_time_for_timezone local_time tzi utc_st tzi_year false
      = Returned (id, out) /\ id <> TIME_ZONE_ID_INVALID).
  { intros Hv Hu Hs Hd Hp.
    destruct (subtract_minutes utc_st (Bias tzi)) as [ok1 unk] eqn:E1.
    destruct (subtract_minutes utc_st (s32 (Bias tzi + StandardBias tzi)))
      as [ok2 std] eqn:E2.
    destruct (subtract_minutes utc_st (s32 (Bias tzi + DaylightBias tzi)))
      as [ok3 dl] eqn:E3.
    cbn [fst] in *. subst.
    exact (GetLocalTimeForTimezone_non_strict_resolves _ _ _ local_time _ _
             _ _ _ _ Hy Hv E1 E2 E3 Hp). }
  destruct (IsTimezoneInfoValid tzi true) eqn:Hv,
           (fst (subtract_minutes utc_st (Bias tzi))) eqn:Hu,
           (fst (subtract_minutes utc_st
                   (s32 (Bias tzi + StandardBias tzi)))) eqn:Hs,
           (fst (subtract_minutes utc_st
                   (s32 (Bias tzi + DaylightBias tzi)))) eqn:Hd;
    try (rewrite Hearly by (intros (F1 & F2 & F3 & F4); congruence);
         split;
         [split; [intros _ (F1 & F2 & F3 & F4); congruence
                 | intros _; eexists; reflexivity] |];
         split;
         [split; [intros F; discriminate F
                 | intros ((F1 & F2 & F3 & F4) & _); congruence] |];
         split;
         [intros (id & out & E & Hid); injection E as <- _; congruence
         | intros ((F1 & F2 & F3 & F4) & _); congruence]).
  assert (Hready : true = true /\ true = true /\ true = true /\ true = true)
    by auto.
  destruct (passes tzi (effective_year utc_st tzi_year)) eqn:Hp.
  - destruct (Hresolves eq_refl eq_refl eq_refl eq_refl eq_refl)
      as (id & out & E & Hid).
    rewrite E.
    split; [split; [intros (out' & E'); injection E' as E' _;
                    contradiction
                   | intros F; contradiction] |].
    split; [split; [intros F; discriminate F
                   | intros (_ & F); discriminate F] |].
    split; [intros _; auto | intros _; eauto].
  - rewrite (Haborts eq_refl eq_refl eq_refl eq_refl eq_refl).
    split; [split; [intros (out' & E'); discriminate E'
                   | intros F; contradiction] |].
    split; [split; [intros _; auto | reflexivity] |].
    split; [intros (id & out & E & _); discriminate E
           | intros (_ & F); discriminate F].
Qed.

Lemma TimezoneTimeToLocalTime_ignored tzt y l0 :
  IsTimezoneTimeIgnored tzt = true ->
  TimezoneTimeToLocalTime tzt y l0 = (false, l0).
Proof.
  unfold IsTimezoneTimeIgnored. rewrite Z.eqb_eq. intros H0.
  unfold TimezoneTimeToLocalTime.
  assert (Hr : IsRelativeTimezoneTimeValid tzt = false).
  { destruct (IsRelativeTimezoneTimeValid tzt) eqn:Hr; [| reflexivity].
    apply IsRelativeTimezoneTimeValid_fields in Hr. lia. }
  assert (Ha : IsAbsoluteTimezoneTimeValid tzt = false).
  { destruct (IsAbsoluteTimezoneTimeValid tzt) eqn:Ha; [| reflexivity].
    unfold IsAbsoluteTimezoneTimeValid in Ha.
    apply IsSystemTimeValid_IgnoreDayOfWeek_fields in Ha as (Hd & _).
    apply IsDateValid_iff in Hd. lia. }
  now rewrite Hr, Ha.
Qed.

Lemma GetLocalTimeForTimezone_ignored lt tzi utc_st tzi_year strict id out :
  IsYearValid (effective_year utc_st tzi_year) = true ->
  IsTimezoneTimeIgnored (StandardDate tzi) = true
  \/ IsTimezoneTimeIgnored (DaylightDate tzi) = true ->
  local_time_for_timezone lt tzi utc_st tzi_year strict
  = Returned (id, out) ->
  id <> TIME_ZONE_ID_INVALID ->
  id = TIME_ZONE_ID_UNKNOWN
  /\ subtract_minutes utc_st (Bias tzi) = (true, out).
Proof.
  unfold GetLocalTimeForTimezone, effective_year.
  cbv zeta. intros -> Hig. cbn [negb].
  destruct (IsTimezoneInfoValid tzi true); cbn [negb];
    [| intros E; injection E as <- <-; congruence].
  destruct (SystemTimeSubtractMinutes _ _ utc_st (Bias tzi))
    as [[] unk]; [| intros E; injection E as <- <-; congruence].
  destruct (SystemTimeSubtractMinutes _ _ utc_st
              (s32 (Bias tzi + StandardBias tzi)))
    as [[] std]; [| intros E; injection E as <- <-; congruence].
  destruct (SystemTimeSubtractMinutes _ _ utc_st
              (s32 (Bias tzi + DaylightBias tzi)))
    as [[] dl]; [| intros E; injection E as <- <-; congruence].
  destruct (strict && _ && _ && _);
    [intros E; injection E as <- <-; congruence |].
  assert (Hcopy : forall y,
    Returned (COPY_TO_local_time strict y unk TIME_ZONE_ID_UNKNOWN)
    = Returned (id, out) ->
    id <> TIME_ZONE_ID_INVALID ->
    id = TIME_ZONE_ID_UNKNOWN /\ (true, unk) = (true, out)).
  { intros y.
    destruct (COPY_TO_local_time_cases strict y unk TIME_ZONE_ID_UNKNOWN)
      as [-> | [-> _]]; intros E; injection E as <- <-;
      [congruence | auto]. }
  destruct Hig as [Hig | Hig].
  - rewrite (TimezoneTimeToLocalTime_ignored _ _ _ Hig). apply Hcopy.
  - rewrite (TimezoneTimeToLocalTime_ignored _ _ _ Hig).
    destruct (TimezoneTimeToLocalTime (StandardDate tzi) _ _) as [[] ls];
      apply Hcopy.
Qed.

(** X16: when a transition date of the rule set is ignored ([wMonth] 0),
    [GetLocalTimeForTimezone] never reports standard or daylight time: for a
    supported target year the result is [TIME_ZONE_ID_INVALID] or
    [TIME_ZONE_ID_UNKNOWN] with the UTC time less [Bias] alone. *)
Theorem GetLocalTimeForTimezone_ignored_dates
  (local_time utc_st out : SYSTEMTIME) (tzi : TIME_ZONE_INFORMATION)
  (tzi_year id : Z) (strict : bool) :
  IsYearValid (effective_year utc_st tzi_year) = true ->
  IsTimezoneTimeIgnored (StandardDate tzi) = true
  \/ IsTimezoneTimeIgnored (DaylightDate tzi) = true ->
  local_time_for_timezone local_time tzi utc_st tzi_year strict
  = Returned (id, out) ->
  id = TIME_ZONE_ID_INVALID
  \/ (id = TIME_ZONE_ID_UNKNOWN
      /\ subtract_minutes utc_st (Bias tzi) = (true, out)).
Proof.
  intros Hy Hig E.
  destruct (Z.eq_dec id TIME_ZONE_ID_INVALID) as [| Hid]; [auto | right].
  exact (GetLocalTimeForTimezone_ignored _ _ _ _ _ _ _ Hy Hig E Hid).
Qed.

End ResolutionFacts.

(** Eastern time on 2015-07-04T16:00:00 UTC, a Saturday. *)
Lemma GetLocalTimeForTimezone_result_witness :
  SystemTimeSubtractMinutes Win32.SystemTimeToFileTime
    Win32.FileTimeToSystemTime (mkST 2015 7 6 4 16 0 0 0) (s32 (300 + -60))
  = (true, mkST 2015 7 6 4 12 0 0 0)
  /\ wYear (mkST 2015 7 6 4 12 0 0 0) = 2015.
Proof.
  assert (Hy : IsYearValid (effective_year (mkST 2015 7 6 4 16 0 0 0) 2015)
               = true) by reflexivity.
  assert (E : Win32.GetLocalTimeForTimezone zero_SYSTEMTIME us_eastern
                (mkST 2015 7 6 4 16 0 0 0) 2015 true
              = Returned (TIME_ZONE_ID_DAYLIGHT, mkST 2015 7 6 4 12 0 0 0))
    by (vm_compute; reflexivity).
  assert (Hid : TIME_ZONE_ID_DAYLIGHT <> TIME_ZONE_ID_INVALID)
    by discriminate.
  destruct (GetLocalTimeForTimezone_result false Win32.SystemTimeToFileTime
              Win32.FileTimeToSystemTime zero_SYSTEMTIME
              (mkST 2015 7 6 4 16 0 0 0) (mkST 2015 7 6 4 12 0 0 0)
              us_eastern 2015 TIME_ZONE_ID_DAYLIGHT true Hy E Hid)
    as (_ & [[Hi _] | [[Hi _] | [_ H]]] & Hyear);
    [discriminate Hi | discriminate Hi |].
  split; [exact H | exact (Hyear eq_refl)].
Defined.

(** Eastern time at that moment, and the rule set whose transitions are
    the first moment of 1601 on the last evening of 2014. *)
Lemma GetLocalTimeForTimezone_non_strict_witness :
  (exists id out,
     Win32.GetLocalTimeForTimezone zero_SYSTEMTIME us_eastern
       (mkST 2015 7 6 4 16 0 0 0) 2015 false = Returned (id, out)
     /\ id <> TIME_ZONE_ID_INVALID)
  /\ Win32.GetLocalTimeForTimezone zero_SYSTEMTIME epoch_rules
       new_years_eve_2014 2014 false = Aborted.
Proof.
  split.
  - apply (proj2 (proj2 (GetLocalTimeForTimezone_non_strict false
             Win32.SystemTimeToFileTime
             Win32.FileTimeToSystemTime zero_SYSTEMTIME
             (mkST 2015 7 6 4 16 0 0 0) us_eastern 2015 eq_refl))).
    repeat split; vm_compute; reflexivity.
  - apply (proj1 (proj2 (GetLocalTimeForTimezone_non_strict false
             Win32.SystemTimeToFileTime
             Win32.FileTimeToSystemTime zero_SYSTEMTIME
             new_years_eve_2014 epoch_rules 2014 eq_refl))).
    repeat split; vm_compute; reflexivity.
Defined.

(** A rule set without transition dates, five hours behind UTC. *)
Lemma GetLocalTimeForTimezone_ignored_dates_witness :
  TIME_ZONE_ID_UNKNOWN = TIME_ZONE_ID_INVALID
  \/ (TIME_ZONE_ID_UNKNOWN = TIME_ZONE_ID_UNKNOWN
      /\ SystemTimeSubtractMinutes Win32.SystemTimeToFileTime
           Win32.FileTimeToSystemTime (mkST 2015 7 6 4 16 0 0 0)
           (Bias (no_dst 300))
         = (true, mkST 2015 7 6 4 11 0 0 0)).
Proof.
  apply (GetLocalTimeForTimezone_ignored_dates false
           Win32.SystemTimeToFileTime
           Win32.FileTimeToSystemTime zero_SYSTEMTIME
           (mkST 2015 7 6 4 16 0 0 0) (mkST 2015 7 6 4 11 0 0 0)
           (no_dst 300) 2015 TIME_ZONE_ID_UNKNOWN true);
    [reflexivity | left; reflexivity | vm_compute; reflexivity].
Defined.

(** ** [GetTimezoneForYear] and [UTCTimeToLocalTime] *)



Section ConversionFacts.

Variable NDEBUG : bool.
Variable SystemTimeToFileTime : SYSTEMTIME -> option FILETIME.
Variable FileTimeToSystemTime : FILETIME -> option SYSTEMTIME.
Variable pfnGetDynamicTimeZoneInformation
  : option (Z * DYNAMIC_TIME_ZONE_INFORMATION).
Variable pfnGetTimeZoneInformationForYear
  : option (Z -> DYNAMIC_TIME_ZONE_INFORMATION -> option TIME_ZONE_INFORMATION).
Variable GetTimeZoneInformation : Z * TIME_ZONE_INFORMATION.

(** The functions of [Platform] on the variables of this section. *)
Local Abbreviation subtract_minutes :=
  (SystemTimeSubtractMinutes SystemTimeToFileTime FileTimeToSystemTime).
Local Abbreviation local_time_for_timezone :=
  (GetLocalTimeForTimezone NDEBUG SystemTimeToFileTime FileTimeToSystemTime).
Local Abbreviation timezone_for_year :=
  (GetTimezoneForYear pfnGetDynamicTimeZoneInformation
     pfnGetTimeZoneInformationForYear GetTimeZoneInformation).
Local Abbreviation utc_to_local :=
  (UTCTimeToLocalTime NDEBUG SystemTimeToFileTime FileTimeToSystemTime
     pfnGetDynamicTimeZoneInformation
     pfnGetTimeZoneInformationForYear GetTimeZoneInformation).
Local Abbreviation attempt_on :=
  (attempt NDEBUG SystemTimeToFileTime FileTimeToSystemTime
     pfnGetDynamicTimeZoneInformation
     pfnGetTimeZoneInformationForYear GetTimeZoneInformation).
Local Abbreviation first_resolution_on :=
  (first_resolution NDEBUG SystemTimeToFileTime FileTimeToSystemTime
     pfnGetDynamicTimeZoneInformation
     pfnGetTimeZoneInformationForYear GetTimeZoneInformation).

Lemma first_resolution_In utc_st attempts r :
  first_resolution_on utc_st attempts = Returned (Some r) ->
  exists a, In a attempts /\ attempt_on utc_st a = Returned (Some r).
Proof.
  induction attempts as [| a rest IH]; cbn [first_resolution];
    [discriminate |].
  destruct (attempt_on utc_st a) as [[r0 |] |] eqn:E.
  - intros H; injection H as <-. exists a. split; [left; reflexivity | exact E].
  - intros H. destruct (IH H) as (a' & Hin & Ha').
    exists a'. split; [right; exact Hin | exact Ha'].
  - discriminate.
Qed.

(** A successful conversion on four objects leaves in the three outputs
    the result of one of the attempts on the UTC time, which it leaves as it
    was. *)
Lemma UTCTimeToLocalTime_success_attempt {M : Type}
  (utc_st local_time : ref M SYSTEMTIME) (tzi_id : ref M Z)
  (tzi : ref M TIME_ZONE_INFORMATION) (m m' : M) :
  distinct_objects utc_st local_time tzi_id tzi ->
  utc_to_local utc_st local_time tzi_id tzi m = Returned (true, m') ->
  IsSystemTimeValid (load utc_st m) = true
  /\ load utc_st m' = load utc_st m
  /\ exists a, In a (rule_set_attempts (load utc_st m))
               /\ attempt_on (load utc_st m) a
                  = Returned (Some (mkState (load local_time m')
                                            (load tzi_id m') (load tzi m'))).
Proof.
  intros Hobj E.
  destruct (IsSystemTimeValid (load utc_st m)) eqn:Hv.
  - split; [reflexivity |].
    pose proof (UTCTimeToLocalTime_order NDEBUG SystemTimeToFileTime
                  FileTimeToSystemTime pfnGetDynamicTimeZoneInformation
                  pfnGetTimeZoneInformationForYear GetTimeZoneInformation
                  utc_st local_time tzi_id tzi m Hobj Hv) as Hord.
    unfold conversion_agrees in Hord. rewrite E in Hord.
    destruct (first_resolution_on (load utc_st m)
                (rule_set_attempts (load utc_st m)))
      as [[r0 |] |] eqn:Ef.
    + destruct Hord as (m0 & Em & Hu & Hl & Hi & Ht).
      injection Em as <-. split; [exact Hu |].
      rewrite Hl, Hi, Ht.
      destruct r0 as [l0 i0 t0]. cbn [out_local_time out_tzi_id out_tzi].
      exact (first_resolution_In _ _ _ Ef).
    + destruct Hord as (m0 & Em & _). discriminate Em.
    + discriminate Hord.
  - unfold UTCTimeToLocalTime in E. rewrite Hv in E. discriminate E.
Qed.

(** What an attempt that resolves consists of. *)
Lemma attempt_Some utc_st year strict r :
  attempt_on utc_st (year, strict) = Returned (Some r) ->
  IsYearValid year = true
  /\ (forall tzi, timezone_for_year tzi year = (true, out_tzi r))
  /\ local_time_for_timezone zero_SYSTEMTIME (out_tzi r) utc_st year strict
     = Returned (out_tzi_id r, out_local_time r)
  /\ out_tzi_id r <> TIME_ZONE_ID_INVALID
  /\ effective_year utc_st year = year.
Proof.
  unfold attempt. cbn [fst snd].
  destruct (timezone_for_year zero_TIME_ZONE_INFORMATION year)
    as [[] tzi] eqn:Et; [| discriminate].
  destruct (GetTimezoneForYear_success _ _ _ _ _ _ Et) as [Hy Hall].
  destruct (local_time_for_timezone zero_SYSTEMTIME tzi utc_st year strict)
    as [[id lt] |] eqn:El; [| discriminate].
  destruct (Z.eqb_spec id TIME_ZONE_ID_INVALID); [discriminate |].
  intros E; injection E as <-.
  cbn [out_tzi out_tzi_id out_local_time].
  repeat split; auto.
  unfold effective_year. destruct (Z.eqb_spec year 0); [| reflexivity].
  subst year. discriminate Hy.
Qed.

(** What a conversion on four objects returns with [true]. *)
Lemma UTCTimeToLocalTime_on_objects {M : Type}
  (utc_st local_time : ref M SYSTEMTIME) (tzi_id : ref M Z)
  (tzi : ref M TIME_ZONE_INFORMATION) (m m' : M) :
  distinct_objects utc_st local_time tzi_id tzi ->
  utc_to_local utc_st local_time tzi_id tzi m = Returned (true, m') ->
  IsSystemTimeValid (load utc_st m) = true
  /\ load utc_st m' = load utc_st m
  /\ IsTimezoneInfoValid (load tzi m') true = true
  /\ (exists year,
        wYear (load utc_st m) - 1 <= year <= wYear (load utc_st m) + 1
        /\ forall t, timezone_for_year t year = (true, load tzi m'))
  /\ ((load tzi_id m' = TIME_ZONE_ID_UNKNOWN
       /\ subtract_minutes (load utc_st m) (Bias (load tzi m'))
          = (true, load local_time m'))
      \/ (load tzi_id m' = TIME_ZONE_ID_STANDARD
          /\ subtract_minutes (load utc_st m)
               (s32 (Bias (load tzi m') + StandardBias (load tzi m')))
             = (true, load local_time m'))
      \/ (load tzi_id m' = TIME_ZONE_ID_DAYLIGHT
          /\ subtract_minutes (load utc_st m)
               (s32 (Bias (load tzi m') + DaylightBias (load tzi m')))
             = (true, load local_time m'))).
Proof.
  intros Hobj E.
  destruct (UTCTimeToLocalTime_success_attempt _ _ _ _ _ _ Hobj E)
    as (Hv & Hu & [year strict] & Hin & Ha).
  destruct (attempt_Some _ _ _ _ Ha) as (Hy & Ht & El & Hid & Heff).
  cbn [out_local_time out_tzi_id out_tzi] in *.
  rewrite <- Heff in Hy.
  destruct (GetLocalTimeForTimezone_pairs _ _ _ _ _ _ _ _ _ _ Hy El Hid)
    as [Hinfo Hpair].
  repeat split; auto.
  exists year. split; [| exact Ht].
  unfold rule_set_attempts in Hin. cbv zeta in Hin.
  destruct (_ && _) in Hin; [| destruct (_ && _) in Hin];
    cbn [In] in Hin;
    repeat match type of Hin with
    | _ \/ _ => destruct Hin as [Hin | Hin]
    | (_, _) = (_, _) => injection Hin as <- <-
    | False => contradiction
    end; lia.
Qed.

(** The attempt behind a conversion on four objects that returns [true]. *)
Lemma UTCTimeToLocalTime_on_objects_year {M : Type}
  (utc_st local_time : ref M SYSTEMTIME) (tzi_id : ref M Z)
  (tzi : ref M TIME_ZONE_INFORMATION) (m m' : M) :
  distinct_objects utc_st local_time tzi_id tzi ->
  utc_to_local utc_st local_time tzi_id tzi m = Returned (true, m') ->
  (exists year strict,
     In (year, strict) (rule_set_attempts (load utc_st m))
     /\ attempt_on (load utc_st m) (year, strict)
        = Returned (Some (mkState (load local_time m') (load tzi_id m')
                                  (load tzi m')))
     /\ (forall t, timezone_for_year t year = (true, load tzi m'))
     /\ local_time_for_timezone zero_SYSTEMTIME (load tzi m')
          (load utc_st m) year strict
        = Returned (load tzi_id m', load local_time m')
     /\ (strict = true -> wYear (load local_time m') = year))
  /\ ((wMonth (load utc_st m) =? 1) && (wDay (load utc_st m) =? 1) = false ->
      (wMonth (load utc_st m) =? 12) && (wDay (load utc_st m) =? 31)
      = false ->
      wYear (load local_time m') = wYear (load utc_st m)
      /\ attempt_on (load utc_st m) (wYear (load utc_st m), true)
         = Returned (Some (mkState (load local_time m') (load tzi_id m')
                                   (load tzi m')))
      /\ forall t, timezone_for_year t (wYear (load utc_st m))
                   = (true, load tzi m')).
Proof.
  intros Hobj E.
  destruct (UTCTimeToLocalTime_success_attempt _ _ _ _ _ _ Hobj E)
    as (Hv & Hu & [year strict] & Hin & Ha).
  destruct (attempt_Some _ _ _ _ Ha) as (Hy & Ht & El & Hid & Heff).
  cbn [out_local_time out_tzi_id out_tzi] in *.
  assert (Hstrict : strict = true -> wYear (load local_time m') = year).
  { intros ->. rewrite <- Heff in Hy.
    rewrite (GetLocalTimeForTimezone_strict_year _ _ _ _ _ _ _ _ _
               Hy El Hid).
    exact Heff. }
  split.
  - exists year, strict. auto.
  - intros H1 H2. unfold rule_set_attempts in Hin. cbv zeta in Hin.
    rewrite H1, H2 in Hin. cbn [In] in Hin.
    destruct Hin as [Hin | []]. injection Hin as <- <-. auto.
Qed.

(** The memory after a call is reached from the memory before it by
    writes through [local_time], [tzi_id] and [tzi] alone: what those
    writes preserve, the call preserves. *)
Lemma resolve_for_year_invariant {M : Type} (P : M -> Prop)
  (utc_st local_time : ref M SYSTEMTIME) (tzi_id : ref M Z)
  (tzi : ref M TIME_ZONE_INFORMATION) year strict (m m' : M) ok :
  (forall v m, P m -> P (store local_time v m)) ->
  (forall v m, P m -> P (store tzi_id v m)) ->
  (forall v m, P m -> P (store tzi v m)) ->
  P m ->
  resolve_for_year NDEBUG SystemTimeToFileTime FileTimeToSystemTime
    pfnGetDynamicTimeZoneInformation pfnGetTimeZoneInformationForYear
    GetTimeZoneInformation utc_st local_time tzi_id tzi year strict m
  = Returned (ok, m') ->
  P m'.
Proof.
  intros Hl Hi Ht Hm. unfold resolve_for_year.
  destruct (timezone_for_year (load tzi m) year) as [[] t].
  - destruct (local_time_for_timezone _ _ _ year strict) as [[id lt] |];
      [| discriminate].
    intros E. injection E as _ <-. auto.
  - intros E. injection E as _ <-. exact Hm.
Qed.

Lemma UTCTimeToLocalTime_invariant {M : Type} (P : M -> Prop)
  (utc_st local_time : ref M SYSTEMTIME) (tzi_id : ref M Z)
  (tzi : ref M TIME_ZONE_INFORMATION) (m m' : M) ok :
  (forall v m, P m -> P (store local_time v m)) ->
  (forall v m, P m -> P (store tzi_id v m)) ->
  (forall v m, P m -> P (store tzi v m)) ->
  P m ->
  utc_to_local utc_st local_time tzi_id tzi m = Returned (ok, m') ->
  P m'.
Proof.
  intros Hl Hi Ht Hm. unfold UTCTimeToLocalTime.
  pose proof (fun year strict m m' ok =>
                resolve_for_year_invariant P utc_st local_time tzi_id tzi
                  year strict m m' ok Hl Hi Ht) as Hr.
  destruct (negb (IsSystemTimeValid (load utc_st m)));
    [intros E; injection E as _ <-; exact Hm |].
  cbv zeta.
  destruct ((wMonth (load utc_st m) =? 1) && (wDay (load utc_st m) =? 1)).
  - destruct (resolve_for_year _ _ _ _ _ _ _ _ _ _ _ true m)
      as [[[] m1] |] eqn:E1; try discriminate.
    + intros E. injection E as _ <-. exact (Hr _ _ _ _ _ Hm E1).
    + pose proof (Hr _ _ _ _ _ Hm E1) as Hm1.
      destruct (resolve_for_year _ _ _ _ _ _ _ _ _ _ _ false m1)
        as [[[] m2] |] eqn:E2; try discriminate;
        intros E; injection E as _ <-; exact (Hr _ _ _ _ _ Hm1 E2).
  - destruct (resolve_for_year _ _ _ _ _ _ _ _ _ _ _ true m)
      as [[[] m1] |] eqn:E1; try discriminate.
    + intros E. injection E as _ <-. exact (Hr _ _ _ _ _ Hm E1).
    + pose proof (Hr _ _ _ _ _ Hm E1) as Hm1.
      destruct ((wMonth (load utc_st m1) =? 12)
                && (wDay (load utc_st m1) =? 31));
        [| intros E; injection E as _ <-; exact Hm1].
      destruct (resolve_for_year _ _ _ _ _ _ _ _ _ _ _ false m1)
        as [[[] m2] |] eqn:E2; try discriminate;
        intros E; injection E as _ <-; exact (Hr _ _ _ _ _ Hm1 E2).
Qed.

End ConversionFacts.

(** X18: [UTCTimeToLocalTime] fails on a UTC time that [IsSystemTimeValid]
    refuses and then writes nothing.  Called on four objects that do not
    overlap, when it returns [true] the UTC time is left as it was,
    [tzi_id] is unknown, standard or daylight, never
    [TIME_ZONE_ID_INVALID]; [tzi] is a rule set that [IsTimezoneInfoValid]
    accepts and that [GetTimezoneForYear] serves for the year before, the
    year of, or the year after the UTC time; and [local_time] is the UTC
    time less the bias of [tzi] that goes with [tzi_id].  Called with
    [local_time] the object of [utc_st], on January 1 the strict attempt
    for the year before may write the time before it fails, and the
    attempt for the current year then starts from what was written: on
    [southern_rules], 00:15 UTC of 2015-01-01 is 00:45 local time for a
    caller with four objects, and 01:15 in place. *)
Theorem UTCTimeToLocalTime_result :
  (forall NDEBUG SystemTimeToFileTime FileTimeToSystemTime
          pfnGetDynamicTimeZoneInformation pfnGetTimeZoneInformationForYear
          GetTimeZoneInformation (M : Type)
          (utc_st local_time : ref M SYSTEMTIME) (tzi_id : ref M Z)
          (tzi : ref M TIME_ZONE_INFORMATION) (m : M),
     let utc_to_local :=
       UTCTimeToLocalTime NDEBUG SystemTimeToFileTime FileTimeToSystemTime
         pfnGetDynamicTimeZoneInformation pfnGetTimeZoneInformationForYear
         GetTimeZoneInformation utc_st local_time tzi_id tzi in
     let subtract_minutes :=
       SystemTimeSubtractMinutes SystemTimeToFileTime FileTimeToSystemTime
         (load utc_st m) in
     (IsSystemTimeValid (load utc_st m) = false ->
      utc_to_local m = Returned (false, m))
     /\ (forall m',
           distinct_objects utc_st local_time tzi_id tzi ->
           utc_to_local m = Returned (true, m') ->
           IsSystemTimeValid (load utc_st m) = true
           /\ load utc_st m' = load utc_st m
           /\ IsTimezoneInfoValid (load tzi m') true = true
           /\ (exists year,
                 wYear (load utc_st m) - 1 <= year
                 <= wYear (load utc_st m) + 1
                 /\ forall t,
                      GetTimezoneForYear pfnGetDynamicTimeZoneInformation
                        pfnGetTimeZoneInformationForYear
                        GetTimeZoneInformation t year
                      = (true, load tzi m'))
           /\ ((load tzi_id m' = TIME_ZONE_ID_UNKNOWN
                /\ subtract_minutes (Bias (load tzi m'))
                   = (true, load local_time m'))
               \/ (load tzi_id m' = TIME_ZONE_ID_STANDARD
                   /\ subtract_minutes
                        (s32 (Bias (load tzi m')
                              + StandardBias (load tzi m')))
                      = (true, load local_time m'))
               \/ (load tzi_id m' = TIME_ZONE_ID_DAYLIGHT
                   /\ subtract_minutes
                        (s32 (Bias (load tzi m')
                              + DaylightBias (load tzi m')))
                      = (true, load local_time m')))))
  /\ Win32.UTCTimeToLocalTime TIME_ZONE_ID_UNKNOWN southern_rules
       utc_of local_time_of tzi_id_of tzi_of (new_year_2015, zero_state)
     = Returned (true,
                 (new_year_2015,
                  mkState (mkST 2015 1 4 1 0 45 0 0) TIME_ZONE_ID_DAYLIGHT
                          southern_rules))
  /\ Win32.UTCTimeToLocalTime TIME_ZONE_ID_UNKNOWN southern_rules
       in_place_time in_place_time in_place_tzi_id in_place_tzi
       (mkState new_year_2015 0 zero_TIME_ZONE_INFORMATION)
     = Returned (true,
                 mkState (mkST 2015 1 4 1 1 15 0 0) TIME_ZONE_ID_DAYLIGHT
                         southern_rules).
Proof.
  split; [| split; vm_compute; reflexivity].
  intros NDEBUG S2F F2S dyn for_year gtzi M utc_st local_time tzi_id tzi m.
  cbv zeta. split.
  - intros Hv. unfold UTCTimeToLocalTime. now rewrite Hv.
  - intros m'. apply UTCTimeToLocalTime_on_objects.
Qed.

(** X19: called on four objects that do not overlap, a
    [UTCTimeToLocalTime] that returns [true] leaves in [local_time],
    [tzi_id] and [tzi] the result of one of the attempts of
    [rule_set_attempts] on the UTC time: the rule set served for the year
    of the attempt, resolved by [GetLocalTimeForTimezone] for that year,
    and, if the attempt is strict, a local time in that year.  Outside
    January 1 and December 31 of the UTC date it is the strict attempt for
    the year of the UTC time, so the local time is in that year.  Called
    with [local_time] the object of [utc_st], on December 31 the strict
    attempt may write the time before it fails, the date read next is no
    longer December 31 and the attempt for the next year is not made: on
    [southern_rules], 23:50 UTC of 2014-12-31 is 00:20 of 2015-01-01 for a
    caller with four objects, and the call in place returns [false]. *)
Theorem UTCTimeToLocalTime_local_year :
  (forall NDEBUG SystemTimeToFileTime FileTimeToSystemTime
          pfnGetDynamicTimeZoneInformation pfnGetTimeZoneInformationForYear
          GetTimeZoneInformation (M : Type)
          (utc_st local_time : ref M SYSTEMTIME) (tzi_id : ref M Z)
          (tzi : ref M TIME_ZONE_INFORMATION) (m m' : M),
     let attempt_on :=
       attempt NDEBUG SystemTimeToFileTime FileTimeToSystemTime
         pfnGetDynamicTimeZoneInformation pfnGetTimeZoneInformationForYear
         GetTimeZoneInformation (load utc_st m) in
     let timezone_for_year :=
       GetTimezoneForYear pfnGetDynamicTimeZoneInformation
         pfnGetTimeZoneInformationForYear GetTimeZoneInformation in
     let result :=
       mkState (load local_time m') (load tzi_id m') (load tzi m') in
     distinct_objects utc_st local_time tzi_id tzi ->
     UTCTimeToLocalTime NDEBUG SystemTimeToFileTime FileTimeToSystemTime
       pfnGetDynamicTimeZoneInformation pfnGetTimeZoneInformationForYear
       GetTimeZoneInformation utc_st local_time tzi_id tzi m
     = Returned (true, m') ->
     (exists year strict,
        In (year, strict) (rule_set_attempts (load utc_st m))
        /\ attempt_on (year, strict) = Returned (Some result)
        /\ (forall t, timezone_for_year t year = (true, load tzi m'))
        /\ GetLocalTimeForTimezone NDEBUG SystemTimeToFileTime
             FileTimeToSystemTime zero_SYSTEMTIME (load tzi m')
             (load utc_st m) year strict
           = Returned (load tzi_id m', load local_time m')
        /\ (strict = true -> wYear (load local_time m') = year))
     /\ ((wMonth (load utc_st m) =? 1) && (wDay (load utc_st m) =? 1)
         = false ->
         (wMonth (load utc_st m) =? 12) && (wDay (load utc_st m) =? 31)
         = false ->
         wYear (load local_time m') = wYear (load utc_st m)
         /\ attempt_on (wYear (load utc_st m), true)
            = Returned (Some result)
         /\ forall t, timezone_for_year t (wYear (load utc_st m))
                      = (true, load tzi m')))
  /\ Win32.UTCTimeToLocalTime TIME_ZONE_ID_UNKNOWN southern_rules
       utc_of local_time_of tzi_id_of tzi_of
       (last_minutes_of_2014, zero_state)
     = Returned (true,
                 (last_minutes_of_2014,
                  mkState (mkST 2015 1 4 1 0 20 0 0) TIME_ZONE_ID_DAYLIGHT
                          southern_rules))
  /\ Win32.UTCTimeToLocalTime TIME_ZONE_ID_UNKNOWN southern_rules
       in_place_time in_place_time in_place_tzi_id in_place_tzi
       (mkState last_minutes_of_2014 0 zero_TIME_ZONE_INFORMATION)
     = Returned (false,
                 mkState (mkST 2015 1 4 1 0 20 0 0) TIME_ZONE_ID_INVALID
                         southern_rules).
Proof.
  split; [| split; vm_compute; reflexivity].
  intros NDEBUG S2F F2S dyn for_year gtzi M utc_st local_time tzi_id tzi
         m m'.
  cbv zeta. apply UTCTimeToLocalTime_on_objects_year.
Qed.

(** Saturday 2015-07-04T16:00:00 UTC on a system with the one rule set of
    Eastern time, for a caller with four objects. *)
Lemma UTCTimeToLocalTime_result_witness :
  IsTimezoneInfoValid us_eastern true = true
  /\ SystemTimeSubtractMinutes Win32.SystemTimeToFileTime
       Win32.FileTimeToSystemTime (mkST 2015 7 6 4 16 0 0 0)
       (s32 (300 + -60))
     = (true, mkST 2015 7 6 4 12 0 0 0).
Proof.
  assert (E : Win32.UTCTimeToLocalTime TIME_ZONE_ID_UNKNOWN us_eastern
                utc_of local_time_of tzi_id_of tzi_of
                (mkST 2015 7 6 4 16 0 0 0, zero_state)
              = Returned (true,
                          (mkST 2015 7 6 4 16 0 0 0,
                           mkState (mkST 2015 7 6 4 12 0 0 0)
                                   TIME_ZONE_ID_DAYLIGHT us_eastern)))
    by (vm_compute; reflexivity).
  destruct (proj2 (proj1 UTCTimeToLocalTime_result false
              Win32.SystemTimeToFileTime Win32.FileTimeToSystemTime None None
              (TIME_ZONE_ID_UNKNOWN, us_eastern) _
              utc_of local_time_of tzi_id_of tzi_of
              (mkST 2015 7 6 4 16 0 0 0, zero_state))
              _ four_objects E)
    as (_ & _ & Hi & _ & H).
  split; [exact Hi |].
  destruct H as [[Hid _] | [[Hid _] | [_ Hl]]];
    [discriminate Hid | discriminate Hid | exact Hl].
Defined.

Lemma UTCTimeToLocalTime_local_year_witness :
  wYear (mkST 2015 7 6 4 12 0 0 0) = wYear (mkST 2015 7 6 4 16 0 0 0).
Proof.
  refine (proj1 (proj2 (proj1 UTCTimeToLocalTime_local_year false
            Win32.SystemTimeToFileTime Win32.FileTimeToSystemTime None None
            (TIME_ZONE_ID_UNKNOWN, us_eastern) _
            utc_of local_time_of tzi_id_of tzi_of
            (mkST 2015 7 6 4 16 0 0 0, zero_state)
            (mkST 2015 7 6 4 16 0 0 0,
             mkState (mkST 2015 7 6 4 12 0 0 0) TIME_ZONE_ID_DAYLIGHT
                     us_eastern) four_objects _) eq_refl eq_refl)).
  vm_compute. reflexivity.
Defined.
(** ** [SystemTimeAddMinutes] and [SystemTimeSubtractMinutes] *)

(** X20: both functions refuse a time that [IsSystemTimeValid] refuses and
    leave it as it was.  When [SystemTimeAddMinutes] succeeds the result is
    what [FileTimeToSystemTime] reads off the tick count that
    [FileTimeAddMinutes] computes, and on a system whose two conversions are
    inverse to each other at the time passed in and at the time returned,
    [SystemTimeSubtractMinutes] with the same minutes takes the result back
    to the time passed in. *)
Theorem SystemTimeAddMinutes_then_SubtractMinutes
  (SystemTimeToFileTime : SYSTEMTIME -> option FILETIME)
  (FileTimeToSystemTime : FILETIME -> option SYSTEMTIME)
  (st st' : SYSTEMTIME) (minutes : Z) :
  (IsSystemTimeValid st = false ->
   SystemTimeAddMinutes SystemTimeToFileTime FileTimeToSystemTime st minutes
   = (false, st)
   /\ SystemTimeSubtractMinutes SystemTimeToFileTime FileTimeToSystemTime
        st minutes = (false, st))
  /\ (SystemTimeAddMinutes SystemTimeToFileTime FileTimeToSystemTime
        st minutes = (true, st') ->
      exists ft ft',
        SystemTimeToFileTime st = Some ft
        /\ FileTimeAddMinutes ft minutes = (true, ft')
        /\ FileTimeToSystemTime ft' = Some st'
        /\ (wf_FILETIME ft ->
            FileTimeToSystemTime ft = Some st ->
            SystemTimeToFileTime st' = Some ft' ->
            IsSystemTimeValid st' = true ->
            SystemTimeSubtractMinutes SystemTimeToFileTime
              FileTimeToSystemTime st' minutes = (true, st))).
Proof.
  split.
  - intros Hv. unfold SystemTimeAddMinutes, SystemTimeSubtractMinutes.
    now rewrite Hv.
  - unfold SystemTimeAddMinutes.
    destruct (IsSystemTimeValid st); [| discriminate].
    destruct (SystemTimeToFileTime st) as [ft |]; [| discriminate].
    destruct (FileTimeAddMinutes ft minutes) as [[] ft'] eqn:Ea;
      [| discriminate].
    destruct (FileTimeToSystemTime ft') as [st1 |] eqn:Er; [| discriminate].
    intros E; injection E as <-.
    exists ft, ft'. repeat split; auto.
    intros Hwf Hback Hfwd Hv'.
    unfold SystemTimeSubtractMinutes. rewrite Hv', Hfwd.
    assert (Es : FileTimeSubtractMinutes ft' minutes = (true, ft)).
    { unfold FileTimeAddMinutes, FileTimeSubtractMinutes in *.
      apply FileTimeAdd100nsIntervals_then_Subtract;
        [exact Hwf | apply s64_range | exact Ea]. }
    now rewrite Es, Hback.
Qed.

(** 2014-12-31T23:30:00 plus sixty minutes, on the reference model. *)
Lemma SystemTimeAddMinutes_then_SubtractMinutes_witness :
  SystemTimeSubtractMinutes Win32.SystemTimeToFileTime
    Win32.FileTimeToSystemTime (mkST 2015 1 4 1 0 30 0 0) 60
  = (true, new_years_eve_2014).
Proof.
  destruct (proj2 (SystemTimeAddMinutes_then_SubtractMinutes
                     Win32.SystemTimeToFileTime Win32.FileTimeToSystemTime
                     new_years_eve_2014 (mkST 2015 1 4 1 0 30 0 0) 60))
    as (ft & ft' & E1 & E2 & E3 & H); [vm_compute; reflexivity |].
  assert (Eft : ft = mkFT 2983676928 30418257).
  { assert (E : Win32.SystemTimeToFileTime new_years_eve_2014
                = Some (mkFT 2983676928 30418257))
      by (vm_compute; reflexivity).
    rewrite E in E1. now injection E1 as <-. }
  subst ft.
  assert (Eft' : ft' = mkFT 328971264 30418266).
  { assert (E : FileTimeAddMinutes (mkFT 2983676928 30418257) 60
                = (true, mkFT 328971264 30418266))
      by (vm_compute; reflexivity).
    rewrite E in E2. now injection E2 as <-. }
  subst ft'.
  apply H.
  - vm_compute. intuition discriminate.
  - vm_compute. reflexivity.
  - vm_compute. reflexivity.
  - reflexivity.
Defined.

(** ** The strings of [ISO8601] *)

Section StringFacts.

Import Ascii String Stream.
Local Open Scope string_scope.
Local Open Scope Z_scope.

Lemma length_append (s1 s2 : string) :
  String.length (s1 ++ s2) = (String.length s1 + String.length s2)%nat.
Proof. induction s1 as [| c s1 IH]; cbn; [reflexivity | now rewrite IH]. Qed.

Lemma append_assoc (s1 s2 s3 : string) :
  (s1 ++ s2) ++ s3 = s1 ++ s2 ++ s3.
Proof. induction s1 as [| c s1 IH]; cbn; [reflexivity | now rewrite IH]. Qed.

Lemma nonempty_append_l (s1 s2 : string) :
  nonempty s1 = true -> nonempty (s1 ++ s2) = true.
Proof. destruct s1; cbn; [discriminate | reflexivity]. Qed.

Lemma nonempty_append_r (s1 s2 : string) :
  nonempty s2 = true -> nonempty (s1 ++ s2) = true.
Proof.
  unfold nonempty. rewrite length_append.
  destruct (String.length s2); [discriminate |].
  now rewrite Nat.add_succ_r.
Qed.

Lemma upto_In count :
  forall lo n, lo <= n < lo + Z.of_nat count -> In n (Parse.upto lo count).
Proof.
  induction count as [| count IH]; intros lo n Hn; [lia |].
  cbn [Parse.upto]. destruct (Z.eq_dec lo n) as [-> | Hne];
    [now left | right].
  apply IH. lia.
Qed.

Lemma range_In lo hi n :
  lo <= n <= hi -> In n (Parse.range lo hi).
Proof. intros Hn. unfold Parse.range. apply upto_In. lia. Qed.

Lemma reads_back_field w len lo hi n :
  Parse.reads_back w len lo hi = true ->
  lo <= n <= hi ->
  String.length (setw "0" w (put_integer n)) = len
  /\ Parse.integer (setw "0" w (put_integer n)) = Some n.
Proof.
  intros Hc Hn. unfold Parse.reads_back in Hc.
  rewrite forallb_forall in Hc. specialize (Hc n (range_In _ _ _ Hn)).
  apply andb_prop in Hc. destruct Hc as [Hl Hr].
  apply Nat.eqb_eq in Hl. split; [exact Hl |].
  destruct (Parse.integer (setw "0" w (put_integer n))) as [m |];
    [| discriminate].
  apply Z.eqb_eq in Hr. now subst m.
Qed.

(** A number of at most [w] digits in a field of width [w]. *)
Lemma two_digits n :
  0 <= n <= 99 ->
  exists c1 c2,
    setw "0" 2 (put_integer n) = String c1 (String c2 "")
    /\ Parse.integer (String c1 (String c2 "")) = Some n.
Proof.
  intros Hn.
  assert (Hc : Parse.reads_back 2 2 0 99 = true) by (vm_compute; reflexivity).
  destruct (reads_back_field 2 2 0 99 n Hc) as [Hl Hr]; [lia |].
  destruct (setw "0" 2 (put_integer n)) as [| c1 [| c2 [| c3 s]]];
    try discriminate Hl.
  exists c1, c2; split; [reflexivity | exact Hr].
Qed.

Lemma three_digits n :
  0 <= n <= 999 ->
  exists c1 c2 c3,
    setw "0" 3 (put_integer n) = String c1 (String c2 (String c3 ""))
    /\ Parse.integer (String c1 (String c2 (String c3 ""))) = Some n.
Proof.
  intros Hn.
  assert (Hc : Parse.reads_back 3 3 0 999 = true)
    by (vm_compute; reflexivity).
  destruct (reads_back_field 3 3 0 999 n Hc) as [Hl Hr]; [lia |].
  destruct (setw "0" 3 (put_integer n)) as [| c1 [| c2 [| c3 [| c4 s]]]];
    try discriminate Hl.
  exists c1, c2, c3; split; [reflexivity | exact Hr].
Qed.

Lemma four_digits n :
  0 <= n <= 9999 ->
  exists c1 c2 c3 c4,
    setw "0" 4 (put_integer n)
    = String c1 (String c2 (String c3 (String c4 "")))
    /\ Parse.integer (String c1 (String c2 (String c3 (String c4 ""))))
       = Some n.
Proof.
  intros Hn.
  assert (Hc : Parse.reads_back 4 4 0 9999 = true)
    by (vm_compute; reflexivity).
  destruct (reads_back_field 4 4 0 9999 n Hc) as [Hl Hr]; [lia |].
  destruct (setw "0" 4 (put_integer n))
    as [| c1 [| c2 [| c3 [| c4 [| c5 s]]]]]; try discriminate Hl.
  exists c1, c2, c3, c4; split; [reflexivity | exact Hr].
Qed.

(** A [WORD] above 9999 takes five characters whatever the width. *)
Lemma five_digits n :
  9999 < n <= 65535 ->
  exists c1 c2 c3 c4 c5,
    setw "0" 4 (put_integer n)
    = String c1 (String c2 (String c3 (String c4 (String c5 ""))))
    /\ Parse.integer
         (String c1 (String c2 (String c3 (String c4 (String c5 "")))))
       = Some n.
Proof.
  intros Hn.
  assert (Hc : Parse.reads_back 4 5 10000 65535 = true)
    by (vm_compute; reflexivity).
  destruct (reads_back_field 4 5 10000 65535 n Hc) as [Hl Hr]; [lia |].
  destruct (setw "0" 4 (put_integer n))
    as [| c1 [| c2 [| c3 [| c4 [| c5 [| c6 s]]]]]]; try discriminate Hl.
  exists c1, c2, c3, c4, c5; split; [reflexivity | exact Hr].
Qed.

Lemma GetDateString_fields (this : ISO8601.t) (st : SYSTEMTIME) :
  0 <= wYear st <= 65535 -> 0 <= wMonth st <= 99 -> 0 <= wDay st <= 99 ->
  let s := ISO8601.GetDateString this st in
  (wYear st <= 9999 ->
   String.length s = 10%nat
   /\ Parse.field s 0 4 = Some (wYear st)
   /\ substring 4 1 s = "-"
   /\ Parse.field s 5 2 = Some (wMonth st)
   /\ substring 7 1 s = "-"
   /\ Parse.field s 8 2 = Some (wDay st))
  /\ (9999 < wYear st ->
      String.length s = 12%nat
      /\ substring 0 1 s = "+"
      /\ Parse.field s 1 5 = Some (wYear st)
      /\ substring 6 1 s = "-"
      /\ Parse.field s 7 2 = Some (wMonth st)
      /\ substring 9 1 s = "-"
      /\ Parse.field s 10 2 = Some (wDay st)).
Proof.
  intros Hy Hm Hd s.
  destruct (two_digits _ Hm) as (m1 & m2 & Em & Rm).
  destruct (two_digits _ Hd) as (d1 & d2 & Ed & Rd).
  subst s. unfold ISO8601.GetDateString, Parse.field. rewrite Em, Ed.
  split; intros Hs.
  - destruct (four_digits (wYear st)) as (y1 & y2 & y3 & y4 & Ey & Ry);
      [lia |].
    destruct (Z.ltb_spec 9999 (wYear st)); [lia |].
    rewrite Ey. cbn [append substring String.length]. auto 10.
  - destruct (five_digits (wYear st)) as (y1 & y2 & y3 & y4 & y5 & Ey & Ry);
      [lia |].
    destruct (Z.ltb_spec 9999 (wYear st)); [| lia].
    rewrite Ey. cbn [append substring String.length]. auto 10.
Qed.

(** X21: for a year that fits a [WORD] and a month and a day of at most two
    digits, so for every date that [IsDateValid] accepts, [GetDateString]
    has a fixed layout from which the three numbers read back: ten
    characters [YYYY-MM-DD] up to the year 9999, and twelve characters
    [+YYYYY-MM-DD] above.  Two such dates with the same string are the same
    date, whatever the formatting options. *)
Theorem GetDateString_layout (this this' : ISO8601.t) (st st' : SYSTEMTIME) :
  0 <= wYear st <= 65535 -> 0 <= wMonth st <= 99 -> 0 <= wDay st <= 99 ->
  let s := ISO8601.GetDateString this st in
  (wYear st <= 9999 ->
   String.length s = 10%nat
   /\ Parse.field s 0 4 = Some (wYear st)
   /\ substring 4 1 s = "-"
   /\ Parse.field s 5 2 = Some (wMonth st)
   /\ substring 7 1 s = "-"
   /\ Parse.field s 8 2 = Some (wDay st))
  /\ (9999 < wYear st ->
      String.length s = 12%nat
      /\ substring 0 1 s = "+"
      /\ Parse.field s 1 5 = Some (wYear st)
      /\ substring 6 1 s = "-"
      /\ Parse.field s 7 2 = Some (wMonth st)
      /\ substring 9 1 s = "-"
      /\ Parse.field s 10 2 = Some (wDay st))
  /\ (0 <= wYear st' <= 65535 -> 0 <= wMonth st' <= 99 ->
      0 <= wDay st' <= 99 ->
      ISO8601.GetDateString this' st' = s ->
      wYear st' = wYear st /\ wMonth st' = wMonth st /\ wDay st' = wDay st).
Proof.
  intros Hy Hm Hd s.
  destruct (GetDateString_fields this st Hy Hm Hd) as [F4 F5].
  split; [exact F4 | split; [exact F5 |]].
  intros Hy' Hm' Hd' E.
  destruct (GetDateString_fields this' st' Hy' Hm' Hd') as [F4' F5'].
  cbv zeta in F4, F5, F4', F5'. fold s in F4, F5. rewrite E in F4', F5'.
  destruct (Z.le_gt_cases (wYear st) 9999) as [Hs | Hs];
    destruct (Z.le_gt_cases (wYear st') 9999) as [Hs' | Hs'].
  - destruct (F4 Hs) as (_ & A & _ & B & _ & C).
    destruct (F4' Hs') as (_ & A' & _ & B' & _ & C').
    rewrite A in A'. rewrite B in B'. rewrite C in C'.
    injection A' as <-. injection B' as <-. injection C' as <-. auto.
  - destruct (F4 Hs) as (L & _). destruct (F5' ltac:(lia)) as (L' & _).
    rewrite L in L'. discriminate L'.
  - destruct (F5 ltac:(lia)) as (L & _). destruct (F4' Hs') as (L' & _).
    rewrite L in L'. discriminate L'.
  - destruct (F5 ltac:(lia)) as (_ & _ & A & _ & B & _ & C).
    destruct (F5' ltac:(lia)) as (_ & _ & A' & _ & B' & _ & C').
    rewrite A in A'. rewrite B in B'. rewrite C in C'.
    injection A' as <-. injection B' as <-. injection C' as <-. auto.
Qed.

(** 2013-08-11, and the same date in the year 12013. *)
Lemma GetDateString_layout_witness :
  ISO8601.GetDateString (ISO8601.mk true 1967 false (TimeFormat.mk false false false))
    (mkST 2013 8 0 11 14 46 0 85) = "2013-08-11"
  /\ Parse.field "2013-08-11" 5 2 = Some 8
  /\ Parse.field
       (ISO8601.GetDateString
          (ISO8601.mk true 1967 false (TimeFormat.mk false false false))
          (mkST 12013 8 0 11 14 46 0 85)) 1 5 = Some 12013.
Proof.
  pose proof (GetDateString_layout
                (ISO8601.mk true 1967 false (TimeFormat.mk false false false))
                (ISO8601.mk true 1967 false (TimeFormat.mk false false false))
                (mkST 2013 8 0 11 14 46 0 85) (mkST 2013 8 0 11 14 46 0 85))
    as A.
  pose proof (GetDateString_layout
                (ISO8601.mk true 1967 false (TimeFormat.mk false false false))
                (ISO8601.mk true 1967 false (TimeFormat.mk false false false))
                (mkST 12013 8 0 11 14 46 0 85) (mkST 12013 8 0 11 14 46 0 85))
    as B.
  cbv zeta in A, B. cbn [wYear wMonth wDay] in A, B.
  destruct A as [A _]; [lia | lia | lia |].
  destruct B as [_ [B _]]; [lia | lia | lia |].
  destruct (A ltac:(lia)) as (_ & _ & _ & Am & _).
  destruct (B ltac:(lia)) as (_ & _ & By & _).
  split; [vm_compute; reflexivity | split; [exact Am | exact By]].
Defined.

Lemma GetTimeString_fields (this : ISO8601.t) (st : SYSTEMTIME) :
  0 <= wHour st <= 99 -> 0 <= wMinute st <= 99 -> 0 <= wSecond st <= 99 ->
  0 <= wMilliseconds st <= 999 ->
  let s := ISO8601.GetTimeString this st in
  Parse.field s 0 2 = Some (wHour st)
  /\ substring 2 1 s = ":"
  /\ Parse.field s 3 2 = Some (wMinute st)
  /\ substring 5 1 s = ":"
  /\ Parse.field s 6 2 = Some (wSecond st)
  /\ (TimeFormat.time_string_with_milliseconds (ISO8601.format this) = false
      -> String.length s = 8%nat)
  /\ (TimeFormat.time_string_with_milliseconds (ISO8601.format this) = true
      -> String.length s = 12%nat
         /\ substring 8 1 s = "."
         /\ Parse.field s 9 3 = Some (wMilliseconds st)).
Proof.
  intros Hh Hm Hs Hms s.
  destruct (two_digits _ Hh) as (h1 & h2 & Eh & Rh).
  destruct (two_digits _ Hm) as (m1 & m2 & Em & Rm).
  destruct (two_digits _ Hs) as (s1 & s2 & Es & Rs).
  destruct (three_digits _ Hms) as (l1 & l2 & l3 & El & Rl).
  subst s. unfold ISO8601.GetTimeString, Parse.field.
  rewrite Eh, Em, Es, El.
  destruct (TimeFormat.time_string_with_milliseconds (ISO8601.format this));
    cbn [append substring String.length];
    repeat split; auto; discriminate.
Qed.

Lemma hour_cases h :
  0 <= h <= 23 ->
  h = 0 \/ h = 1 \/ h = 2 \/ h = 3 \/ h = 4 \/ h = 5 \/ h = 6 \/ h = 7
  \/ h = 8 \/ h = 9 \/ h = 10 \/ h = 11 \/ h = 12 \/ h = 13 \/ h = 14
  \/ h = 15 \/ h = 16 \/ h = 17 \/ h = 18 \/ h = 19 \/ h = 20 \/ h = 21
  \/ h = 22 \/ h = 23.
Proof. lia. Qed.

(** X22: for an hour, a minute and a second of at most two digits and
    milliseconds of at most three, [GetTimeString] is [HH:MM:SS], followed
    by [.mmm] when the format asks for milliseconds, and the numbers read
    back.  For an hour up to 23 [GetTimeStringUSA] starts with the hour of
    the twelve-hour clock, a number from 1 to 12 written without a leading
    zero, has the same minutes, seconds and milliseconds after it, and ends
    in [AM] or [PM]; the hour of the day is that number modulo 12, plus 12
    for [PM]. *)
Theorem GetTimeString_layout (this : ISO8601.t) (st : SYSTEMTIME) :
  0 <= wHour st <= 23 -> 0 <= wMinute st <= 99 -> 0 <= wSecond st <= 99 ->
  0 <= wMilliseconds st <= 999 ->
  let s := ISO8601.GetTimeString this st in
  let u := ISO8601.GetTimeStringUSA this st in
  let ms := TimeFormat.time_string_with_milliseconds (ISO8601.format this) in
  (Parse.field s 0 2 = Some (wHour st)
   /\ substring 2 1 s = ":"
   /\ Parse.field s 3 2 = Some (wMinute st)
   /\ substring 5 1 s = ":"
   /\ Parse.field s 6 2 = Some (wSecond st)
   /\ (ms = false -> String.length s = 8%nat)
   /\ (ms = true ->
       String.length s = 12%nat
       /\ substring 8 1 s = "."
       /\ Parse.field s 9 3 = Some (wMilliseconds st)))
  /\ exists (hour12 : Z) (k : nat),
       1 <= hour12 <= 12
       /\ k = (if hour12 <? 10 then 1%nat else 2%nat)
       /\ Parse.field u 0 k = Some hour12
       /\ substring k (String.length s - 2) u
          = substring 2 (String.length s - 2) s
       /\ String.length u = (k + (String.length s - 2) + 3)%nat
       /\ ((wHour st < 12
            /\ substring (k + (String.length s - 2)) 3 u = " AM"
            /\ wHour st = hour12 mod 12)
           \/ (12 <= wHour st
               /\ substring (k + (String.length s - 2)) 3 u = " PM"
               /\ wHour st = hour12 mod 12 + 12)).
Proof.
  intros Hh Hm Hs Hms s u ms.
  split; [apply GetTimeString_fields; auto; lia |].
  destruct (two_digits (wHour st)) as (h1 & h2 & Eh & Rh); [lia |].
  destruct (two_digits _ Hm) as (m1 & m2 & Em & Rm).
  destruct (two_digits _ Hs) as (s1 & s2 & Es & Rs).
  destruct (three_digits _ Hms) as (l1 & l2 & l3 & El & Rl).
  subst s u ms. unfold ISO8601.GetTimeString, ISO8601.GetTimeStringUSA.
  rewrite Eh, Em, Es, El. clear Eh Em Es El Rh Rm Rs Rl.
  set (h := wHour st) in *. clearbody h.
  exists (if h =? 0 then 12 else if 12 <? h then h - 12 else h).
  exists (if (if h =? 0 then 12 else if 12 <? h then h - 12 else h) <? 10
          then 1%nat else 2%nat).
  destruct (TimeFormat.time_string_with_milliseconds (ISO8601.format this));
    destruct (hour_cases h Hh) as
      [-> | [-> | [-> | [-> | [-> | [-> | [-> | [-> | [-> | [-> | [-> | [->
      | [-> | [-> | [-> | [-> | [-> | [-> | [-> | [-> | [-> | [-> | [->
      | ->]]]]]]]]]]]]]]]]]]]]]]];
    vm_compute; intuition (try discriminate; try reflexivity).
Qed.

(** 18:46:00 is 6:46:00 PM. *)
Lemma GetTimeString_layout_witness :
  Parse.field (ISO8601.GetTimeString ISO8601_default august_11_2013) 0 2
  = Some 18
  /\ ISO8601.GetTimeStringUSA ISO8601_default august_11_2013 = "6:46:00 PM".
Proof.
  destruct (GetTimeString_layout ISO8601_default august_11_2013)
    as [(A & _) _];
    try (cbn [august_11_2013 wHour wMinute wSecond wMilliseconds]; lia).
  split; [exact A | vm_compute; reflexivity].
Defined.

Lemma offset_fields (bias : Z) :
  bias <> 0 -> - 5999 <= bias <= 5999 ->
  ISO8601.abs bias = Z.abs bias
  /\ Z.quot (Z.abs bias) 60 = Z.abs bias / 60
  /\ Z.rem (Z.abs bias) 60 = Z.abs bias mod 60
  /\ 0 <= Z.abs bias / 60 <= 99
  /\ 0 <= Z.abs bias mod 60 <= 59.
Proof.
  intros Hne Hb. unfold ISO8601.abs.
  rewrite s32_id by (unfold is_s32; lia).
  rewrite Z.quot_div_nonneg, Z.rem_mod_nonneg by lia.
  repeat split; try reflexivity;
    Z.to_euclidean_division_equations; lia.
Qed.

(** X23: [GetUTCOffsetString] returns ["Z"] exactly for the bias 0.  For
    another bias of at most 5999 minutes either way, and so for every bias
    that [AreTimezoneBiasesValid] lets through, the string is six
    characters, a sign and [HH:MM]: the sign is [-] for a positive bias and
    [+] for a negative one, and the hours and minutes read back to the
    absolute value of the bias.  [GetUTCOffsetStringUSA] returns the same
    string between ["(UTC"] and [")"], with nothing in between for the
    bias 0. *)
Theorem GetUTCOffsetString_layout (this : ISO8601.t) (bias : Z) :
  let s := ISO8601.GetUTCOffsetString this bias in
  (s = "Z" <-> bias = 0)
  /\ (bias <> 0 -> - 5999 <= bias <= 5999 ->
      String.length s = 6%nat
      /\ substring 0 1 s = (if 0 <? bias then "-" else "+")
      /\ substring 3 1 s = ":"
      /\ exists hours minutes,
           Parse.field s 1 2 = Some hours
           /\ Parse.field s 4 2 = Some minutes
           /\ 0 <= hours <= 99 /\ 0 <= minutes <= 59
           /\ bias = (if 0 <? bias then 1 else -1) * (60 * hours + minutes))
  /\ ISO8601.GetUTCOffsetStringUSA this bias
     = "(UTC" ++ (if bias =? 0 then "" else s) ++ ")".
Proof.
  intros s. subst s.
  unfold ISO8601.GetUTCOffsetString, ISO8601.GetUTCOffsetStringUSA.
  split; [| split].
  - destruct (Z.eqb_spec bias 0) as [-> | Hne]; [tauto |].
    split; [| tauto].
    destruct (0 <? bias); cbn [append]; discriminate.
  - intros Hne Hb.
    destruct (offset_fields bias Hne Hb) as (Ea & Eq & Er & Hq & Hr).
    rewrite Ea, Eq, Er.
    destruct (two_digits _ Hq) as (h1 & h2 & Eh & Rh).
    destruct (two_digits (Z.abs bias mod 60)) as (m1 & m2 & Em & Rm);
      [lia |].
    rewrite Eh, Em.
    destruct (Z.eqb_spec bias 0) as [-> | _]; [contradiction |].
    unfold Parse.field.
    assert (Hsum : Z.abs bias = 60 * (Z.abs bias / 60) + Z.abs bias mod 60)
      by (apply Z.div_mod; lia).
    destruct (Z.ltb_spec 0 bias); cbn [append substring String.length];
      (repeat split; try reflexivity);
      exists (Z.abs bias / 60), (Z.abs bias mod 60);
      (repeat split; try assumption; try lia).
  - destruct (Z.eqb_spec bias 0) as [-> | Hne]; [reflexivity |].
    destruct (0 <? bias); cbn [append]; now rewrite ?append_assoc.
Qed.

(** Four hours behind UTC, and five and a half hours ahead. *)
Lemma GetUTCOffsetString_layout_witness :
  String.length (ISO8601.GetUTCOffsetString ISO8601_default 240) = 6%nat
  /\ substring 0 1 (ISO8601.GetUTCOffsetString ISO8601_default (-330)) = "+".
Proof.
  destruct (GetUTCOffsetString_layout ISO8601_default 240)
    as (_ & A & _).
  destruct (GetUTCOffsetString_layout ISO8601_default (-330))
    as (_ & B & _).
  destruct A as (A & _); [lia | lia |].
  destruct B as (_ & B & _); [lia | lia |].
  split; [exact A | exact B].
Defined.

Lemma nonempty_String c s : nonempty (String c s) = true.
Proof. reflexivity. Qed.

Lemma GetDateString_nonempty this st :
  nonempty (ISO8601.GetDateString this st) = true.
Proof.
  unfold ISO8601.GetDateString.
  apply nonempty_append_r. reflexivity.
Qed.

Lemma GetDateStringUSA_nonempty this st :
  nonempty (ISO8601.GetDateStringUSA this st) = true.
Proof.
  unfold ISO8601.GetDateStringUSA.
  apply nonempty_append_r. reflexivity.
Qed.

Lemma GetTimeString_nonempty this st :
  nonempty (ISO8601.GetTimeString this st) = true.
Proof.
  unfold ISO8601.GetTimeString.
  destruct (TimeFormat.time_string_with_milliseconds (ISO8601.format this));
    apply nonempty_append_r; reflexivity.
Qed.

Lemma GetTimeStringUSA_nonempty this st :
  nonempty (ISO8601.GetTimeStringUSA this st) = true.
Proof.
  unfold ISO8601.GetTimeStringUSA.
  apply nonempty_append_r. reflexivity.
Qed.

Lemma GetUTCOffsetString_nonempty this bias :
  nonempty (ISO8601.GetUTCOffsetString this bias) = true.
Proof.
  unfold ISO8601.GetUTCOffsetString.
  destruct (bias =? 0); [reflexivity |].
  apply nonempty_append_r. reflexivity.
Qed.

Lemma GetUTCOffsetStringUSA_nonempty this bias :
  nonempty (ISO8601.GetUTCOffsetStringUSA this bias) = true.
Proof.
  unfold ISO8601.GetUTCOffsetStringUSA.
  destruct (bias =? 0); [reflexivity |].
  apply nonempty_append_r. reflexivity.
Qed.

Lemma GetUTCTimestampString_unfold this st :
  ISO8601.GetUTCTimestampString this st
  = ISO8601.GetDateString this st ++ "T"
    ++ ISO8601.GetTimeString (with_milliseconds this) st ++ "Z".
Proof.
  unfold ISO8601.GetUTCTimestampString.
  rewrite GetDateString_nonempty, GetTimeString_nonempty.
  cbn [negb orb].
  unfold ISO8601.GetTimeString, with_milliseconds.
  cbn [ISO8601.format TimeFormat.time_string_with_milliseconds].
  destruct (TimeFormat.time_string_with_milliseconds (ISO8601.format this));
    cbn [negb]; rewrite !append_assoc; cbn [append];
    rewrite ?append_assoc; reflexivity.
Qed.

(** X24: [GetUTCTimestampString] does not depend on the formatting options
    and is never empty: whether or not the time string carries them, the
    milliseconds are written exactly once, and the result is the date
    string, ["T"], the time string with milliseconds and ["Z"].
    [GetUTCTimestampStringUSA] returns the same string.  For a year up to
    9999 and the other members within their calendar ranges the timestamp
    is 24 characters long. *)
Theorem GetUTCTimestampString_format_independent
  (this this' : ISO8601.t) (utc_st : SYSTEMTIME) :
  ISO8601.GetUTCTimestampString this utc_st
  = ISO8601.GetDateString this utc_st ++ "T"
    ++ ISO8601.GetTimeString (with_milliseconds this) utc_st ++ "Z"
  /\ ISO8601.GetUTCTimestampString this' utc_st
     = ISO8601.GetUTCTimestampString this utc_st
  /\ ISO8601.GetUTCTimestampStringUSA this utc_st
     = ISO8601.GetUTCTimestampString this utc_st
  /\ nonempty (ISO8601.GetUTCTimestampString this utc_st) = true
  /\ (0 <= wYear utc_st <= 9999 -> 0 <= wMonth utc_st <= 99 ->
      0 <= wDay utc_st <= 99 -> 0 <= wHour utc_st <= 99 ->
      0 <= wMinute utc_st <= 99 -> 0 <= wSecond utc_st <= 99 ->
      0 <= wMilliseconds utc_st <= 999 ->
      String.length (ISO8601.GetUTCTimestampString this utc_st) = 24%nat).
Proof.
  split; [apply GetUTCTimestampString_unfold |].
  split; [rewrite !GetUTCTimestampString_unfold; reflexivity |].
  split; [reflexivity |].
  split.
  - rewrite GetUTCTimestampString_unfold.
    apply nonempty_append_r. reflexivity.
  - intros Hy Hmo Hd Hh Hmi Hs Hms.
    rewrite GetUTCTimestampString_unfold.
    destruct (GetDateString_fields this utc_st) as [[Ld _] _];
      try lia.
    destruct (GetTimeString_fields (with_milliseconds this) utc_st)
      as (_ & _ & _ & _ & _ & _ & Lt); try lia.
    destruct Lt as [Lt _]; [reflexivity |].
    rewrite !length_append, Ld, Lt. reflexivity.
Qed.

(** The timestamp of the examples of [iso8601.hpp]. *)
Lemma GetUTCTimestampString_format_independent_witness :
  ISO8601.GetUTCTimestampString ISO8601_default august_11_2013
  = "2013-08-11T18:46:00.085Z"
  /\ String.length (ISO8601.GetUTCTimestampString ISO8601_default
                      august_11_2013) = 24%nat.
Proof.
  split; [vm_compute; reflexivity |].
  apply (GetUTCTimestampString_format_independent
           ISO8601_default ISO8601_default august_11_2013);
    cbn [august_11_2013 wYear wMonth wDay wHour wMinute wSecond
         wMilliseconds]; lia.
Defined.

Lemma GetDayStringEnglish_nonempty this day_of_the_week :
  nonempty (ISO8601.GetDayStringEnglish this day_of_the_week) = true
  <-> 0 <= day_of_the_week <= 6.
Proof.
  unfold ISO8601.GetDayStringEnglish.
  destruct (TimeFormat.day_string_with_abbreviation (ISO8601.format this));
    repeat (match goal with
            | |- context [?a =? ?b] => destruct (Z.eqb_spec a b)
            end); cbn; split; intros; try lia; try reflexivity;
    discriminate.
Qed.

(** X25: [GetStrings] and [GetStringsUSA] return [true] exactly when
    [wDayOfWeek] is 0 to 6: the date, the time and the offset string are
    never empty, whatever the time and the bias, so the name of the day is
    the only string that can be missing.  In particular both succeed on a
    time that [IsSystemTimeValid] accepts. *)
Theorem GetStrings_success (this : ISO8601.t) (ddt : DayDateTime.t) :
  (fst (ISO8601.GetStrings this ddt) = true
   <-> 0 <= wDayOfWeek (DayDateTime.st ddt) <= 6)
  /\ (fst (ISO8601.GetStringsUSA this ddt) = true
      <-> 0 <= wDayOfWeek (DayDateTime.st ddt) <= 6)
  /\ (IsSystemTimeValid (DayDateTime.st ddt) = true ->
      fst (ISO8601.GetStrings this ddt) = true
      /\ fst (ISO8601.GetStringsUSA this ddt) = true).
Proof.
  assert (A : fst (ISO8601.GetStrings this ddt) = true
              <-> 0 <= wDayOfWeek (DayDateTime.st ddt) <= 6).
  { unfold ISO8601.GetStrings, DayDateTime.set_strings.
    cbn [fst DayDateTime.day DayDateTime.date DayDateTime.time
         DayDateTime.offset DayDateTime.st DayDateTime.bias].
    rewrite GetDateString_nonempty, GetTimeString_nonempty,
      GetUTCOffsetString_nonempty, !andb_true_r.
    apply GetDayStringEnglish_nonempty. }
  assert (B : fst (ISO8601.GetStringsUSA this ddt) = true
              <-> 0 <= wDayOfWeek (DayDateTime.st ddt) <= 6).
  { unfold ISO8601.GetStringsUSA, DayDateTime.set_strings.
    cbn [fst DayDateTime.day DayDateTime.date DayDateTime.time
         DayDateTime.offset DayDateTime.st DayDateTime.bias].
    rewrite GetDateStringUSA_nonempty, GetTimeStringUSA_nonempty,
      GetUTCOffsetStringUSA_nonempty, !andb_true_r.
    apply GetDayStringEnglish_nonempty. }
  split; [exact A | split; [exact B |]].
  intros Hv. unfold IsSystemTimeValid in Hv.
  apply andb_prop in Hv. destruct Hv as [_ Hd].
  apply Z.eqb_eq in Hd.
  pose proof (GetDayOfWeek_range (wDay (DayDateTime.st ddt))
                (wMonth (DayDateTime.st ddt)) (wYear (DayDateTime.st ddt)))
    as Hr.
  rewrite <- Hd in Hr. split; [apply A | apply B]; exact Hr.
Qed.

(** The strings of Sunday 2013-08-11. *)
Lemma GetStrings_success_witness :
  fst (ISO8601.GetStrings ISO8601_default
         (DayDateTime.set_st DayDateTime_cleared august_11_2013)) = true.
Proof.
  apply (GetStrings_success ISO8601_default
           (DayDateTime.set_st DayDateTime_cleared august_11_2013)).
  vm_compute. reflexivity.
Defined.

End StringFacts.

(** ** [GetTimeInfo] *)

Section TimeInfoFacts.

Import Ascii String Stream.
Local Open Scope string_scope.
Local Open Scope Z_scope.

Variable NDEBUG : bool.
Variable SystemTimeToFileTime : SYSTEMTIME -> option FILETIME.
Variable FileTimeToSystemTime : FILETIME -> option SYSTEMTIME.
Variable pfnGetDynamicTimeZoneInformation
  : option (Z * DYNAMIC_TIME_ZONE_INFORMATION).
Variable pfnGetTimeZoneInformationForYear
  : option (Z -> DYNAMIC_TIME_ZONE_INFORMATION -> option TIME_ZONE_INFORMATION).
Variable GetTimeZoneInformation : Z * TIME_ZONE_INFORMATION.

(** The functions of [Platform] on the variables of this section. *)
Local Abbreviation subtract_minutes :=
  (SystemTimeSubtractMinutes SystemTimeToFileTime FileTimeToSystemTime).
Local Abbreviation utc_to_local :=
  (UTCTimeToLocalTime NDEBUG SystemTimeToFileTime FileTimeToSystemTime
     pfnGetDynamicTimeZoneInformation
     pfnGetTimeZoneInformationForYear GetTimeZoneInformation).
Local Abbreviation first_resolution_on :=
  (first_resolution NDEBUG SystemTimeToFileTime FileTimeToSystemTime
     pfnGetDynamicTimeZoneInformation
     pfnGetTimeZoneInformationForYear GetTimeZoneInformation).
Local Abbreviation local_members_on :=
  (local_members NDEBUG SystemTimeToFileTime FileTimeToSystemTime
     pfnGetDynamicTimeZoneInformation
     pfnGetTimeZoneInformationForYear GetTimeZoneInformation).
Local Abbreviation utc_members_on := (utc_members FileTimeToSystemTime).
Local Abbreviation time_info_on :=
  (time_info_for NDEBUG SystemTimeToFileTime FileTimeToSystemTime
     pfnGetDynamicTimeZoneInformation
     pfnGetTimeZoneInformationForYear GetTimeZoneInformation).
Local Abbreviation convert_to_local_on :=
  (ISO8601.convert_to_local NDEBUG SystemTimeToFileTime FileTimeToSystemTime
     pfnGetDynamicTimeZoneInformation
     pfnGetTimeZoneInformationForYear GetTimeZoneInformation).
Local Abbreviation keep_utc_on := (ISO8601.keep_utc FileTimeToSystemTime).
Local Abbreviation time_info :=
  (ISO8601.GetTimeInfoLocalOrUTC NDEBUG SystemTimeToFileTime
     FileTimeToSystemTime pfnGetDynamicTimeZoneInformation
     pfnGetTimeZoneInformationForYear GetTimeZoneInformation).
Local Abbreviation time_info_both :=
  (ISO8601.GetTimeInfo_ti_ft NDEBUG SystemTimeToFileTime
     FileTimeToSystemTime pfnGetDynamicTimeZoneInformation
     pfnGetTimeZoneInformationForYear GetTimeZoneInformation).

Lemma DayDateTime_Clear_cleared ddt :
  DayDateTime.Clear ddt = DayDateTime_cleared.
Proof. reflexivity. Qed.

(** The automatic variables of [GetTimeInfoLocalOrUTC] and the member [st]
    of the object of [ddt] are four objects. *)
Lemma automatic_objects {M : Type} (ddt : ref M DayDateTime.t) :
  holds ddt ->
  distinct_objects (@ISO8601.utc_st_ref M) (ISO8601.outer (ISO8601.st_of ddt))
                   ISO8601.tzi_id_ref ISO8601.tzi_ref.
Proof.
  intros Hh. unfold distinct_objects, holds, unaffected.
  repeat split; intros v m;
    cbn [load store ISO8601.utc_st_ref ISO8601.outer ISO8601.st_of
         ISO8601.tzi_id_ref ISO8601.tzi_ref member fst snd
         ISO8601.auto_utc_st ISO8601.auto_tzi_id ISO8601.auto_tzi];
    try reflexivity.
  rewrite Hh. reflexivity.
Qed.

(** The members of a cleared object that only [ft], [st] and [bias] have
    been written to. *)
Local Abbreviation partly_filled ft st bias :=
  (DayDateTime.mk false ft st (mkTm 0 0 0 0 0 0 0 0 0) bias
     EmptyString EmptyString EmptyString EmptyString
     (TimeFormat.mk false false false)).

(** The branch with conversion to local time, when the reference [utc_ft]
    reads [u] as long as the member [ft] of the object of [ddt] is zero. *)
Lemma convert_to_local_reads {M : Type} (ddt : ref M DayDateTime.t)
  (utc_ft : ref M FILETIME) (m : M) (u : FILETIME) :
  object ddt ->
  (forall d, DayDateTime.ft d = mkFT 0 0 -> load utc_ft (store ddt d m) = u) ->
  match convert_to_local_on ddt utc_ft (store ddt DayDateTime_cleared m),
        local_members_on u with
  | Aborted, Aborted => True
  | Returned (None, m'), Returned None => exists d, m' = store ddt d m
  | Returned (Some b, m'), Returned (Some (is_dst, ft, st, bias)) =>
      b = is_dst /\ m' = store ddt (partly_filled ft st bias) m
  | _, _ => False
  end.
Proof.
  intros (Hh & Hsl & Hss) Hread.
  unfold ISO8601.convert_to_local, local_members.
  rewrite (Hread DayDateTime_cleared eq_refl).
  destruct (FileTimeToSystemTime u) as [utc_st |];
    [| exists DayDateTime_cleared; reflexivity].
  set (m0 := (store ddt DayDateTime_cleared m,
              ISO8601.mkAutomatic utc_st 0 zero_TIME_ZONE_INFORMATION)).
  destruct (IsSystemTimeValid utc_st) eqn:Hv.
  - pose proof (UTCTimeToLocalTime_order NDEBUG SystemTimeToFileTime
                  FileTimeToSystemTime pfnGetDynamicTimeZoneInformation
                  pfnGetTimeZoneInformationForYear GetTimeZoneInformation
                  ISO8601.utc_st_ref (ISO8601.outer (ISO8601.st_of ddt))
                  ISO8601.tzi_id_ref ISO8601.tzi_ref m0
                  (automatic_objects ddt Hh) Hv) as Hord.
    change (load ISO8601.utc_st_ref m0) with utc_st in Hord.
    pose proof (fun ok m' =>
      UTCTimeToLocalTime_invariant NDEBUG SystemTimeToFileTime
        FileTimeToSystemTime pfnGetDynamicTimeZoneInformation
        pfnGetTimeZoneInformationForYear GetTimeZoneInformation
        (fun f : M * ISO8601.automatic =>
           exists v, fst f = store ddt (partly_filled (mkFT 0 0) v 0) m)
        ISO8601.utc_st_ref (ISO8601.outer (ISO8601.st_of ddt))
        ISO8601.tzi_id_ref ISO8601.tzi_ref m0 m' ok) as Hinv.
    cbn beta in Hinv.
    assert (Hshape : forall ok m',
              utc_to_local ISO8601.utc_st_ref
                (ISO8601.outer (ISO8601.st_of ddt))
                ISO8601.tzi_id_ref ISO8601.tzi_ref m0 = Returned (ok, m') ->
              exists v, fst m' = store ddt (partly_filled (mkFT 0 0) v 0) m).
    { intros ok m'. apply Hinv.
      - intros v f (v0 & E). exists v.
        cbn [load store ISO8601.outer ISO8601.st_of member fst snd].
        rewrite E, Hh, Hss. reflexivity.
      - intros v f (v0 & E). exists v0. exact E.
      - intros v f (v0 & E). exists v0. exact E.
      - exists zero_SYSTEMTIME. reflexivity. }
    clear Hinv. unfold conversion_agrees in Hord.
    destruct (first_resolution_on utc_st (rule_set_attempts utc_st))
      as [[s |] |].
    + destruct Hord as (m' & E & _ & Hl & Hi & Ht).
      destruct (Hshape _ _ E) as (v & Ev).
      rewrite E. destruct m' as [m1 a]. cbn [fst] in Ev. subst m1.
      cbn [load store ISO8601.outer ISO8601.st_of member fst snd
           ISO8601.tzi_id_ref ISO8601.tzi_ref] in Hl, Hi, Ht.
      rewrite Hh in Hl. cbn [DayDateTime.st] in Hl. subst v.
      cbv zeta. rewrite Hi, Ht. unfold bias_for.
      assert (Hstep : forall (is_dst : bool) (b : Z),
        match
          (let m2 :=
             store (ISO8601.ft_of ddt)
               (load utc_ft
                  (store (ISO8601.bias_of ddt) b
                     (store ddt
                        (partly_filled (mkFT 0 0) (out_local_time s) 0) m)))
               (store (ISO8601.bias_of ddt) b
                  (store ddt
                     (partly_filled (mkFT 0 0) (out_local_time s) 0) m)) in
           match FileTimeSubtractMinutes (load (ISO8601.ft_of ddt) m2)
                   (load (ISO8601.bias_of ddt) m2) with
           | (false, ft) =>
               Returned (@None bool, store (ISO8601.ft_of ddt) ft m2)
           | (true, ft) =>
               Returned (Some is_dst, store (ISO8601.ft_of ddt) ft m2)
           end),
          match FileTimeSubtractMinutes u b with
          | (true, ft) =>
              Returned (Some (is_dst, ft, out_local_time s, b))
          | (false, _) => Returned None
          end
        with
        | Aborted, Aborted => True
        | Returned (None, m'), Returned None => exists d, m' = store ddt d m
        | Returned (Some b0, m'), Returned (Some (is_dst0, ft, st, bias)) =>
            b0 = is_dst0 /\ m' = store ddt (partly_filled ft st bias) m
        | _, _ => False
        end).
      { intros is_dst b. cbv zeta.
        cbn [load store ISO8601.ft_of ISO8601.bias_of member].
        rewrite ?Hh, ?Hss.
        cbn [DayDateTime.set_bias DayDateTime.set_ft DayDateTime.ft
             DayDateTime.bias DayDateTime.valid DayDateTime.st
             DayDateTime.tm DayDateTime.day DayDateTime.date
             DayDateTime.time DayDateTime.offset DayDateTime.format].
        rewrite Hread by reflexivity.
        rewrite ?Hh, ?Hss.
        cbn [DayDateTime.set_bias DayDateTime.set_ft DayDateTime.ft
             DayDateTime.bias DayDateTime.valid DayDateTime.st
             DayDateTime.tm DayDateTime.day DayDateTime.date
             DayDateTime.time DayDateTime.offset DayDateTime.format].
        destruct (FileTimeSubtractMinutes u b) as [[] ft].
        - rewrite ?Hh, ?Hss. split; reflexivity.
        - rewrite ?Hh, ?Hss. eexists. reflexivity. }
      destruct (out_tzi_id s =? TIME_ZONE_ID_DAYLIGHT); [apply Hstep |].
      destruct (out_tzi_id s =? TIME_ZONE_ID_STANDARD); [apply Hstep |].
      destruct (out_tzi_id s =? TIME_ZONE_ID_UNKNOWN); [apply Hstep |].
      eexists. reflexivity.
    + destruct Hord as (m' & E & _).
      destruct (Hshape _ _ E) as (v & Ev).
      rewrite E. destruct m' as [m1 a]. cbn [fst] in Ev. subst m1.
      eexists. reflexivity.
    + rewrite Hord. exact I.
  - unfold UTCTimeToLocalTime.
    change (load ISO8601.utc_st_ref m0) with utc_st. rewrite Hv.
    cbn [negb]. unfold m0. eexists. reflexivity.
Qed.

(** The branch without conversion. *)
Lemma keep_utc_reads {M : Type} (ddt : ref M DayDateTime.t)
  (utc_ft : ref M FILETIME) (m : M) (u : FILETIME) :
  object ddt ->
  (forall d, DayDateTime.ft d = mkFT 0 0 -> load utc_ft (store ddt d m) = u) ->
  match keep_utc_on ddt utc_ft (store ddt DayDateTime_cleared m),
        utc_members_on u with
  | Aborted, Aborted => True
  | Returned (None, m'), Returned None => exists d, m' = store ddt d m
  | Returned (Some b, m'), Returned (Some (is_dst, ft, st, bias)) =>
      b = is_dst /\ m' = store ddt (partly_filled ft st bias) m
  | _, _ => False
  end.
Proof.
  intros (Hh & Hsl & Hss) Hread.
  unfold ISO8601.keep_utc, utc_members. cbv zeta.
  cbn [load store ISO8601.ft_of ISO8601.st_of ISO8601.bias_of member].
  rewrite (Hread DayDateTime_cleared eq_refl).
  rewrite ?Hh, ?Hss. cbn [DayDateTime.set_ft DayDateTime.ft].
  destruct (FileTimeToSystemTime u) as [st |].
  - rewrite ?Hh, ?Hss. split; reflexivity.
  - eexists. reflexivity.
Qed.

Lemma FileTimeSubtractMinutes_ticks ft minutes ft' :
  wf_FILETIME ft -> - max_minutes <= minutes <= max_minutes ->
  FileTimeSubtractMinutes ft minutes = (true, ft') ->
  QuadPart ft' = QuadPart ft - 600000000 * minutes.
Proof.
  intros Hft Hm E.
  assert (Hp : is_s64 (minutes * 10000 * 1000 * 60))
    by (unfold is_s64, max_minutes in *; lia).
  assert (Hn : is_s64 (minutes * 600000000))
    by (unfold is_s64, max_minutes in *; lia).
  unfold FileTimeSubtractMinutes in E.
  rewrite (minutes_to_intervals_exact _ Hp) in E.
  destruct (FileTimeSubtract100nsIntervals_success _ _ _ Hft Hn E)
    as [[D1 D2] ->].
  rewrite QuadPart_of_QuadPart by (unfold is_s64, max_ticks in *; lia).
  lia.
Qed.

Lemma GetStrings_valid this ddt :
  IsSystemTimeValid (DayDateTime.st ddt) = true ->
  fst (ISO8601.GetStrings this ddt) = true
  /\ fst (ISO8601.GetStringsUSA this ddt) = true.
Proof.
  intros Hv. unfold IsSystemTimeValid in Hv.
  apply andb_prop in Hv. destruct Hv as [_ Hd].
  apply Z.eqb_eq in Hd.
  pose proof (GetDayOfWeek_range (wDay (DayDateTime.st ddt))
                (wMonth (DayDateTime.st ddt)) (wYear (DayDateTime.st ddt)))
    as Hr.
  rewrite <- Hd in Hr.
  apply (GetDayStringEnglish_nonempty this) in Hr.
  unfold ISO8601.GetStrings, ISO8601.GetStringsUSA, DayDateTime.set_strings,
    ISO8601.GetDayString, ISO8601.GetDayStringUSA.
  cbn [fst DayDateTime.day DayDateTime.date DayDateTime.time
       DayDateTime.offset DayDateTime.st DayDateTime.bias].
  rewrite Hr, GetDateString_nonempty, GetTimeString_nonempty,
    GetUTCOffsetString_nonempty, GetDateStringUSA_nonempty,
    GetTimeStringUSA_nonempty, GetUTCOffsetStringUSA_nonempty.
  split; reflexivity.
Qed.

(** [GetTimeInfoLocalOrUTC] in one piece, when the reference [utc_ft]
    reads [u] as long as the member [ft] of the object of [ddt] is zero:
    the object of [ddt] is the only one written, and what is written and
    returned is [time_info_for] of [u]. *)
Lemma GetTimeInfoLocalOrUTC_reads {M : Type} (this : ISO8601.t)
  (ddt : ref M DayDateTime.t) (utc_ft : ref M FILETIME)
  (convert_to_local_time : bool) (m : M) (u : FILETIME) :
  object ddt ->
  (forall d, DayDateTime.ft d = mkFT 0 0 -> load utc_ft (store ddt d m) = u) ->
  time_info this ddt utc_ft convert_to_local_time m
  = match time_info_on this convert_to_local_time u with
    | Aborted => Aborted
    | Returned (ok, d) => Returned (ok, store ddt d m)
    end.
Proof.
  intros Hobj Hread. pose proof Hobj as (Hh & Hsl & Hss).
  assert (Hbranch :
    match (if convert_to_local_time
           then convert_to_local_on ddt utc_ft
                  (store ddt DayDateTime_cleared m)
           else keep_utc_on ddt utc_ft (store ddt DayDateTime_cleared m)),
          (if convert_to_local_time then local_members_on u
           else utc_members_on u) with
    | Aborted, Aborted => True
    | Returned (None, m'), Returned None => exists d, m' = store ddt d m
    | Returned (Some b, m'), Returned (Some (is_dst, ft, st, bias)) =>
        b = is_dst /\ m' = store ddt (partly_filled ft st bias) m
    | _, _ => False
    end).
  { destruct convert_to_local_time;
      [apply convert_to_local_reads | apply keep_utc_reads]; assumption. }
  unfold ISO8601.GetTimeInfoLocalOrUTC, time_info_for. cbv zeta.
  change (DayDateTime.Clear (load ddt m)) with DayDateTime_cleared.
  rewrite (Hread DayDateTime_cleared eq_refl).
  destruct (IsFileTimeValid u); cbn [negb];
    [| rewrite DayDateTime_Clear_cleared, Hss; reflexivity].
  destruct (if convert_to_local_time
            then convert_to_local_on ddt utc_ft
                   (store ddt DayDateTime_cleared m)
            else keep_utc_on ddt utc_ft (store ddt DayDateTime_cleared m))
    as [[[b |] m'] |];
    destruct (if convert_to_local_time then local_members_on u
              else utc_members_on u)
      as [[[[[is_dst ft] st] bias] |] |];
    try contradiction; [| | reflexivity].
  - destruct Hbranch as [-> ->].
    cbn [load store ISO8601.st_of ISO8601.tm_of ISO8601.format_of
         ISO8601.valid_of member].
    rewrite ?Hh. cbn [DayDateTime.st DayDateTime.tm].
    unfold SystemTimeToTm at 1.
    destruct (IsSystemTimeValid st) eqn:Hv; cbn [negb];
      [| rewrite Hss; reflexivity].
    cbv zeta. rewrite ?Hh, ?Hss.
    match goal with
    | |- context [DayDateTime.set_tm ?d ?t] =>
        set (d' := DayDateTime.set_tm d t)
    end.
    assert (Hv' : IsSystemTimeValid (DayDateTime.st d') = true) by exact Hv.
    destruct (GetStrings_valid this d' Hv') as [G1 G2].
    unfold DayDateTime_filled, SystemTimeToTm. rewrite Hv. cbn [negb snd].
    destruct (TimeFormat.usa_style (ISO8601.format this)).
    + destruct (ISO8601.GetStringsUSA this d') as [ok e] eqn:Eg.
      cbn [fst] in G2. subst ok.
      unfold ISO8601.GetStringsUSA in Eg. injection Eg as _ <-.
      rewrite ?Hh, ?Hss. rewrite ?Hh, ?Hss. reflexivity.
    + destruct (ISO8601.GetStrings this d') as [ok e] eqn:Eg.
      cbn [fst] in G1. subst ok.
      unfold ISO8601.GetStrings in Eg. injection Eg as _ <-.
      rewrite ?Hh, ?Hss. rewrite ?Hh, ?Hss. reflexivity.
  - destruct Hbranch as (d & ->).
    rewrite DayDateTime_Clear_cleared, Hss. reflexivity.
Qed.

Lemma string_functions_format this this' :
  ISO8601.format this' = ISO8601.format this ->
  forall is_dst ft st bias,
    DayDateTime_filled this' is_dst ft st bias
    = DayDateTime_filled this is_dst ft st bias.
Proof.
  intros E is_dst ft st bias.
  unfold DayDateTime_filled, ISO8601.GetDayStringEnglish,
    ISO8601.GetDateString, ISO8601.GetDateStringUSA, ISO8601.GetTimeString,
    ISO8601.GetTimeStringUSA, ISO8601.GetUTCOffsetString,
    ISO8601.GetUTCOffsetStringUSA.
  rewrite E. reflexivity.
Qed.

Lemma time_info_for_format this this' c u :
  ISO8601.format this' = ISO8601.format this ->
  time_info_on this' c u = time_info_on this c u.
Proof.
  intros E. unfold time_info_for.
  destruct (negb (IsFileTimeValid u)); [reflexivity |].
  destruct (if c then local_members_on u else utc_members_on u)
    as [[[[[is_dst ft] st] bias] |] |]; try reflexivity.
  now rewrite (string_functions_format this this' E).
Qed.

(** What [time_info_for] gives. *)
Lemma time_info_for_contract this c u :
  match time_info_on this c u with
  | Aborted => c = true
  | Returned (ok, d) =>
      DayDateTime.valid d = ok
      /\ (ok = false -> d = DayDateTime_cleared)
      /\ (ok = true ->
          IsFileTimeValid u = true
          /\ IsSystemTimeValid (DayDateTime.st d) = true
          /\ (exists is_dst,
                d = DayDateTime_filled this is_dst (DayDateTime.ft d)
                      (DayDateTime.st d) (DayDateTime.bias d))
          /\ nonempty (DayDateTime.day d) = true
          /\ nonempty (DayDateTime.date d) = true
          /\ nonempty (DayDateTime.time d) = true
          /\ nonempty (DayDateTime.offset d) = true)
  end.
Proof.
  unfold time_info_for.
  destruct (IsFileTimeValid u); cbn [negb];
    [| repeat split; auto; discriminate].
  destruct (if c then local_members_on u else utc_members_on u)
    as [[[[[is_dst ft] st] bias] |] |] eqn:Eb;
    [| repeat split; auto; discriminate
     | destruct c; [reflexivity |];
       unfold utc_members in Eb;
       destruct (FileTimeToSystemTime u); discriminate Eb].
  destruct (IsSystemTimeValid st) eqn:Hv;
    [| repeat split; auto; discriminate].
  split; [reflexivity |]. split; [discriminate |]. intros _.
  split; [reflexivity |]. split; [exact Hv |].
  split; [exists is_dst; reflexivity |].
  set (d := DayDateTime_filled this is_dst ft st bias).
  assert (Hv' : IsSystemTimeValid (DayDateTime.st d) = true) by exact Hv.
  destruct (GetStrings_valid this d Hv') as [G1 G2].
  unfold ISO8601.GetStrings, ISO8601.GetStringsUSA, DayDateTime.set_strings,
    ISO8601.GetDayString, ISO8601.GetDayStringUSA in G1, G2.
  cbn [fst DayDateTime.day DayDateTime.date DayDateTime.time
       DayDateTime.offset DayDateTime.st DayDateTime.bias] in G1, G2.
  apply andb_prop in G1, G2. destruct G1 as [G1 O1], G2 as [G2 O2].
  apply andb_prop in G1, G2. destruct G1 as [G1 T1], G2 as [G2 T2].
  apply andb_prop in G1, G2. destruct G1 as [D1 A1], G2 as [D2 A2].
  unfold d, DayDateTime_filled.
  cbn [DayDateTime.day DayDateTime.date DayDateTime.time DayDateTime.offset
       DayDateTime.st DayDateTime.bias] in *.
  destruct (TimeFormat.usa_style (ISO8601.format this)); auto.
Qed.

(** The two ways in which the reference [utc_ft] reads one value during
    the call: it is outside the object of [ddt], or it is the member [ft]
    of that object, which [Clear] sets to zero. *)
Lemma reads_outside {M : Type} (ddt : ref M DayDateTime.t)
  (utc_ft : ref M FILETIME) (m : M) :
  unaffected utc_ft ddt ->
  forall d, DayDateTime.ft d = mkFT 0 0 ->
            load utc_ft (store ddt d m) = load utc_ft m.
Proof. intros Hu d _. apply Hu. Qed.

Lemma reads_in_place {M : Type} (ddt : ref M DayDateTime.t) (m : M) :
  holds ddt ->
  forall d, DayDateTime.ft d = mkFT 0 0 ->
            load (ISO8601.ft_of ddt) (store ddt d m) = mkFT 0 0.
Proof.
  intros Hh d E. cbn [load ISO8601.ft_of member]. now rewrite Hh.
Qed.

Lemma beside_the_filetime_object {A : Type} :
  object (@beside_the_filetime A)
  /\ unaffected (@the_filetime A) (@beside_the_filetime A).
Proof.
  unfold object, holds, unaffected. repeat split.
  intros [u a]. reflexivity.
Qed.

(** The call of a caller whose [FILETIME] is next to its [DayDateTime]. *)
Lemma GetTimeInfoLocalOrUTC_beside this c u d0 :
  time_info this beside_the_filetime the_filetime c (u, d0)
  = match time_info_on this c u with
    | Aborted => Aborted
    | Returned (ok, d) => Returned (ok, (u, d))
    end.
Proof.
  destruct (@beside_the_filetime_object DayDateTime.t) as [Ho Hu].
  rewrite (GetTimeInfoLocalOrUTC_reads this beside_the_filetime the_filetime
             c (u, d0) u Ho (reads_outside _ _ _ Hu)).
  destruct (time_info_on this c u) as [[ok d] |]; reflexivity.
Qed.

(** X26: called with a [FILETIME] outside the object of [ddt],
    [GetTimeInfoLocalOrUTC] never reads what that object held, and of the
    [ISO8601] object it reads [format] alone: [dst_start_year],
    [ignore_dst] and [prefer_local_time] have no effect.  Only the
    conversion to local time can end the process.  When the call returns,
    the object of [ddt] is the only one written, the [FILETIME] is as it
    was, and the member [valid] is the value returned.  On failure the
    object is the cleared one.  On success the time is valid, as is the
    UTC [FILETIME] passed in, and every other member of the object follows
    from its [ft], [st] and [bias]: [tm] is what [SystemTimeToTm] gives for
    [st], and the four strings, none of them empty, are those of [st] and
    [bias] in the style of [format].  Called with the member [ft] of the
    object itself, as in [GetTimeInfo( ddt, ddt.ft )], the function reads
    the [FILETIME] after it has cleared the object: it does what it does
    for a caller who passes tick 0 in a [FILETIME] of its own, whatever
    the member held. *)
Theorem GetTimeInfoLocalOrUTC_contract {M : Type} (this this' : ISO8601.t)
  (ddt : ref M DayDateTime.t) (utc_ft : ref M FILETIME)
  (convert_to_local_time : bool) (m : M) :
  object ddt ->
  (unaffected utc_ft ddt ->
   (forall d0,
      time_info this ddt utc_ft convert_to_local_time (store ddt d0 m)
      = time_info this ddt utc_ft convert_to_local_time m)
   /\ (ISO8601.format this' = ISO8601.format this ->
       time_info this' ddt utc_ft convert_to_local_time m
       = time_info this ddt utc_ft convert_to_local_time m)
   /\ match time_info this ddt utc_ft convert_to_local_time m with
      | Aborted => convert_to_local_time = true
      | Returned (ok, m') =>
          let d := load ddt m' in
          m' = store ddt d m
          /\ load utc_ft m' = load utc_ft m
          /\ DayDateTime.valid d = ok
          /\ (ok = false -> d = DayDateTime_cleared)
          /\ (ok = true ->
              IsFileTimeValid (load utc_ft m) = true
              /\ IsSystemTimeValid (DayDateTime.st d) = true
              /\ (exists is_dst,
                    d = DayDateTime_filled this is_dst (DayDateTime.ft d)
                          (DayDateTime.st d) (DayDateTime.bias d))
              /\ nonempty (DayDateTime.day d) = true
              /\ nonempty (DayDateTime.date d) = true
              /\ nonempty (DayDateTime.time d) = true
              /\ nonempty (DayDateTime.offset d) = true)
      end)
  /\ time_info this ddt (ISO8601.ft_of ddt) convert_to_local_time m
     = match time_info this beside_the_filetime the_filetime
               convert_to_local_time (mkFT 0 0, DayDateTime_cleared) with
       | Aborted => Aborted
       | Returned (ok, (_, d)) => Returned (ok, store ddt d m)
       end.
Proof.
  intros Hobj. pose proof Hobj as (Hh & Hsl & Hss). split.
  - intros Hu. split; [| split].
    + intros d0.
      rewrite (GetTimeInfoLocalOrUTC_reads this ddt utc_ft
                 convert_to_local_time (store ddt d0 m) (load utc_ft m) Hobj)
        by (intros d _; rewrite !Hu; reflexivity).
      rewrite (GetTimeInfoLocalOrUTC_reads this ddt utc_ft
                 convert_to_local_time m (load utc_ft m) Hobj
                 (reads_outside _ _ _ Hu)).
      destruct (time_info_on _ _ _) as [[ok d] |]; [| reflexivity].
      now rewrite Hss.
    + intros E.
      rewrite !(fun t => GetTimeInfoLocalOrUTC_reads t ddt utc_ft
                  convert_to_local_time m (load utc_ft m) Hobj
                  (reads_outside _ _ _ Hu)).
      now rewrite (time_info_for_format this this' _ _ E).
    + rewrite (GetTimeInfoLocalOrUTC_reads this ddt utc_ft
                 convert_to_local_time m (load utc_ft m) Hobj
                 (reads_outside _ _ _ Hu)).
      pose proof (time_info_for_contract this convert_to_local_time
                    (load utc_ft m)) as Hc.
      destruct (time_info_on _ _ _) as [[ok d] |]; [| exact Hc].
      cbv zeta.
      assert (El : load ddt (store ddt d m) = d) by apply Hh.
      rewrite !El, Hu. auto.
  - rewrite (GetTimeInfoLocalOrUTC_reads this ddt (ISO8601.ft_of ddt)
               convert_to_local_time m (mkFT 0 0) Hobj
               (reads_in_place _ _ Hh)).
    rewrite GetTimeInfoLocalOrUTC_beside.
    destruct (time_info_on _ _ _) as [[ok d] |]; reflexivity.
Qed.

(** X27: without conversion to local time and with a [FILETIME] outside
    the object of [ddt], [GetTimeInfoLocalOrUTC] returns, having written
    that object alone, and succeeds exactly when [IsFileTimeValid] accepts
    [utc_ft], [FileTimeToSystemTime] converts it, and [IsSystemTimeValid]
    accepts the result.  The object then holds [utc_ft] itself and that
    time, with the bias 0, [tm_isdst] 0 and the offset string ["Z"], or
    ["(UTC)"] in the USA style.  Called with the member [ft] of the object
    itself, it succeeds exactly when tick 0 converts to a valid time, and
    the object then holds tick 0 and that time. *)
Theorem GetTimeInfoLocalOrUTC_utc {M : Type} (this : ISO8601.t)
  (ddt : ref M DayDateTime.t) (utc_ft : ref M FILETIME) (m : M) :
  object ddt ->
  let describes (u : FILETIME) (ok : bool) (d : DayDateTime.t) :=
    (ok = true <->
     IsFileTimeValid u = true
     /\ exists st, FileTimeToSystemTime u = Some st
                   /\ IsSystemTimeValid st = true)
    /\ (ok = true ->
        DayDateTime.ft d = u
        /\ FileTimeToSystemTime u = Some (DayDateTime.st d)
        /\ DayDateTime.bias d = 0
        /\ tm_isdst (DayDateTime.tm d) = 0
        /\ DayDateTime.offset d
           = (if TimeFormat.usa_style (ISO8601.format this) then "(UTC)"
              else "Z")
        /\ d = DayDateTime_filled this false u (DayDateTime.st d) 0) in
  (unaffected utc_ft ddt ->
   exists ok d,
     time_info this ddt utc_ft false m = Returned (ok, store ddt d m)
     /\ load ddt (store ddt d m) = d
     /\ load utc_ft (store ddt d m) = load utc_ft m
     /\ describes (load utc_ft m) ok d)
  /\ (exists ok d,
        time_info this ddt (ISO8601.ft_of ddt) false m
        = Returned (ok, store ddt d m)
        /\ load ddt (store ddt d m) = d
        /\ describes (mkFT 0 0) ok d).
Proof.
  intros Hobj. pose proof Hobj as (Hh & Hsl & Hss). cbv zeta.
  assert (Hvalue : forall u,
    exists ok d,
      time_info_on this false u = Returned (ok, d)
      /\ (ok = true <->
          IsFileTimeValid u = true
          /\ exists st, FileTimeToSystemTime u = Some st
                        /\ IsSystemTimeValid st = true)
      /\ (ok = true ->
          DayDateTime.ft d = u
          /\ FileTimeToSystemTime u = Some (DayDateTime.st d)
          /\ DayDateTime.bias d = 0
          /\ tm_isdst (DayDateTime.tm d) = 0
          /\ DayDateTime.offset d
             = (if TimeFormat.usa_style (ISO8601.format this) then "(UTC)"
                else "Z")
          /\ d = DayDateTime_filled this false u (DayDateTime.st d) 0)).
  { intros u. unfold time_info_for, utc_members.
    destruct (IsFileTimeValid u); cbn [negb].
    - destruct (FileTimeToSystemTime u) as [st |].
      + destruct (IsSystemTimeValid st) eqn:Hv.
        * eexists _, _. split; [reflexivity |]. split.
          -- split; [intros _; split; [reflexivity | exists st; auto]
                    | reflexivity].
          -- intros _. unfold DayDateTime_filled at 1 2 3 4 5,
               SystemTimeToTm.
             rewrite Hv. repeat split; reflexivity.
        * eexists _, _. split; [reflexivity |].
          split; [| discriminate].
          split; [discriminate |].
          intros [_ (st' & E & Hv')]. injection E as <-.
          rewrite Hv in Hv'. discriminate Hv'.
      + eexists _, _. split; [reflexivity |].
        split; [| discriminate].
        split; [discriminate | intros [_ (st & E & _)]; discriminate E].
    - eexists _, _. split; [reflexivity |].
      split; [| discriminate].
      split; [discriminate | intros [E _]; discriminate E]. }
  split.
  - intros Hu.
    destruct (Hvalue (load utc_ft m)) as (ok & d & E & H).
    exists ok, d.
    rewrite (GetTimeInfoLocalOrUTC_reads this ddt utc_ft false m
               (load utc_ft m) Hobj (reads_outside _ _ _ Hu)), E.
    rewrite Hh, Hu. auto.
  - destruct (Hvalue (mkFT 0 0)) as (ok & d & E & H).
    exists ok, d.
    rewrite (GetTimeInfoLocalOrUTC_reads this ddt (ISO8601.ft_of ddt) false
               m (mkFT 0 0) Hobj (reads_in_place _ _ Hh)), E.
    rewrite Hh. auto.
Qed.

Lemma bias_for_cases id tzi is_dst bias :
  bias_for id tzi = Some (is_dst, bias) ->
  (id = TIME_ZONE_ID_DAYLIGHT /\ is_dst = true
   /\ bias = s32 (Bias tzi + DaylightBias tzi))
  \/ (id = TIME_ZONE_ID_STANDARD /\ is_dst = false
      /\ bias = s32 (Bias tzi + StandardBias tzi))
  \/ (id = TIME_ZONE_ID_UNKNOWN /\ is_dst = false /\ bias = Bias tzi).
Proof.
  unfold bias_for.
  destruct (Z.eqb_spec id TIME_ZONE_ID_DAYLIGHT);
    [intros E; injection E as <- <-; auto |].
  destruct (Z.eqb_spec id TIME_ZONE_ID_STANDARD);
    [intros E; injection E as <- <-; auto |].
  destruct (Z.eqb_spec id TIME_ZONE_ID_UNKNOWN);
    [intros E; injection E as <- <-; auto 6 | discriminate].
Qed.

Lemma s32_bounds z : - 2 ^ 31 <= s32 z < 2 ^ 31.
Proof. unfold s32. pose proof (Z.mod_pos_bound (z + 2 ^ 31) (2 ^ 32)). lia. Qed.

Lemma AreTimezoneBiasesValid_Bias tzi :
  AreTimezoneBiasesValid tzi = true -> - 1440 <= Bias tzi <= 1440.
Proof.
  unfold AreTimezoneBiasesValid, max_diff.
  change (s32 (- (24 * 60))) with (-1440).
  change (24 * 60) with 1440.
  destruct (Z.ltb_spec 0 (Bias tzi)); destruct (Z.ltb_spec 1440 (Bias tzi));
    destruct (Z.ltb_spec (Bias tzi) 0);
    destruct (Z.ltb_spec (Bias tzi) (-1440));
    cbn [andb orb]; try discriminate; intros _; lia.
Qed.

(** A resolution is what [UTCTimeToLocalTime] returns to a caller with four
    objects. *)
Lemma UTCTimeToLocalTime_four_objects utc_st s0 s :
  IsSystemTimeValid utc_st = true ->
  first_resolution_on utc_st (rule_set_attempts utc_st)
  = Returned (Some s) ->
  utc_to_local utc_of local_time_of tzi_id_of tzi_of (utc_st, s0)
  = Returned (true, (utc_st, s)).
Proof.
  intros Hv Ef.
  pose proof (UTCTimeToLocalTime_order NDEBUG SystemTimeToFileTime
                FileTimeToSystemTime pfnGetDynamicTimeZoneInformation
                pfnGetTimeZoneInformationForYear GetTimeZoneInformation
                utc_of local_time_of tzi_id_of tzi_of (utc_st, s0)
                four_objects Hv) as Hord.
  change (load utc_of (utc_st, s0)) with utc_st in Hord.
  unfold conversion_agrees in Hord. rewrite Ef in Hord.
  destruct Hord as ([u' [l i t]] & E & Hu & Hl & Hi & Ht).
  cbn [load utc_of local_time_of tzi_id_of tzi_of fst snd out_local_time
       out_tzi_id out_tzi] in Hu, Hl, Hi, Ht.
  rewrite E. subst. destruct s; reflexivity.
Qed.

(** What a resolution consists of. *)
Lemma first_resolution_result utc_st s :
  first_resolution_on utc_st (rule_set_attempts utc_st)
  = Returned (Some s) ->
  IsTimezoneInfoValid (out_tzi s) true = true
  /\ ((out_tzi_id s = TIME_ZONE_ID_UNKNOWN
       /\ subtract_minutes utc_st (Bias (out_tzi s))
          = (true, out_local_time s))
      \/ (out_tzi_id s = TIME_ZONE_ID_STANDARD
          /\ subtract_minutes utc_st
               (s32 (Bias (out_tzi s) + StandardBias (out_tzi s)))
             = (true, out_local_time s))
      \/ (out_tzi_id s = TIME_ZONE_ID_DAYLIGHT
          /\ subtract_minutes utc_st
               (s32 (Bias (out_tzi s) + DaylightBias (out_tzi s)))
             = (true, out_local_time s))).
Proof.
  intros Ef.
  destruct (first_resolution_In _ _ _ _ _ _ _ _ _ Ef)
    as ([year strict] & _ & Ha).
  destruct (attempt_Some _ _ _ _ _ _ _ _ _ _ Ha)
    as (Hy & Ht & El & Hid & Heff).
  rewrite <- Heff in Hy.
  exact (GetLocalTimeForTimezone_pairs _ _ _ _ _ _ _ _ _ _ Hy El Hid).
Qed.

(** X28: called with a [FILETIME] outside the object of [ddt], when
    [GetTimeInfoLocalOrUTC] converts to local time and succeeds, the
    object of [ddt] is the only one written and holds the local time that
    [UTCTimeToLocalTime] gives a caller with four objects for the system
    time of [utc_ft].  Its bias is the one that goes with the id returned
    there, [Bias + DaylightBias], [Bias + StandardBias] or [Bias], and
    [tm_isdst] is 1 for daylight time alone.  The local time is the UTC
    time less the bias, and [ft] is [utc_ft] moved back by exactly
    600000000 ticks for each minute of the bias.  The last [else] of the
    source is never reached: whenever the call of [UTCTimeToLocalTime] in
    the function returns [true], the id it leaves in [tzi_id] is one of
    the three. *)
Theorem GetTimeInfoLocalOrUTC_local {M : Type} (this : ISO8601.t)
  (ddt : ref M DayDateTime.t) (utc_ft : ref M FILETIME) (m m' : M) :
  object ddt -> unaffected utc_ft ddt ->
  (forall utc_st m0 m1 a,
     utc_to_local ISO8601.utc_st_ref (ISO8601.outer (ISO8601.st_of ddt))
       ISO8601.tzi_id_ref ISO8601.tzi_ref
       (m0, ISO8601.mkAutomatic utc_st 0 zero_TIME_ZONE_INFORMATION)
     = Returned (true, (m1, a)) ->
     ISO8601.auto_tzi_id a = TIME_ZONE_ID_DAYLIGHT
     \/ ISO8601.auto_tzi_id a = TIME_ZONE_ID_STANDARD
     \/ ISO8601.auto_tzi_id a = TIME_ZONE_ID_UNKNOWN)
  /\ (time_info this ddt utc_ft true m = Returned (true, m') ->
      let u := load utc_ft m in
      let r := load ddt m' in
      m' = store ddt r m
      /\ load utc_ft m' = u
      /\ exists utc_st s,
           FileTimeToSystemTime u = Some utc_st
           /\ utc_to_local utc_of local_time_of tzi_id_of tzi_of
                (utc_st, zero_state) = Returned (true, (utc_st, s))
           /\ DayDateTime.st r = out_local_time s
           /\ ((out_tzi_id s = TIME_ZONE_ID_DAYLIGHT
                /\ DayDateTime.bias r
                   = s32 (Bias (out_tzi s) + DaylightBias (out_tzi s))
                /\ tm_isdst (DayDateTime.tm r) = 1)
               \/ (out_tzi_id s = TIME_ZONE_ID_STANDARD
                   /\ DayDateTime.bias r
                      = s32 (Bias (out_tzi s) + StandardBias (out_tzi s))
                   /\ tm_isdst (DayDateTime.tm r) = 0)
               \/ (out_tzi_id s = TIME_ZONE_ID_UNKNOWN
                   /\ DayDateTime.bias r = Bias (out_tzi s)
                   /\ tm_isdst (DayDateTime.tm r) = 0))
           /\ subtract_minutes utc_st (DayDateTime.bias r)
              = (true, DayDateTime.st r)
           /\ FileTimeSubtractMinutes u (DayDateTime.bias r)
              = (true, DayDateTime.ft r)
           /\ (wf_FILETIME u ->
               QuadPart (DayDateTime.ft r)
               = QuadPart u - 600000000 * DayDateTime.bias r)).
Proof.
  intros Hobj Hu. pose proof Hobj as (Hh & Hsl & Hss). split.
  - intros utc_st m0 m1 a E.
    destruct (UTCTimeToLocalTime_on_objects NDEBUG SystemTimeToFileTime
                FileTimeToSystemTime pfnGetDynamicTimeZoneInformation
                pfnGetTimeZoneInformationForYear GetTimeZoneInformation
                _ _ _ _ _ _ (automatic_objects ddt Hh) E)
      as (_ & _ & _ & _ & H).
    cbn [load ISO8601.tzi_id_ref snd] in H.
    destruct H as [[H _] | [[H _] | [H _]]]; auto.
  - rewrite (GetTimeInfoLocalOrUTC_reads this ddt utc_ft true m
               (load utc_ft m) Hobj (reads_outside _ _ _ Hu)).
    unfold time_info_for, local_members.
    destruct (IsFileTimeValid (load utc_ft m)); cbn [negb];
      [| discriminate].
    destruct (FileTimeToSystemTime (load utc_ft m)) as [utc_st |] eqn:Ef;
      [| discriminate].
    destruct (IsSystemTimeValid utc_st) eqn:Hvu; [| discriminate].
    destruct (first_resolution_on utc_st (rule_set_attempts utc_st))
      as [[s |] |] eqn:Er; try discriminate.
    destruct (bias_for (out_tzi_id s) (out_tzi s)) as [[is_dst bias] |]
      eqn:Eb; [| discriminate].
    destruct (FileTimeSubtractMinutes (load utc_ft m) bias) as [[] ft]
      eqn:Es; [| discriminate].
    destruct (IsSystemTimeValid (out_local_time s)) eqn:Hv;
      [| discriminate].
    intros E. injection E as <-. cbv zeta.
    assert (El : forall d, load ddt (store ddt d m) = d)
      by (intros d; apply Hh).
    rewrite !El, Hu.
    split; [reflexivity |]. split; [reflexivity |].
    exists utc_st, s.
    assert (Etm : tm_isdst
                    (DayDateTime.tm
                       (DayDateTime_filled this is_dst ft
                          (out_local_time s) bias))
                  = if is_dst then 1 else 0).
    { unfold DayDateTime_filled, SystemTimeToTm. rewrite Hv. reflexivity. }
    rewrite Etm.
    cbn [DayDateTime_filled DayDateTime.st DayDateTime.bias DayDateTime.ft].
    destruct (first_resolution_result _ _ Er) as (Hinfo & Hpair).
    pose proof (bias_for_cases _ _ _ _ Eb) as Hb.
    assert (Hid : TIME_ZONE_ID_UNKNOWN <> TIME_ZONE_ID_STANDARD
                  /\ TIME_ZONE_ID_UNKNOWN <> TIME_ZONE_ID_DAYLIGHT
                  /\ TIME_ZONE_ID_STANDARD <> TIME_ZONE_ID_DAYLIGHT)
      by (repeat split; discriminate).
    destruct Hid as (N1 & N2 & N3).
    assert (Hsub : subtract_minutes utc_st bias
                   = (true, out_local_time s)).
    { destruct Hb as [(I & _ & ->) | [(I & _ & ->) | (I & _ & ->)]];
        destruct Hpair as [(J & P) | [(J & P) | (J & P)]];
        try exact P; rewrite I in J; congruence. }
    assert (Hrange : - max_minutes <= bias <= max_minutes).
    { unfold IsTimezoneInfoValid in Hinfo.
      repeat (apply andb_prop in Hinfo; destruct Hinfo as [Hinfo _]).
      pose proof (AreTimezoneBiasesValid_Bias _ Hinfo) as HB.
      unfold max_minutes.
      destruct Hb as [(_ & _ & ->) | [(_ & _ & ->) | (_ & _ & ->)]];
        try (match goal with
             | |- context [s32 ?z] => pose proof (s32_bounds z)
             end); lia. }
    split; [first [exact Ef | reflexivity] |].
    split; [exact (UTCTimeToLocalTime_four_objects _ _ _ Hvu Er) |].
    split; [reflexivity |].
    split.
    { destruct Hb as [(I & -> & B) | [(I & -> & B) | (I & -> & B)]];
        auto 6. }
    split; [exact Hsub |]. split; [first [exact Es | reflexivity] |].
    intros Hwf. exact (FileTimeSubtractMinutes_ticks _ _ _ Hwf Hrange Es).
Qed.

Lemma timestamp_nonempty this st :
  nonempty (ISO8601.GetUTCTimestampString this st) = true.
Proof.
  rewrite GetUTCTimestampString_unfold.
  apply nonempty_append_r. reflexivity.
Qed.

(** What [_local] or [_utc] points to is an object, outside of which
    everything outside the [TimeInfo] is. *)
Lemma pointee_object {M : Type} (ti : ref M TimeInfo.t) p :
  object ti -> object (ISO8601.pointee ti p).
Proof.
  intros (Hh & Hsl & Hss). unfold object, holds.
  cbn [load store ISO8601.pointee member].
  repeat split.
  - intros v m. rewrite Hh. destruct p; reflexivity.
  - intros m. transitivity (store ti (load ti m) m); [| apply Hsl].
    f_equal. destruct (load ti m), p; reflexivity.
  - intros v w m. rewrite Hh, Hss. f_equal.
    destruct (load ti m), p; reflexivity.
Qed.

Lemma pointee_unaffected {M U : Type} (ti : ref M TimeInfo.t)
  (q : ref M U) p :
  unaffected q ti -> unaffected q (ISO8601.pointee ti p).
Proof.
  intros Hu v m. cbn [load store ISO8601.pointee member]. apply Hu.
Qed.

(** [GetTimeInfo] on a [TimeInfo] in one piece, for a [FILETIME] outside
    the object. *)
Lemma GetTimeInfo_ti_ft_on_objects {M : Type} (this : ISO8601.t)
  (ti : ref M TimeInfo.t) (utc_ft : ref M FILETIME) (m : M) :
  object ti -> unaffected utc_ft ti ->
  time_info_both this ti utc_ft m
  = let u := load utc_ft m in
    let p := ISO8601.prefer_local_time this in
    match time_info_on this true u with
    | Aborted => Aborted
    | Returned (false, _) => Returned (false, store ti TimeInfo_cleared m)
    | Returned (true, dl) =>
        match time_info_on this false u with
        | Aborted => Aborted
        | Returned (false, _) =>
            Returned (false, store ti TimeInfo_cleared m)
        | Returned (true, du) =>
            Returned
              (true,
               store ti
                 (TimeInfo.mk (if p then dl else du) true
                    (ISO8601.GetUTCTimestampString this (DayDateTime.st du))
                    (if p then TimeInfo.alternate else TimeInfo.this_base)
                    (if p then TimeInfo.this_base else TimeInfo.alternate)
                    p (if p then du else dl)) m)
        end
    end.
Proof.
  intros Hobj Hu. pose proof Hobj as (Hh & Hsl & Hss).
  unfold ISO8601.GetTimeInfo_ti_ft. cbv zeta.
  change (TimeInfo.Clear (load ti m) true) with TimeInfo_cleared.
  rewrite ?Hh, ?Hss.
  set (T0 := TimeInfo.InitializeLocalTimePref TimeInfo_cleared
               (ISO8601.prefer_local_time this)).
  rewrite (GetTimeInfoLocalOrUTC_reads this
             (ISO8601.pointee ti (TimeInfo._local T0)) utc_ft true
             (store ti T0 m) (load utc_ft m)
             (pointee_object ti _ Hobj))
    by (intros d _; rewrite (pointee_unaffected ti utc_ft _ Hu); apply Hu).
  destruct (time_info_on this true (load utc_ft m)) as [[[] dl] |];
    [| | reflexivity].
  2:{ cbn [load store ISO8601.pointee member]. rewrite ?Hh, ?Hss.
      reflexivity. }
  cbn [load store ISO8601.pointee member]. rewrite ?Hh, ?Hss.
  set (T1 := TimeInfo.store T0 (TimeInfo._local T0) dl).
  rewrite (GetTimeInfoLocalOrUTC_reads this
             (ISO8601.pointee ti (TimeInfo._utc T1)) utc_ft false
             (store ti T1 m) (load utc_ft m)
             (pointee_object ti _ Hobj))
    by (intros d _; rewrite (pointee_unaffected ti utc_ft _ Hu); apply Hu).
  destruct (time_info_on this false (load utc_ft m)) as [[[] du] |];
    [| | reflexivity].
  2:{ cbn [load store ISO8601.pointee member]. rewrite ?Hh, ?Hss.
      reflexivity. }
  cbn [load store ISO8601.pointee member]. rewrite ?Hh, ?Hss.
  rewrite ?Hh, ?Hss.
  unfold T1, T0.
  destruct (ISO8601.prefer_local_time this);
    cbn [TimeInfo.InitializeLocalTimePref TimeInfo.local TimeInfo.utc
         TimeInfo._local TimeInfo._utc TimeInfo.store TimeInfo.deref
         TimeInfo.base TimeInfo._alternate_time_info TimeInfo_cleared
         TimeInfo.valid TimeInfo.timestamp TimeInfo._prefer_local_time
         TimeInfo.set_timestamp TimeInfo.set_valid TimeInfo.Clear];
    rewrite timestamp_nonempty; cbn [negb]; rewrite ?Hh, ?Hss;
    reflexivity.
Qed.


(** X30: on a [TimeInfo] whose pointers agree with [_prefer_local_time],
    as they do after [Clear], after [InitializeLocalTimePref] and in
    whatever [GetTimeInfo] writes, [PreferLocalTime] keeps that agreement
    and sets the preference; what [utc] and [local] point to is the same
    data as before, the base subobject holds the preferred one of the two,
    and [valid] and [timestamp] are untouched.  Calling it again with the
    same preference changes nothing, and calling it with the former
    preference gives the former object back. *)
Theorem PreferLocalTime_keeps_both_times (ti : TimeInfo.t)
  (new_pref v also_clear_base_subobjects : bool) :
  TimeInfo_consistent (TimeInfo.Clear ti also_clear_base_subobjects)
  /\ TimeInfo_consistent (TimeInfo.InitializeLocalTimePref ti v)
  /\ (TimeInfo_consistent ti ->
      let r := TimeInfo.PreferLocalTime ti new_pref in
      TimeInfo_consistent r
      /\ TimeInfo.prefer_local_time r = new_pref
      /\ TimeInfo.utc r = TimeInfo.utc ti
      /\ TimeInfo.local r = TimeInfo.local ti
      /\ TimeInfo.base r
         = (if new_pref then TimeInfo.local ti else TimeInfo.utc ti)
      /\ TimeInfo.valid r = TimeInfo.valid ti
      /\ TimeInfo.timestamp r = TimeInfo.timestamp ti
      /\ TimeInfo.PreferLocalTime r new_pref = r
      /\ TimeInfo.PreferLocalTime r (TimeInfo.prefer_local_time ti) = ti).
Proof.
  split; [| split].
  - split; reflexivity.
  - unfold TimeInfo_consistent. destruct v; split; reflexivity.
  - destruct ti as [b va ts pu pl pref alt].
    unfold TimeInfo_consistent.
    cbn [TimeInfo._utc TimeInfo._local TimeInfo._prefer_local_time].
    intros [-> ->]. destruct pref, new_pref; cbn; repeat split; reflexivity.
Qed.

End TimeInfoFacts.

(** ** Concrete runs of [GetTimeInfo] *)

Section TimeInfoExamples.
Import Ascii String Stream.
Local Open Scope string_scope.
Local Open Scope Z_scope.

(** The functions of [ISO8601] on the reference model, in a system
    without the dynamic time zone functions whose rule set is
    [us_eastern], for the sources compiled as they are. *)
Local Abbreviation time_info_eastern :=
  (ISO8601.GetTimeInfoLocalOrUTC false Win32.SystemTimeToFileTime
     Win32.FileTimeToSystemTime None None
     (TIME_ZONE_ID_DAYLIGHT, us_eastern)).
Local Abbreviation time_info_both_eastern :=
  (ISO8601.GetTimeInfo_ti_ft false Win32.SystemTimeToFileTime
     Win32.FileTimeToSystemTime None None
     (TIME_ZONE_ID_DAYLIGHT, us_eastern)).

(** Sunday 2013-08-11T18:46:00.085Z on Eastern time, for a caller whose
    [FILETIME] is next to its [DayDateTime]. *)
Example august_11_2013_eastern :
  time_info_eastern ISO8601_default beside_the_filetime the_filetime true
    (august_11_2013_ft, DayDateTime_cleared)
  = Returned
      (true,
       (august_11_2013_ft,
        DayDateTime_filled ISO8601_default true (mkFT 2126625872 30316193)
          (mkST 2013 8 0 11 14 46 0 85) 240))
  /\ DayDateTime.date
       (DayDateTime_filled ISO8601_default true (mkFT 2126625872 30316193)
          (mkST 2013 8 0 11 14 46 0 85) 240) = "2013-08-11"
  /\ DayDateTime.time
       (DayDateTime_filled ISO8601_default true (mkFT 2126625872 30316193)
          (mkST 2013 8 0 11 14 46 0 85) 240) = "14:46:00"
  /\ DayDateTime.offset
       (DayDateTime_filled ISO8601_default true (mkFT 2126625872 30316193)
          (mkST 2013 8 0 11 14 46 0 85) 240) = "-04:00".
Proof. repeat split; vm_compute; reflexivity. Qed.

(** [GetTimeInfo( ddt, ddt.ft )] on an object whose [ft] is not a valid
    [FILETIME]: the function clears the object before it looks at the
    [FILETIME], and returns [true] with the first day of 1601.
    [GetTimeInfo( ti, ti.ft )] on a [TimeInfo] whose [ft] is that of
    [august_11_2013]: the object is cleared first, tick 0 has no local time
    five hours behind, and the call returns [false]. *)
Example GetTimeInfo_in_place :
  IsFileTimeValid (mkFT 0 4294967295) = false
  /\ time_info_eastern ISO8601_default the_object
       (ISO8601.ft_of the_object) false
       (DayDateTime.set_ft DayDateTime_cleared (mkFT 0 4294967295))
     = Returned
         (true,
          DayDateTime_filled ISO8601_default false (mkFT 0 0)
            (mkST 1601 1 1 1 0 0 0 0) 0)
  /\ DayDateTime.date
       (DayDateTime_filled ISO8601_default false (mkFT 0 0)
          (mkST 1601 1 1 1 0 0 0 0) 0) = "1601-01-01"
  /\ time_info_both_eastern ISO8601_default the_object
       (ISO8601.ft_of (ISO8601.pointee the_object TimeInfo.this_base))
       (TimeInfo.store TimeInfo_cleared TimeInfo.this_base
          (DayDateTime.set_ft DayDateTime_cleared august_11_2013_ft))
     = Returned (false, TimeInfo_cleared).
Proof. repeat split; vm_compute; reflexivity. Qed.

Lemma GetTimeInfoLocalOrUTC_contract_witness :
  exists d,
    time_info_eastern ISO8601_default beside_the_filetime the_filetime true
      (august_11_2013_ft, DayDateTime_cleared)
    = Returned (true, (august_11_2013_ft, d))
    /\ nonempty (DayDateTime.day d) = true.
Proof.
  destruct (proj1 (GetTimeInfoLocalOrUTC_contract false
              Win32.SystemTimeToFileTime
              Win32.FileTimeToSystemTime None None
              (TIME_ZONE_ID_DAYLIGHT, us_eastern)
              ISO8601_default ISO8601_default
              beside_the_filetime the_filetime true
              (august_11_2013_ft, DayDateTime_cleared)
              (proj1 beside_the_filetime_object)) (proj2 beside_the_filetime_object))
    as (_ & _ & C).
  destruct august_11_2013_eastern as (E & _).
  rewrite E in C. cbv zeta in C.
  destruct C as (_ & _ & _ & _ & C).
  destruct (C eq_refl) as (_ & _ & _ & A & _).
  eexists. split; [exact E | exact A].
Defined.

Lemma GetTimeInfoLocalOrUTC_utc_witness :
  exists ok d,
    time_info_eastern ISO8601_default beside_the_filetime the_filetime false
      (august_11_2013_ft, DayDateTime_cleared)
    = Returned (ok, (august_11_2013_ft, d))
    /\ ok = true
    /\ DayDateTime.offset d = "Z".
Proof.
  destruct (proj1 (GetTimeInfoLocalOrUTC_utc false
              Win32.SystemTimeToFileTime
              Win32.FileTimeToSystemTime None None
              (TIME_ZONE_ID_DAYLIGHT, us_eastern)
              ISO8601_default beside_the_filetime the_filetime
              (august_11_2013_ft, DayDateTime_cleared)
              (proj1 beside_the_filetime_object)) (proj2 beside_the_filetime_object))
    as (ok & d & E & _ & _ & Hok & C).
  assert (Hsucc : ok = true).
  { apply Hok. split; [vm_compute; reflexivity |].
    exists august_11_2013. split; vm_compute; reflexivity. }
  exists ok, d. split; [exact E |]. split; [exact Hsucc |].
  destruct (C Hsucc) as (_ & _ & _ & _ & A & _). exact A.
Defined.

Lemma GetTimeInfoLocalOrUTC_local_witness :
  QuadPart (mkFT 2126625872 30316193)
  = QuadPart august_11_2013_ft - 600000000 * 240.
Proof.
  destruct august_11_2013_eastern as (E & _).
  destruct (proj2 (GetTimeInfoLocalOrUTC_local false
              Win32.SystemTimeToFileTime
              Win32.FileTimeToSystemTime None None
              (TIME_ZONE_ID_DAYLIGHT, us_eastern)
              ISO8601_default beside_the_filetime the_filetime
              (august_11_2013_ft, DayDateTime_cleared)
              (august_11_2013_ft,
               DayDateTime_filled ISO8601_default true
                 (mkFT 2126625872 30316193)
                 (mkST 2013 8 0 11 14 46 0 85) 240)
              (proj1 beside_the_filetime_object) (proj2 beside_the_filetime_object)) E)
    as (_ & _ & utc_st & s & _ & _ & _ & _ & _ & _ & A).
  apply A. vm_compute. intuition discriminate.
Defined.


Lemma PreferLocalTime_keeps_both_times_witness :
  DayDateTime.st
    (TimeInfo.utc (TimeInfo.PreferLocalTime TimeInfo_august_11_2013 true))
  = august_11_2013.
Proof.
  destruct (PreferLocalTime_keeps_both_times TimeInfo_august_11_2013
              true false false) as (_ & _ & C).
  destruct C as (_ & _ & A & _); [split; reflexivity |].
  rewrite A. reflexivity.
Defined.

End TimeInfoExamples.
